(** * Erigon: rpcdaemon health check and light-client Sentinel

    A shallow embedding of
    - [cmd/rpcdaemon/health/health.go] (both revisions of the file: the
      later one adds the [max_seconds_behind] header check),
    - the Sentinel's [createListener], [Start], [GetPeersCount] and
      [pingRequest],
    together with the properties the design document states about them.

    Conventions.  Go's [int] and [uint] are 64 bits wide and are modelled
    as [Z] with the wrap-around written out.  A Go [error] is an
    [option]: [None] is [nil].  Strings are byte strings.  The functions
    of Go's library that consult the Unicode tables ([strings.ToLower]
    and [strconv.Quote]) are written out for ASCII text; what they do on
    text with a byte of [0x80] or more is a parameter, [Go.Unicode]. *)

From Stdlib Require Import ZArith Lia Ascii String List.
From stdpp Require Import base option list strings gmap pretty.

Local Open Scope string_scope.
Local Open Scope list_scope.
Local Open Scope Z_scope.

(** ** Go basics *)

Module Go.

(** Two's-complement conversion to a signed 64-bit [int]. *)
Definition wrap64 (z : Z) : Z := (z + 2 ^ 63) `mod` 2 ^ 64 - 2 ^ 63.

(** Conversion to an unsigned 64-bit [uint]. *)
Definition wrapU64 (z : Z) : Z := z `mod` 2 ^ 64.

Definition maxInt : Z := 2 ^ 63 - 1.
Definition minInt : Z := - 2 ^ 63.
Definition maxUint64 : Z := 2 ^ 64 - 1.

(** A value of type [interface{}], as far as the code inspects it. *)
Inductive any :=
| anyNil
| anyBool (b : bool)
| anyUint64 (n : Z)
| anyOther (descr : string).

Definition byteZ (c : ascii) : Z := Z.of_nat (nat_of_ascii c).

Definition dquote : ascii := ascii_of_nat 34.
Definition backslash : ascii := ascii_of_nat 92.

(** Every byte is below [utf8.RuneSelf]. *)
Fixpoint isASCII (s : string) : bool :=
  match s with
  | EmptyString => true
  | String c r => (byteZ c <? 128) && isASCII r
  end.

(** What the library does with text that is not ASCII rests on the
    Unicode tables (case mapping, printable runes) and on UTF-8
    decoding, which are not written out here:
    [lowerUnicode s] is [strings.Map(unicode.ToLower, s)] and
    [quoteUnicode s] is [strconv.Quote(s)], both for [s] with a byte of
    [0x80] or more. *)
Record Unicode := {
  lowerUnicode : string -> string;
  quoteUnicode : string -> string
}.

(** The ASCII path of [strings.ToLower]: bytes outside [A-Z] are kept. *)
Definition lowerByte (c : ascii) : ascii :=
  if (65 <=? byteZ c) && (byteZ c <=? 90)
  then ascii_of_nat (nat_of_ascii c + 32) else c.

Fixpoint lowerASCII (s : string) : string :=
  match s with
  | EmptyString => EmptyString
  | String c r => String (lowerByte c) (lowerASCII r)
  end.

(** [strings.ToLower]: byte by byte on ASCII text, through the case
    tables otherwise. *)
Definition ToLower (u : Unicode) (s : string) : string :=
  if isASCII s then lowerASCII s else lowerUnicode u s.

(** [strings.EqualFold] against an ASCII constant without [k] or [s]
    (the only ASCII letters with non-ASCII case variants). *)
Definition EqualFold (s t : string) : bool :=
  bool_decide (lowerASCII s = lowerASCII t).

Fixpoint HasPrefix (s p : string) {struct p} : bool :=
  match p, s with
  | EmptyString, _ => true
  | String a p', String b s' => bool_decide (a = b) && HasPrefix s' p'
  | String _ _, EmptyString => false
  end.

Fixpoint dropBytes (n : nat) (s : string) : string :=
  match n, s with
  | S n', String _ r => dropBytes n' r
  | _, _ => s
  end.

Definition TrimPrefix (s p : string) : string :=
  if HasPrefix s p then dropBytes (String.length p) s else s.

(** [strings.Contains]. *)
Fixpoint Contains (s sub : string) : bool :=
  HasPrefix s sub ||
  match s with
  | EmptyString => false
  | String _ r => Contains r sub
  end.

(** *** [strconv.Atoi] *)

Inductive numErr := ErrSyntax | ErrRange.

Definition isDigit (c : ascii) : bool :=
  (48 <=? byteZ c) && (byteZ c <=? 57).

(** The digit loop of [strconv.ParseUint] in base 10 with 64 bits. *)
Fixpoint parseUintLoop (n : Z) (s : string) : numErr + Z :=
  match s with
  | EmptyString => inr n
  | String c r =>
      if isDigit c then
        if maxUint64 `div` 10 + 1 <=? n then inl ErrRange
        else
          let n1 := n * 10 + (byteZ c - 48) in
          if maxUint64 <? n1 then inl ErrRange else parseUintLoop n1 r
      else inl ErrSyntax
  end.

Definition ParseUint (s : string) : numErr + Z :=
  match s with
  | EmptyString => inl ErrSyntax
  | _ => parseUintLoop 0 s
  end.

(** [strconv.ParseInt(s, 10, 0)], which [Atoi] computes (its fast path
    for short strings returns the same values and errors). *)
Definition ParseInt (s : string) : numErr + Z :=
  match s with
  | EmptyString => inl ErrSyntax
  | String c r =>
      let neg := bool_decide (c = "-"%char) in
      let body := if neg || bool_decide (c = "+"%char) then r else s in
      match ParseUint body with
      | inl e => inl e
      | inr un =>
          if negb neg && (2 ^ 63 <=? un) then inl ErrRange
          else if neg && (2 ^ 63 <? un) then inl ErrRange
          else inr (if neg then - un else un)
      end
  end.

Definition Atoi (s : string) : numErr + Z := ParseInt s.

(** *** [strconv.Quote] *)

Definition hexDigit (n : Z) : ascii :=
  if n <? 10 then ascii_of_nat (Z.to_nat (48 + n))
  else ascii_of_nat (Z.to_nat (87 + n)).

(** One ASCII byte between the quotes: the quote and the backslash are
    escaped, a printable byte is kept, a control byte (and [0x7f]) is
    written as its escape. *)
Definition quoteByte (c : ascii) : string :=
  let b := byteZ c in
  if bool_decide (c = dquote) then String backslash (String dquote EmptyString)
  else if bool_decide (c = backslash) then String backslash (String backslash EmptyString)
  else if (32 <=? b) && (b <=? 126) then String c EmptyString
  else if b =? 7 then String backslash "a"
  else if b =? 8 then String backslash "b"
  else if b =? 12 then String backslash "f"
  else if b =? 10 then String backslash "n"
  else if b =? 13 then String backslash "r"
  else if b =? 9 then String backslash "t"
  else if b =? 11 then String backslash "v"
  else
    String backslash (String "x" (String (hexDigit (b `div` 16))
                                    (String (hexDigit (b `mod` 16)) EmptyString))).

Fixpoint quoteBody (s : string) : string :=
  match s with
  | EmptyString => EmptyString
  | String c r => quoteByte c +:+ quoteBody r
  end.

Definition quoteASCII (s : string) : string :=
  String dquote (quoteBody s +:+ String dquote EmptyString).

(** [strconv.Quote]: written out on ASCII text, where every rune is
    one byte; otherwise it decodes UTF-8 and asks [unicode.IsPrint]. *)
Definition Quote (u : Unicode) (s : string) : string :=
  if isASCII s then quoteASCII s else quoteUnicode u s.

(** [%d] of [fmt]. *)
Definition fmtInt (z : Z) : string := pretty z.

End Go.

(** ** cmd/rpcdaemon/health/health.go *)

Module Health.
Import Go.

(** *** Errors *)

(** The errors the package handles.  [errCheckDisabled] is the
    package-level sentinel; it is unexported and compared by identity,
    so an error of another origin is never it, whatever its text. *)
Inductive errorValue :=
| errCheckDisabled
| errorString (msg : string)
| NumError (fn num : string) (e : numErr).

Definition error : Type := option errorValue.

Definition numErrText (e : numErr) : string :=
  match e with
  | ErrSyntax => "invalid syntax"
  | ErrRange => "value out of range"
  end.

(** The [Error()] method. *)
Definition Error (unicode : Unicode) (e : errorValue) : string :=
  match e with
  | errCheckDisabled => "error check disabled"
  | errorString msg => msg
  | NumError fn num k =>
      "strconv." +:+ fn +:+ ": parsing " +:+ Quote unicode num +:+ ": " +:+ numErrText k
  end.

(** [errors.Is(err, errCheckDisabled)]. *)
Definition isCheckDisabled (err : error) : bool :=
  match err with
  | Some errCheckDisabled => true
  | _ => false
  end.

Definition urlPath : string := "/health".
Definition healthHeader : string := "X-ERIGON-HEALTHCHECK".

Definition StatusOK : Z := 200.
Definition StatusInternalServerError : Z := 500.

(** *** The request, the node's API and the response *)

Record requestBody := {
  MinPeerCount : option Z;  (* *uint *)
  BlockNumber : option Z    (* *rpc.BlockNumber *)
}.

(** An incoming request: its path, the values of the [healthHeader]
    header in order, and what reading the body to its end gives (an
    error text, or the bytes). *)
Record Request := {
  URLPath : string;
  HeaderValues : list string;
  Body : string + string
}.

(** [r.Header.Get(healthHeader)]: the first value, or the empty string. *)
Definition HeaderGet (r : Request) : string :=
  match HeaderValues r with
  | [] => EmptyString
  | h :: _ => h
  end.

(** The two API objects [parseAPI] extracts, as a snapshot of what
    their methods answer: an error text or a value. *)
Record NetAPI := { PeerCount : string + Z }.

Record EthAPI := {
  Syncing : string + any;
  GetBlockByNumber : string + gmap string any  (* at rpc.LatestBlockNumber *)
}.

Record API := { netAPI : NetAPI; ethAPI : EthAPI }.

(** What the handler asks of the node, in order. *)
Inductive Call :=
| CallCheckMinPeers (minPeerCount : Z)
| CallCheckBlockNumber (blockNumber : Z)
| CallSyncing
| CallGetBlockByNumber.

(** What a [Write] sends: raw bytes, or the [json.Marshal] of a
    [map[string]string], kept as the object it denotes. *)
Inductive Payload :=
| Bytes (s : string)
| JSONObject (m : gmap string string).

(** An [http.ResponseWriter] that records: the status line is fixed by
    the first [WriteHeader], or by the first [Write] as [200]. *)
Record ResponseWriter := {
  status : option Z;
  written : list Payload
}.

Definition newResponseWriter : ResponseWriter :=
  {| status := None; written := [] |}.

Definition WriteHeader (code : Z) (w : ResponseWriter) : ResponseWriter :=
  match status w with
  | Some _ => w
  | None => {| status := Some code; written := written w |}
  end.

Definition Write (p : Payload) (w : ResponseWriter) : ResponseWriter :=
  let w' := WriteHeader StatusOK w in
  {| status := status w'; written := written w' ++ [p] |}.

(** *** Computations that query the node *)

Definition M (A : Type) : Type := A * list Call.

Definition ret {A} (a : A) : M A := (a, []).

Definition bind {A B} (m : M A) (k : A -> M B) : M B :=
  let '(a, t1) := m in
  let '(b, t2) := k a in
  (b, t1 ++ t2).

Definition calling {A} (c : Call) (a : A) : M A := (a, [c]).

(** [err := m; if err != nil { return err }; k] *)
Definition orReturn (m : M error) (k : M error) : M error :=
  bind m (fun err => match err with Some e => ret (Some e) | None => k end).

(** [if c { err := m; if err != nil { return err } }; k] *)
Definition whenCheck (c : bool) (m : M error) (k : M error) : M error :=
  if c then orReturn m k else k.

Definition shouldChangeStatusCode (err : error) : bool :=
  match err with
  | None => false
  | Some _ => negb (isCheckDisabled err)
  end.

Definition errorStringOrOK (unicode : Unicode) (err : error) : string :=
  match err with
  | None => "HEALTHY"
  | Some e =>
      if isCheckDisabled err then "DISABLED"
      else "ERROR: " +:+ Error unicode e
  end.

Definition reportHealth (unicode : Unicode)
    (errParse errMinPeerCount errCheckBlock : error)
    (w : ResponseWriter) : error * ResponseWriter :=
  let statusCode := StatusOK in
  let errors : gmap string string := ∅ in
  let statusCode :=
    if shouldChangeStatusCode errParse then StatusInternalServerError else statusCode in
  let errors := <["healthcheck_query" := errorStringOrOK unicode errParse]> errors in
  let statusCode :=
    if shouldChangeStatusCode errMinPeerCount then StatusInternalServerError
    else statusCode in
  let errors := <["min_peer_count" := errorStringOrOK unicode errMinPeerCount]> errors in
  let statusCode :=
    if shouldChangeStatusCode errCheckBlock then StatusInternalServerError
    else statusCode in
  let errors := <["check_block" := errorStringOrOK unicode errCheckBlock]> errors in
  let w := WriteHeader statusCode w in
  (None, Write (JSONObject errors) w).

(** The two revisions of the file: the later one adds the
    [max_seconds_behind] header. *)
Inductive Revision := WithoutTimeCheck | WithTimeCheck.

Section Handler.

(** What [strings.ToLower] and [strconv.Quote] do outside ASCII. *)
Variable unicode : Unicode.

(** [checkBlockNumber] lives in a file of the package that is not
    part of this development; it is a parameter. *)
Variable checkBlockNumber : Z -> EthAPI -> error.

(** The text of the error [checkMinPeers] reports for a peer count
    below the minimum. *)
Variable notEnoughPeers : Z -> Z -> string.

(** [json.Unmarshal] into a [requestBody]: an error text or the body. *)
Variable Unmarshal : string -> string + requestBody.

(** Modelled from the spec: [checkMinPeers] is not among the files
    at hand.  The node exposes "a query for whether peer count meets
    a caller-supplied minimum threshold": the check fails when the
    peer count cannot be had or is below the minimum. *)
Definition checkMinPeers (minPeerCount : Z) (api : NetAPI) : error :=
  match PeerCount api with
  | inl msg => Some (errorString msg)
  | inr peerCount =>
      if peerCount <? minPeerCount
      then Some (errorString (notEnoughPeers peerCount minPeerCount))
      else None
  end.

Definition processSyncedCheck (rpcAPI : API) : M error :=
  calling CallSyncing
    match Syncing (ethAPI rpcAPI) with
    | inl msg => Some (errorString msg)
    | inr anyNil | inr (anyBool false) => None
    | inr _ => Some (errorString "not synced")
    end.

Definition processTimeCheck (seconds : Z) (rpcAPI : API) : M error :=
  calling CallGetBlockByNumber
    match GetBlockByNumber (ethAPI rpcAPI) with
    | inl msg => Some (errorString msg)
    | inr i =>
        let timestamp :=
          match i !! "timestamp" with
          | Some (anyUint64 cs) => wrap64 cs
          | _ => 0
          end in
        if seconds <? timestamp
        then Some (errorString ("got ts: " +:+ fmtInt timestamp +:+
                                ", need: " +:+ fmtInt seconds))
        else None
    end.

(** The four blocks of the loop body of [ProcessHealthcheck2]; each
    is run when its condition on the lower-cased header holds. *)
Definition checkBlockHeader (header : string) (rpcAPI : API) : M error :=
  let num := TrimPrefix header "check_block" in
  match Atoi num with
  | inl e => ret (Some (NumError "Atoi" num e))
  | inr blockNumber =>
      calling (CallCheckBlockNumber blockNumber)
        (checkBlockNumber blockNumber (ethAPI rpcAPI))
  end.

Definition minPeerCountHeader (header : string) (rpcAPI : API) : M error :=
  let num := TrimPrefix header "min_peer_count" in
  match Atoi num with
  | inl e => ret (Some (NumError "Atoi" num e))
  | inr minPeers =>
      calling (CallCheckMinPeers (wrapU64 minPeers))
        (checkMinPeers (wrapU64 minPeers) (netAPI rpcAPI))
  end.

Definition maxSecondsBehindHeader (now : Z) (header : string) (rpcAPI : API)
  : M error :=
  let num := TrimPrefix header "max_seconds_behind" in
  match Atoi num with
  | inl e => ret (Some (NumError "Atoi" num e))
  | inr secs =>
      let secs := if secs <? 0 then 600 else secs in
      processTimeCheck (wrap64 (now - secs)) rpcAPI
  end.

(** One iteration of the loop; [k] is the rest of the loop. *)
Definition processHeader (rev : Revision) (now : Z) (rpcAPI : API)
    (header : string) (k : M error) : M error :=
  let header := ToLower unicode header in
  whenCheck (bool_decide (header = "synced")) (processSyncedCheck rpcAPI)
 (whenCheck (HasPrefix header "check_block") (checkBlockHeader header rpcAPI)
 (whenCheck (HasPrefix header "min_peer_count") (minPeerCountHeader header rpcAPI)
    match rev with
    | WithoutTimeCheck => k
    | WithTimeCheck =>
        whenCheck (HasPrefix header "max_seconds_behind")
          (maxSecondsBehindHeader now header rpcAPI) k
    end)).

Fixpoint processHeaders (rev : Revision) (now : Z) (rpcAPI : API)
    (headers : list string) : M error :=
  match headers with
  | [] => ret None
  | header :: rest =>
      processHeader rev now rpcAPI header (processHeaders rev now rpcAPI rest)
  end.

Definition ProcessHealthcheck2 (rev : Revision) (now : Z) (r : Request)
    (rpcAPI : API) : M error :=
  processHeaders rev now rpcAPI (HeaderValues r).

Definition parseHealthCheckBody (reader : string + string)
  : requestBody * error :=
  let body := {| MinPeerCount := None; BlockNumber := None |} in
  match reader with
  | inl msg => (body, Some (errorString msg))
  | inr bodyBytes =>
      match Unmarshal bodyBytes with
      | inl msg => (body, Some (errorString msg))
      | inr body => (body, None)
      end
  end.

(** The handler: whether the request was a health check, the
    response, and the queries made to the node. *)
Definition ProcessHealthcheckIfNeeded (rev : Revision) (now : Z)
    (w : ResponseWriter) (r : Request) (rpcAPI : API)
  : M (bool * ResponseWriter) :=
  if negb (EqualFold (URLPath r) urlPath) then ret (false, w)
  else
    let header := HeaderGet r in
    if negb (bool_decide (header = EmptyString)) then
      bind (ProcessHealthcheck2 rev now r rpcAPI) (fun err =>
        let w :=
          match err with
          | Some _ => WriteHeader StatusInternalServerError w
          | None => w
          end in
        ret (true, Write (Bytes (errorStringOrOK unicode err)) w))
    else
      let errMinPeerCount := Some errCheckDisabled in
      let errCheckBlock := Some errCheckDisabled in
      let '(body, errParse) := parseHealthCheckBody (Body r) in
      bind
        match errParse with
        | Some _ => ret (errMinPeerCount, errCheckBlock)
        | None =>
            bind
              match MinPeerCount body with
              | Some n => calling (CallCheckMinPeers n) (checkMinPeers n (netAPI rpcAPI))
              | None => ret errMinPeerCount
              end (fun errMinPeerCount =>
            bind
              match BlockNumber body with
              | Some n =>
                  calling (CallCheckBlockNumber n) (checkBlockNumber n (ethAPI rpcAPI))
              | None => ret errCheckBlock
              end (fun errCheckBlock =>
            ret (errMinPeerCount, errCheckBlock)))
        end (fun '(errMinPeerCount, errCheckBlock) =>
      let '(_, w) := reportHealth unicode errParse errMinPeerCount errCheckBlock w in
      ret (true, w)).

End Handler.

(** *** Reading a response *)

(** The names under which the JSON-body mode reports its checks. *)
Definition checkNames : gset string :=
  {[ "healthcheck_query"; "min_peer_count"; "check_block" ]}.

(** The value a check is reported with. *)
Definition checkValue (v : string) : Prop :=
  v = "HEALTHY" ∨ v = "DISABLED" ∨ HasPrefix v "ERROR: " = true.

(** A check that is not disabled produced no error. *)
Definition passedUnlessDisabled (err : error) : Prop :=
  err ≠ Some errCheckDisabled → err = None.

(** A header value that no block of the loop of [ProcessHealthcheck2]
    reacts to, in the given revision of the file: the conditions of the
    loop body, on the value as [strings.ToLower] returns it. *)
Definition unrecognised (unicode : Unicode) (rev : Revision) (header : string)
  : bool :=
  let header := ToLower unicode header in
  negb (bool_decide (header = "synced"))
  && negb (HasPrefix header "check_block")
  && negb (HasPrefix header "min_peer_count")
  && match rev with
     | WithoutTimeCheck => true
     | WithTimeCheck => negb (HasPrefix header "max_seconds_behind")
     end.


End Health.

(** ** The wire codec *)

Module Codec.

Abbreviation byte := ascii (only parsing).

(** *** Fixed-schema serialization: little-endian fields *)

(** A schema is the list of the byte widths of its fields; a message
    is the list of its field values. *)
Definition Schema : Type := list nat.
Definition Message : Type := list N.

Fixpoint putLE (width : nat) (v : N) : list byte :=
  match width with
  | O => []
  | S w => ascii_of_N (v `mod` 256) :: putLE w (v `div` 256)
  end.

Fixpoint getLE (bs : list byte) : N :=
  match bs with
  | [] => 0%N
  | b :: r => (N_of_ascii b + 256 * getLE r)%N
  end.

Fixpoint validFor (sch : Schema) (m : Message) : Prop :=
  match sch, m with
  | [], [] => True
  | w :: sch', v :: m' => (v < 2 ^ (8 * N.of_nat w))%N ∧ validFor sch' m'
  | _, _ => False
  end.

Fixpoint serialize (sch : Schema) (m : Message) : list byte :=
  match sch, m with
  | w :: sch', v :: m' => putLE w v ++ serialize sch' m'
  | _, _ => []
  end.

(** Deserialization fails on a short input and on trailing bytes. *)
Fixpoint deserialize (sch : Schema) (bs : list byte) : option Message :=
  match sch with
  | [] => match bs with [] => Some [] | _ => None end
  | w :: sch' =>
      if (length bs <? w)%nat then None
      else
        match deserialize sch' (drop w bs) with
        | Some m => Some (getLE (take w bs) :: m)
        | None => None
        end
  end.

(** *** The length prefix: an unsigned varint of at most ten bytes *)

Fixpoint putUvarint (fuel : nat) (n : N) : list byte :=
  match fuel with
  | O => []
  | S f =>
      if (n <? 128)%N then [ascii_of_N n]
      else ascii_of_N (n `mod` 128 + 128) :: putUvarint f (n `div` 128)
  end.

(** Reads a varint: the value and the bytes after it. *)
Fixpoint readUvarint (fuel : nat) (bs : list byte) : option (N * list byte) :=
  match fuel, bs with
  | S f, b :: r =>
      let x := N_of_ascii b in
      if (x <? 128)%N then Some (x, r)
      else
        match readUvarint f r with
        | Some (hi, rest) => Some ((x - 128) + 128 * hi, rest)%N
        | None => None
        end
  | _, _ => None
  end.

Definition MaxVarintLen64 : nat := 10.

Section Frames.

(** Modelled from the spec: the streaming block compression is not
    described beyond being one; it is a pair of functions. *)
Variable compress : list byte -> list byte.
Variable decompress : list byte -> option (list byte).

(** Modelled from the spec: the configured maximum message size. *)
Variable maxMessageSize : N.

(** Modelled from the spec: the codec is not among the files at
    hand.  "Serialize the message to its fixed schema, compress with
    a streaming block-compression scheme, emit the compressed block
    prefixed by a length-prefix varint". *)
Definition encode (sch : Schema) (m : Message) : list byte :=
  let block := compress (serialize sch m) in
  putUvarint MaxVarintLen64 (N.of_nat (length block)) ++ block.

(** Modelled from the spec: "for response frames additionally
    prepend a 1-byte status code before the length-prefixed block". *)
Definition encodeResponse (code : byte) (sch : Schema) (m : Message)
  : list byte :=
  code :: encode sch m.

(** Modelled from the spec: "read the varint, read exactly that many
    compressed bytes, decompress, deserialize, and reject any
    remaining trailing bytes as a schema violation.  A declared
    length exceeding a configured maximum message size is rejected
    immediately, before decompression".  The source is a stream: what
    follows the frame is not read.  The result is the message and its
    raw (decompressed) bytes. *)
Definition decode (sch : Schema) (source : list byte)
  : option (Message * list byte) :=
  match readUvarint MaxVarintLen64 source with
  | None => None
  | Some (len, rest) =>
      if (maxMessageSize <? len)%N then None
      else if (length rest <? N.to_nat len)%nat then None
      else
        match decompress (take (N.to_nat len) rest) with
        | None => None
        | Some raw =>
            match deserialize sch raw with
            | None => None
            | Some m => Some (m, raw)
            end
        end
  end.

End Frames.

(** The message kinds the design names, with the schema of those the
    sources show: a ping is one 8-byte sequence number. *)
Definition pingSchema : Schema := [8%nat].

End Codec.

(** ** The Sentinel *)

Module Sentinel.
Import Go.

Abbreviation byte := ascii (only parsing).

(** *** Addresses ([net.IP]) *)

(** An IP is a byte slice; [nil] is the empty list. *)
Definition IP : Type := list byte.

Definition isNil (ip : IP) : bool :=
  match ip with [] => true | _ => false end.

Definition zeroByte : byte := ascii_of_nat 0.
Definition ffByte : byte := ascii_of_nat 255.

Definition IPv4len : nat := 4.
Definition IPv6len : nat := 16.

Definition v4InV6Prefix : list byte := replicate 10 zeroByte ++ [ffByte; ffByte].

(** [net.IPv4(a, b, c, d)]: the 16-byte form of an IPv4 address. *)
Definition IPv4 (a b c d : byte) : IP := v4InV6Prefix ++ [a; b; c; d].

Definition IPv4zero : IP := IPv4 zeroByte zeroByte zeroByte zeroByte.
Definition IPv6zero : IP := replicate 16 zeroByte.

Definition To4 (ip : IP) : IP :=
  if bool_decide (length ip = IPv4len) then ip
  else if bool_decide (length ip = IPv6len)
          && bool_decide (take 12 ip = v4InV6Prefix)
  then drop 12 ip
  else [].

Definition To16 (ip : IP) : IP :=
  match ip with
  | [a; b; c; d] => IPv4 a b c d
  | _ => if bool_decide (length ip = IPv6len) then ip else []
  end.

(** *** State *)

Record SentinelConfig := {
  IpAddr : string;
  Port : Z;
  TCPPort : Z
}.

Record MetadataV2 := { SeqNumber : N; Attnets : N; Syncnets : N }.

(** The discovery listener, by the socket it was given. *)
Record UDPv5 := { network : string; bindIP : IP; bindPort : Z }.

Record Topic := { ListPeers : list string }.
Record GossipSubscription := { topic : Topic }.
Record GossipManager := { subscriptions : gmap string GossipSubscription }.

Record Sentinel := {
  started : bool;
  listener : option UDPv5;
  cfg : SentinelConfig;
  hostPeers : list string;         (* s.host.Network().Peers() *)
  metadataV1 : option MetadataV2;
  subManager : option GossipManager
}.

(** What the operating system and the libraries answer at startup:
    [None] is success, [Some msg] an error. *)
Record System := {
  ListenUDP : string -> IP -> Z -> option string;
  OpenDB : option string;
  localNodeSeq : N;
  ListenV5 : option string;
  connectToBootnodes : option string
}.

Inductive Event :=
| EvLogWarn (msg : string)
| EvListenUDP (network : string) (ip : IP) (port : Z)
| EvOpenDB
| EvStartHandlers
| EvListenV5
| EvConnectToBootnodes
| EvGoListenForPeers
| EvNewGossipManager.

Section Startup.

(** [net.ParseIP]: the parsed address, [nil] for text that is not
    an address. *)
Variable ParseIP : string -> IP.

Variable sys : System.

Definition createLocalNode : (string + N) * list Event :=
  match OpenDB sys with
  | Some err => (inl ("could not open node's peer database: " +:+ err), [EvOpenDB])
  | None => (inr (localNodeSeq sys), [EvOpenDB])
  end.

Definition createListener (s : Sentinel)
  : (string + UDPv5) * Sentinel * list Event :=
  let ipAddr := IpAddr (cfg s) in
  let port := Port (cfg s) in
  let ip := ParseIP ipAddr in
  if isNil (To4 ip) then
    (inl ("IPV4 address not provided instead " +:+ ipAddr +:+ " was provided"), s, [])
  else
    let version : option (IP * string) :=
      if negb (isNil (To16 ip)) && isNil (To4 ip) then Some (IPv6zero, "udp6")
      else if negb (isNil (To4 ip)) then Some (IPv4zero, "udp4")
      else None in
    match version with
    | None => (inl ("bad ip address provided, " +:+ ipAddr +:+ " was provided"), s, [])
    | Some (bindIP, networkVersion) =>
        let ev1 := [EvListenUDP networkVersion bindIP port] in
        match ListenUDP sys networkVersion bindIP port with
        | Some err => (inl err, s, ev1)
        | None =>
            let '(localNode, ev2) := createLocalNode in
            match localNode with
            | inl err => (inl err, s, ev1 ++ ev2)
            | inr seq =>
                let s :=
                  {| started := started s; listener := listener s; cfg := cfg s;
                     hostPeers := hostPeers s;
                     metadataV1 :=
                       Some {| SeqNumber := seq; Attnets := 0; Syncnets := 0 |};
                     subManager := subManager s |} in
                let ev3 := ev1 ++ ev2 ++ [EvStartHandlers; EvListenV5] in
                match ListenV5 sys with
                | Some err => (inl err, s, ev3)
                | None =>
                    (inr {| network := networkVersion; bindIP := bindIP;
                            bindPort := port |}, s, ev3)
                end
            end
        end
    end.

Definition setListener (l : option UDPv5) (s : Sentinel) : Sentinel :=
  {| started := started s; listener := l; cfg := cfg s;
     hostPeers := hostPeers s; metadataV1 := metadataV1 s;
     subManager := subManager s |}.

Definition setSubManager (g : GossipManager) (s : Sentinel) : Sentinel :=
  {| started := started s; listener := listener s; cfg := cfg s;
     hostPeers := hostPeers s; metadataV1 := metadataV1 s;
     subManager := Some g |}.

(** [Start]: the error returned ([None] is [nil]), the Sentinel
    afterwards, and what was done. *)
Definition Start (s : Sentinel) : option string * Sentinel * list Event :=
  let ev0 := if started s then [EvLogWarn "Sentinel already running"] else [] in
  let '(res, s, ev1) := createListener s in
  match res with
  | inl err =>
      (Some ("failed creating sentinel listener err=" +:+ err),
       setListener None s, ev0 ++ ev1)
  | inr l =>
      let s := setListener (Some l) s in
      match connectToBootnodes sys with
      | Some err =>
          (Some ("failed to connect to bootnodes err=" +:+ err), s,
           ev0 ++ ev1 ++ [EvConnectToBootnodes])
      | None =>
          (None, setSubManager {| subscriptions := ∅ |} s,
           ev0 ++ ev1 ++ [EvConnectToBootnodes; EvGoListenForPeers;
                          EvNewGossipManager])
      end
  end.

End Startup.

(** *** Peer count *)

Section PeerCount.

(** The topic name constant, declared in a file that is not part of
    this development. *)
Variable LightClientFinalityUpdateTopic : string.

(** The loop over the subscriptions, in the order the map is ranged
    over: the last subscription whose topic contains the name. *)
Fixpoint lastFinalitySub (entries : list (string * GossipSubscription))
    (sub : option GossipSubscription) : option GossipSubscription :=
  match entries with
  | [] => sub
  | (topic, currSub) :: rest =>
      lastFinalitySub rest
        (if Contains topic LightClientFinalityUpdateTopic then Some currSub else sub)
  end.

(** [GetPeersCount], given the order [entries] in which the range
    statement visits the map; [None] is the nil dereference of a
    Sentinel without gossip manager. *)
Definition GetPeersCountIn (entries : list (string * GossipSubscription))
    (s : Sentinel) : option nat :=
  match subManager s with
  | None => None
  | Some _ =>
      match lastFinalitySub entries None with
      | None => Some (length (hostPeers s))
      | Some sub => Some (length (ListPeers (topic sub)))
      end
  end.

(** Go leaves the iteration order of a map open: [GetPeersCount] may
    return [n] when some order of the entries gives it. *)
Definition GetPeersCount (s : Sentinel) (n : nat) : Prop :=
  ∃ g entries,
    subManager s = Some g ∧
    entries ≡ₚ map_to_list (subscriptions g) ∧
    GetPeersCountIn entries s = Some n.

End PeerCount.

(** *** The outbound ping exchange *)

Record Ping := { Id : N }.

(** What the peer-to-peer layer and the stream codec answer during one
    exchange; an error is [Some msg]. *)
Record Network := {
  connectToRandomPeer : string + string;     (* error, or the peer's ID *)
  NewStream : option string;
  WritePacket : Ping -> Z * option string;   (* n, err *)
  CloseWrite : option string;
  ReadByte : byte * option string;           (* code, err *)
  Decode : Ping * option string              (* what is decoded into rping, err *)
}.

(** What the exchange does, in order. *)
Inductive Op :=
| OpWarn (msg : string)
| OpInfoSent (peer : string)
| OpInfoReceived (peer : string) (code : byte) (pong : N)
| OpNewStream (peer protocol : string)
| OpWritePacket (pkt : Ping)
| OpCloseWrite
| OpReadByte
| OpDecode
| OpClose.

(** The return statement that ends the call. *)
Inductive Exit :=
| ExitNoPeer
| ExitNoStream
| ExitWriteFailed
| ExitWrongSize
| ExitDecodeFailed
| ExitDone.

(** [defer d]: [d] runs when the body returns, by whichever return. *)
Definition deferring (d : Op) (body : Exit * list Op) : Exit * list Op :=
  (body.1, body.2 ++ [d]).

Section PingRequest.

(** The protocol prefix constant, declared in a file that is not
    part of this development. *)
Variable ProtocolPrefix : string.

Variable net : Network.

Definition warnIf (err : option string) (msg : string) : list Op :=
  match err with
  | Some _ => [OpWarn msg]
  | None => []
  end.

(** The part of [pingRequest] after [defer stream.Close()]. *)
Definition exchange (peer : string) : Exit * list Op :=
  let pingPacket := {| Id := 1 |} in
  let '(n, err) := WritePacket net pingPacket in
  let t := [OpWritePacket pingPacket] in
  match err with
  | Some _ => (ExitWriteFailed, t ++ [OpWarn "failed to write ping request packet"])
  | None =>
      if negb (n =? 8) then (ExitWrongSize, t ++ [OpWarn "wrong ping packet size"])
      else
        let t := t ++ OpCloseWrite ::
                   warnIf (CloseWrite net) "fail close ping request write " in
        let t := t ++ [OpInfoSent peer] in
        let rping := {| Id := 0 |} in
        let '(code, err) := ReadByte net in
        let t := t ++ OpReadByte :: warnIf err "fail read response code" in
        if bool_decide (byteZ code = 1) then
          let '(decoded, err) := Decode net in
          let t := t ++ [OpDecode] in
          match err with
          | Some _ => (ExitDecodeFailed, t ++ [OpWarn "fail decode ping response"])
          | None => (ExitDone, t ++ [OpInfoReceived peer code (Id decoded)])
          end
        else (ExitDone, t ++ [OpInfoReceived peer code (Id rping)])
  end.

Definition pingRequest : Exit * list Op :=
  match connectToRandomPeer net with
  | inl _ => (ExitNoPeer, [OpWarn "Failed to ping request"])
  | inr peer =>
      let t := [OpNewStream peer (ProtocolPrefix +:+ "/ping/1/ssz_snappy")] in
      match NewStream net with
      | Some _ =>
          (ExitNoStream, t ++ [OpWarn "failed to create stream to send ping request"])
      | None =>
          let '(exit, t') := deferring OpClose (exchange peer) in
          (exit, t ++ t')
      end
  end.

End PingRequest.

(** *** Reading a trace *)

#[global] Instance Ping_eq_dec : EqDecision Ping.
Proof. solve_decision. Defined.

#[global] Instance Op_eq_dec : EqDecision Op.
Proof. solve_decision. Defined.

#[global] Instance Exit_eq_dec : EqDecision Exit.
Proof. solve_decision. Defined.

(** How often [o] is done in trace [t]. *)
Definition countOp (o : Op) (t : list Op) : nat :=
  length (filter (λ x, x = o) t).

(** The part of [t] before [o] is first done (all of [t] if it never is). *)
Fixpoint beforeFirst (o : Op) (t : list Op) : list Op :=
  match t with
  | [] => []
  | x :: r => if decide (x = o) then [] else x :: beforeFirst o r
  end.

(** The log lines among the things done, and the trace without them:
    what is done to the network and the stream. *)
Definition isLog (o : Op) : bool :=
  match o with
  | OpWarn _ | OpInfoSent _ | OpInfoReceived _ _ _ => true
  | _ => false
  end.

Definition streamOps (t : list Op) : list Op :=
  filter (λ o, isLog o = false) t.

(** The stream operations of a complete exchange, in the order of the
    source. *)
Definition exchangeOps : list Op :=
  [OpWritePacket {| Id := 1 |}; OpCloseWrite; OpReadByte; OpDecode].

(** *** Construction *)

(** What the libraries answer while a Sentinel is built: for
    [enode.Parse] an error or the node, for the others [None] on
    success; [libp2p.New] gives the host, here the peers its network
    reports. *)
Record Libraries := {
  Parse : string -> string + string;
  GenerateKey : option string;
  buildOptions : option string;
  libp2pNew : string + list string;
  NewGossipSub : option string
}.

Inductive Built :=
| BuiltParse (bootnode : string)
| BuiltGenerateKey
| BuiltOptions
| BuiltHost
| BuiltRemoveStreamHandler
| BuiltGossipSub.

Section Construction.

Variable libs : Libraries.

(** The loop of [New] over the boot nodes: the parsed nodes in the
    order of the configuration, or the error of the first text that
    does not parse. *)
Fixpoint parseBootNodes (bootNodes : list string)
  : (string + list string) * list Built :=
  match bootNodes with
  | [] => (inr [], [])
  | bootnode :: rest =>
      match Parse libs bootnode with
      | inl err => (inl err, [BuiltParse bootnode])
      | inr newNode =>
          let '(res, t) := parseBootNodes rest in
          (match res with
           | inl err => inl err
           | inr enodes => inr (newNode :: enodes)
           end, BuiltParse bootnode :: t)
      end
  end.

(** [New]: an error, or the Sentinel with the boot nodes of its
    discovery configuration; and what was done. *)
Definition New (cfg : SentinelConfig) (bootNodes : list string)
  : (string + Sentinel * list string) * list Built :=
  let '(res, t) := parseBootNodes bootNodes in
  match res with
  | inl err => (inl err, t)
  | inr enodes =>
      let t := t ++ [BuiltGenerateKey] in
      match GenerateKey libs with
      | Some err => (inl err, t)
      | None =>
          let t := t ++ [BuiltOptions] in
          match buildOptions libs with
          | Some err => (inl err, t)
          | None =>
              let t := t ++ [BuiltHost] in
              match libp2pNew libs with
              | inl err => (inl err, t)
              | inr peers =>
                  let t := t ++ [BuiltRemoveStreamHandler; BuiltGossipSub] in
                  match NewGossipSub libs with
                  | Some err =>
                      (inl ("[Sentinel] failed to subscribe to gossip err=" +:+ err), t)
                  | None =>
                      (inr ({| started := false; listener := None; cfg := cfg;
                               hostPeers := peers; metadataV1 := None;
                               subManager := None |}, enodes), t)
                  end
              end
          end
      end
  end.

End Construction.

(** *** Reading a startup *)

(** The steps of a complete [createListener], in the order of the
    source. *)
Definition startupSteps (port : Z) : list Event :=
  [EvListenUDP "udp4" IPv4zero port; EvOpenDB; EvStartHandlers; EvListenV5].

Definition withStarted (b : bool) (s : Sentinel) : Sentinel :=
  {| started := b; listener := listener s; cfg := cfg s;
     hostPeers := hostPeers s; metadataV1 := metadataV1 s;
     subManager := subManager s |}.

Definition withMetadata (seq : N) (s : Sentinel) : Sentinel :=
  {| started := started s; listener := listener s; cfg := cfg s;
     hostPeers := hostPeers s;
     metadataV1 := Some {| SeqNumber := seq; Attnets := 0; Syncnets := 0 |};
     subManager := subManager s |}.

(** The conditions under which every step of [createListener] succeeds. *)
Definition listenerConditions (ParseIP : string -> IP) (sys : System)
    (s : Sentinel) : Prop :=
  To4 (ParseIP (IpAddr (cfg s))) ≠ [] ∧
  ListenUDP sys "udp4" IPv4zero (Port (cfg s)) = None ∧
  OpenDB sys = None ∧
  ListenV5 sys = None.

End Sentinel.

(** ** Concrete instances used in examples *)

Module Examples.
Import Go.

(** The examples are ASCII text, which the library handles without
    its tables; here the tables leave other text as it is. *)
Definition plain : Unicode :=
  {| lowerUnicode := fun s => s; quoteUnicode := fun s => s |}.

(** The case tables at the one text asked about: U+0130, the capital
    I with a dot above, lower-cases to [i]. *)
Definition dottedCapitalI : Unicode :=
  {| lowerUnicode := fun s =>
       if bool_decide (s = "mİn_peer_count5") then "min_peer_count5" else s;
     quoteUnicode := fun s => s |}.

(** A node with three peers, in sync, whose latest block carries the
    timestamp 1000. *)
Definition node3 : Health.API :=
  {| Health.netAPI := {| Health.PeerCount := inr 3 |};
     Health.ethAPI :=
       {| Health.Syncing := inr anyNil;
          Health.GetBlockByNumber := inr (<["timestamp" := anyUint64 1000]> ∅) |} |}.

Definition blockKnown : Z -> Health.EthAPI -> Health.error := fun _ _ => None.

Definition notEnoughPeers (peerCount minPeerCount : Z) : string :=
  "not enough peers: " +:+ fmtInt peerCount +:+
  " (minimum " +:+ fmtInt minPeerCount +:+ ")".

(** A decoder that accepts no body. *)
Definition rejectAll : string -> string + Health.requestBody :=
  fun _ => inl "unexpected end of JSON input".

(** A decoder that reads every body as the request for at least five
    peers. *)
Definition wantFivePeers : string -> string + Health.requestBody :=
  fun _ => inr {| Health.MinPeerCount := Some 5; Health.BlockNumber := None |}.

Definition healthRequest (headers : list string) : Health.Request :=
  {| Health.URLPath := "/health";
     Health.HeaderValues := headers;
     Health.Body := inr EmptyString |}.

(** The text the scenario of the design document looks for in the
    body, [name] being the check: the member of a JSON object whose
    value starts with [ERROR: ]. *)
Definition errorMember (name : string) : string :=
  Quote plain name +:+ ":" +:+ String dquote "ERROR: ".

(** Whether a payload reports check [name] as failed in that shape. *)
Definition reportsError (name : string) (p : Health.Payload) : bool :=
  match p with
  | Health.Bytes s => Contains s (errorMember name)
  | Health.JSONObject m =>
      match m !! name with
      | Some v => HasPrefix v "ERROR: "
      | None => false
      end
  end.

(** A block "compression" that stores the block as it is. *)
Definition store (block : list ascii) : list ascii := block.
Definition stored (block : list ascii) : option (list ascii) := Some block.

(** A registry with the ping protocol. *)
Definition protocols : gmap string Codec.Schema := {[ "ping" := Codec.pingSchema ]}.

(** The IPv6 loopback address [::1], and a parser that knows it and
    [127.0.0.1]; any other text is no address to it. *)
Definition loopback6 : Sentinel.IP :=
  replicate 15 Sentinel.zeroByte ++ [ascii_of_nat 1].

Definition parseKnown (s : string) : Sentinel.IP :=
  if bool_decide (s = "::1") then loopback6
  else if bool_decide (s = "127.0.0.1")
       then Sentinel.IPv4 (ascii_of_nat 127) Sentinel.zeroByte Sentinel.zeroByte
              (ascii_of_nat 1)
       else [].

(** A system on which every startup step succeeds. *)
Definition quietSystem : Sentinel.System :=
  {| Sentinel.ListenUDP := λ _ _ _, None;
     Sentinel.OpenDB := None;
     Sentinel.localNodeSeq := 1%N;
     Sentinel.ListenV5 := None;
     Sentinel.connectToBootnodes := None |}.

Definition configured (ipAddr : string) : Sentinel.Sentinel :=
  {| Sentinel.started := false;
     Sentinel.listener := None;
     Sentinel.cfg := {| Sentinel.IpAddr := ipAddr; Sentinel.Port := 7777;
                        Sentinel.TCPPort := 9000 |};
     Sentinel.hostPeers := [];
     Sentinel.metadataV1 := None;
     Sentinel.subManager := None |}.

(** A peer that answers a ping with status 0 and the ping it was sent. *)
Definition echoingPeer : Sentinel.Network :=
  {| Sentinel.connectToRandomPeer := inr "B";
     Sentinel.NewStream := None;
     Sentinel.WritePacket := λ _, (8, None);
     Sentinel.CloseWrite := None;
     Sentinel.ReadByte := (Sentinel.zeroByte, None);
     Sentinel.Decode := ({| Sentinel.Id := 1 |}, None) |}.

(** A stream on which the write of the ping reports seven bytes. *)
Definition shortWrite : Sentinel.Network :=
  {| Sentinel.connectToRandomPeer := inr "B";
     Sentinel.NewStream := None;
     Sentinel.WritePacket := λ _, (7, None);
     Sentinel.CloseWrite := None;
     Sentinel.ReadByte := (Sentinel.zeroByte, None);
     Sentinel.Decode := ({| Sentinel.Id := 1 |}, None) |}.

Definition finalityTopic : string := "light_client_finality_update".

(** A started Sentinel with five connected peers, two of which are in
    the mesh of the finality-update topic. *)
Definition fivePeers : Sentinel.Sentinel :=
  {| Sentinel.started := false;
     Sentinel.listener := None;
     Sentinel.cfg := {| Sentinel.IpAddr := "127.0.0.1"; Sentinel.Port := 7777;
                        Sentinel.TCPPort := 9000 |};
     Sentinel.hostPeers := ["p1"; "p2"; "p3"; "p4"; "p5"];
     Sentinel.metadataV1 := None;
     Sentinel.subManager :=
       Some {| Sentinel.subscriptions :=
                 {[ "/eth2/4a26c58b/light_client_finality_update/ssz_snappy" :=
                      {| Sentinel.topic := {| Sentinel.ListPeers := ["p1"; "p2"] |} |} ]} |} |}.

(** A node with three peers, in sync, that answers the request for the
    latest block with [block]. *)
Definition nodeAnswering (block : string + gmap string any) : Health.API :=
  {| Health.netAPI := {| Health.PeerCount := inr 3 |};
     Health.ethAPI :=
       {| Health.Syncing := inr anyNil; Health.GetBlockByNumber := block |} |}.

(** A node whose latest block carries the timestamp [2 ^ 63], the
    least [uint64] that is no [int]. *)
Definition nodeBeyondInt : Health.API :=
  nodeAnswering (inr (<["timestamp" := anyUint64 (2 ^ 63)]> ∅)).

(** A request whose body breaks off while it is read. *)
Definition brokenBodyRequest : Health.Request :=
  {| Health.URLPath := "/health";
     Health.HeaderValues := [];
     Health.Body := inl "unexpected EOF" |}.

(** Libraries that parse the texts starting with [enr:] as node
    records and otherwise succeed; the host they make has two peers. *)
Definition goodLibraries : Sentinel.Libraries :=
  {| Sentinel.Parse := λ text,
       if HasPrefix text "enr:" then inr text else inl "invalid URL scheme";
     Sentinel.GenerateKey := None;
     Sentinel.buildOptions := None;
     Sentinel.libp2pNew := inr ["p1"; "p2"];
     Sentinel.NewGossipSub := None |}.

(** A system on which everything succeeds but the connection to the
    boot nodes. *)
Definition noBootnodes : Sentinel.System :=
  {| Sentinel.ListenUDP := λ _ _ _, None;
     Sentinel.OpenDB := None;
     Sentinel.localNodeSeq := 1%N;
     Sentinel.ListenV5 := None;
     Sentinel.connectToBootnodes := Some "no boot node reachable" |}.

Definition loopbackConfig : Sentinel.SentinelConfig :=
  {| Sentinel.IpAddr := "127.0.0.1"; Sentinel.Port := 7777; Sentinel.TCPPort := 9000 |}.

(** The Sentinel [New] makes for [loopbackConfig] on a host with the
    given peers. *)
Definition configuredWith (peers : list string) : Sentinel.Sentinel :=
  {| Sentinel.started := false;
     Sentinel.listener := None;
     Sentinel.cfg := loopbackConfig;
     Sentinel.hostPeers := peers;
     Sentinel.metadataV1 := None;
     Sentinel.subManager := None |}.

End Examples.

(** ** Properties of the health check *)

Module HealthProps.
Import Go Health.

Lemma errorStringOrOK_cases (unicode : Unicode) (err : error) :
  (err = None ∧ errorStringOrOK unicode err = "HEALTHY") ∨
  (err = Some errCheckDisabled ∧ errorStringOrOK unicode err = "DISABLED") ∨
  (∃ e, err = Some e ∧ e ≠ errCheckDisabled ∧
        errorStringOrOK unicode err = "ERROR: " +:+ Error unicode e).
Proof.
  destruct err as [[ | msg | fn num k] | ]; cbn.
  - right; left; done.
  - right; right; exists (errorString msg); done.
  - right; right; exists (NumError fn num k); done.
  - left; done.
Qed.

Lemma shouldChangeStatusCode_spec (err : error) :
  shouldChangeStatusCode err = false ↔ (err ≠ Some errCheckDisabled → err = None).
Proof.
  destruct err as [[ | msg | fn num k] | ]; cbn; split; try done.
  - intros H; specialize (H ltac:(done)); done.
  - intros H; specialize (H ltac:(done)); done.
Qed.

Lemma HasPrefix_app (p s : string) : HasPrefix (p +:+ s) p = true.
Proof.
  induction p as [ | c p IH]; [done | ].
  change (bool_decide (c = c) && HasPrefix (p +:+ s) p = true).
  rewrite bool_decide_eq_true_2 by done. exact IH.
Qed.

Lemma dropBytes_app (p s : string) : dropBytes (String.length p) (p +:+ s) = s.
Proof. induction p as [ | c p IH]; cbn; [by destruct s | exact IH]. Qed.

Lemma TrimPrefix_app (p s : string) : TrimPrefix (p +:+ s) p = s.
Proof. unfold TrimPrefix. rewrite HasPrefix_app. apply dropBytes_app. Qed.

Lemma errorStringOrOK_checkValue (unicode : Unicode) (err : error) :
  checkValue (errorStringOrOK unicode err).
Proof.
  destruct (errorStringOrOK_cases unicode err) as [[_ ->] | [[_ ->] | (e & _ & _ & ->)]].
  - left; done.
  - right; left; done.
  - right; right. apply HasPrefix_app.
Qed.

Lemma reportHealth_eq (unicode : Unicode)
    (errParse errMinPeerCount errCheckBlock : error) :
  reportHealth unicode errParse errMinPeerCount errCheckBlock newResponseWriter =
  (None,
   {| status :=
        Some (if shouldChangeStatusCode errParse
                 || shouldChangeStatusCode errMinPeerCount
                 || shouldChangeStatusCode errCheckBlock
              then StatusInternalServerError else StatusOK);
      written :=
        [JSONObject (<["check_block" := errorStringOrOK unicode errCheckBlock]>
                    (<["min_peer_count" := errorStringOrOK unicode errMinPeerCount]>
                    (<["healthcheck_query" := errorStringOrOK unicode errParse]> ∅)))] |}).
Proof.
  unfold reportHealth.
  destruct (shouldChangeStatusCode errParse),
    (shouldChangeStatusCode errMinPeerCount),
    (shouldChangeStatusCode errCheckBlock); reflexivity.
Qed.

Lemma report_lookup (a b c : string) (k v : string) :
  (<["check_block" := c]> (<["min_peer_count" := b]>
     (<["healthcheck_query" := a]> (∅ : gmap string string)))) !! k = Some v →
  v = a ∨ v = b ∨ v = c.
Proof.
  intros H.
  destruct (decide (k = "check_block")) as [-> | ?];
    [rewrite lookup_insert_eq in H; naive_solver | rewrite lookup_insert_ne in H by done].
  destruct (decide (k = "min_peer_count")) as [-> | ?];
    [rewrite lookup_insert_eq in H; naive_solver | rewrite lookup_insert_ne in H by done].
  destruct (decide (k = "healthcheck_query")) as [-> | ?];
    [rewrite lookup_insert_eq in H; naive_solver | rewrite lookup_insert_ne in H by done].
  rewrite lookup_empty in H. done.
Qed.

Lemma wrap64_small (z : Z) : minInt ≤ z ≤ maxInt → wrap64 z = z.
Proof.
  unfold minInt, maxInt, wrap64. intros H.
  rewrite Z.mod_small by lia. lia.
Qed.

Lemma parseUintLoop_nonneg (s : string) :
  ∀ n v, 0 ≤ n → parseUintLoop n s = inr v → 0 ≤ v.
Proof.
  induction s as [ | c s IH]; intros n v Hn H; cbn in H.
  - congruence.
  - destruct (isDigit c) eqn:Hd; [ | discriminate].
    destruct (maxUint64 `div` 10 + 1 <=? n); [discriminate | ].
    destruct (maxUint64 <? n * 10 + (byteZ c - 48)); [discriminate | ].
    apply (IH _ _) in H; [done | ].
    unfold isDigit in Hd. apply andb_true_iff in Hd as [Hd _].
    apply Z.leb_le in Hd. lia.
Qed.

Lemma Atoi_range (s : string) (n : Z) : Atoi s = inr n → minInt ≤ n ≤ maxInt.
Proof.
  unfold Atoi, ParseInt, minInt, maxInt.
  destruct s as [ | c r]; [discriminate | ].
  set (neg := bool_decide (c = "-"%char)).
  set (body := if neg || bool_decide (c = "+"%char) then r else String c r).
  destruct (ParseUint body) as [e | un] eqn:Hun; [discriminate | ].
  assert (0 ≤ un) as Hpos.
  { unfold ParseUint in Hun. destruct body; [discriminate | ].
    eapply parseUintLoop_nonneg; [ | exact Hun]. done. }
  destruct neg; cbn [negb andb].
  - destruct (2 ^ 63 <? un) eqn:Hlt; [discriminate | ].
    apply Z.ltb_ge in Hlt. intros [= <-]. lia.
  - destruct (2 ^ 63 <=? un) eqn:Hle; [discriminate | ].
    apply Z.leb_gt in Hle. intros [= <-]. lia.
Qed.

Section Handler.

Variable unicode : Unicode.
Variable checkBlockNumber : Z -> EthAPI -> error.
Variable notEnoughPeers : Z -> Z -> string.
Variable Unmarshal : string -> string + requestBody.

Let handler := ProcessHealthcheckIfNeeded unicode checkBlockNumber notEnoughPeers Unmarshal.

(** C5.  In the JSON-body mode (no health-check header) the handler
    answers with what [reportHealth] writes for three results: one JSON
    object whose members are exactly [healthcheck_query],
    [min_peer_count] and [check_block], each mapped to [HEALTHY],
    [DISABLED] or a text starting with [ERROR: ] (alternatives that
    exclude each other); the status is 200 exactly when each of the
    three results that is not the disabled sentinel is no error, and
    500 otherwise. *)
Theorem json_mode_report (rev : Revision) (now : Z) (r : Request) (rpcAPI : API) :
  EqualFold (URLPath r) urlPath = true →
  HeaderGet r = EmptyString →
  (∃ errParse errMinPeerCount errCheckBlock calls,
     handler rev now newResponseWriter r rpcAPI =
       ((true,
         (reportHealth unicode errParse errMinPeerCount errCheckBlock newResponseWriter).2),
        calls)) ∧
  (∀ errParse errMinPeerCount errCheckBlock : error,
     ∃ (m : gmap string string) (code : Z),
       reportHealth unicode errParse errMinPeerCount errCheckBlock newResponseWriter =
         (None, {| status := Some code; written := [JSONObject m] |}) ∧
       dom m = checkNames ∧
       m !! "healthcheck_query" = Some (errorStringOrOK unicode errParse) ∧
       m !! "min_peer_count" = Some (errorStringOrOK unicode errMinPeerCount) ∧
       m !! "check_block" = Some (errorStringOrOK unicode errCheckBlock) ∧
       (∀ k v, m !! k = Some v →
          checkValue v ∧
          ¬ (v = "HEALTHY" ∧ v = "DISABLED") ∧
          ¬ (v = "HEALTHY" ∧ HasPrefix v "ERROR: " = true) ∧
          ¬ (v = "DISABLED" ∧ HasPrefix v "ERROR: " = true)) ∧
       (code = StatusOK ↔
          passedUnlessDisabled errParse ∧ passedUnlessDisabled errMinPeerCount ∧
          passedUnlessDisabled errCheckBlock) ∧
       (code ≠ StatusOK → code = StatusInternalServerError)).
Proof.
  intros Hpath Hhdr. split.
  - unfold handler, ProcessHealthcheckIfNeeded.
    rewrite Hpath, Hhdr. cbn [negb].
    rewrite bool_decide_eq_true_2 by done. cbn [negb].
    destruct (parseHealthCheckBody Unmarshal (Body r)) as [body [e | ]].
    + eexists (Some e), (Some errCheckDisabled), (Some errCheckDisabled), _.
      unfold bind, ret. cbn -[reportHealth]. rewrite !reportHealth_eq. reflexivity.
    + destruct (MinPeerCount body) as [n | ], (BlockNumber body) as [b | ];
        eexists None, _, _, _; unfold bind, ret, calling; cbn -[reportHealth];
        rewrite !reportHealth_eq; reflexivity.
  - intros e1 e2 e3. eexists _, _. split; [apply reportHealth_eq | ].
    split; [ | split; [ | split; [ | split; [ | split; [ | split]]]]].
    + rewrite !dom_insert_L, dom_empty_L. unfold checkNames. set_solver.
    + rewrite lookup_insert_ne by done. rewrite lookup_insert_ne by done.
      apply lookup_insert_eq.
    + rewrite lookup_insert_ne by done. apply lookup_insert_eq.
    + apply lookup_insert_eq.
    + intros k v Hkv. split.
      * apply report_lookup in Hkv as [-> | [-> | ->]];
          apply errorStringOrOK_checkValue.
      * repeat split; intros [-> H]; discriminate H.
    + unfold passedUnlessDisabled. rewrite <- !shouldChangeStatusCode_spec.
      destruct (shouldChangeStatusCode e1), (shouldChangeStatusCode e2),
        (shouldChangeStatusCode e3); cbn; unfold StatusOK, StatusInternalServerError;
        split; try done; intros (? & ? & ?); done.
    + destruct (shouldChangeStatusCode e1 || shouldChangeStatusCode e2
                || shouldChangeStatusCode e3); done.
Qed.

(** C10.  A request without the health-check header whose body
    [json.Unmarshal] rejects (as it does for every text that is not
    valid JSON, the empty one included) is answered with status 500 and
    a JSON object in which [healthcheck_query] is [ERROR: ] followed by
    the decoder's message while [min_peer_count] and [check_block] are
    [DISABLED]; the node is not queried. *)
Theorem invalid_body_report (rev : Revision) (now : Z) (r : Request) (rpcAPI : API)
    (bodyBytes msg : string) :
  EqualFold (URLPath r) urlPath = true →
  HeaderGet r = EmptyString →
  Body r = inr bodyBytes →
  Unmarshal bodyBytes = inl msg →
  ∃ m : gmap string string,
    handler rev now newResponseWriter r rpcAPI =
      ((true, {| status := Some StatusInternalServerError;
                 written := [JSONObject m] |}), []) ∧
    dom m = checkNames ∧
    m !! "healthcheck_query" = Some ("ERROR: " +:+ msg) ∧
    HasPrefix ("ERROR: " +:+ msg) "ERROR: " = true ∧
    m !! "min_peer_count" = Some "DISABLED" ∧
    m !! "check_block" = Some "DISABLED".
Proof.
  intros Hpath Hhdr Hbody Hjson.
  exists (<["check_block" := "DISABLED"]>
         (<["min_peer_count" := "DISABLED"]>
         (<["healthcheck_query" := "ERROR: " +:+ msg]> ∅))).
  split; [ | split; [ | split; [ | split; [ | split]]]].
  - unfold handler, ProcessHealthcheckIfNeeded.
    rewrite Hpath, Hhdr. cbn [negb].
    rewrite bool_decide_eq_true_2 by done. cbn [negb].
    unfold parseHealthCheckBody. rewrite Hbody, Hjson.
    unfold bind, ret. cbn -[reportHealth]. rewrite reportHealth_eq. reflexivity.
  - rewrite !dom_insert_L, dom_empty_L. unfold checkNames. set_solver.
  - rewrite lookup_insert_ne by done. rewrite lookup_insert_ne by done.
    apply lookup_insert_eq.
  - apply HasPrefix_app.
  - rewrite lookup_insert_ne by done. apply lookup_insert_eq.
  - apply lookup_insert_eq.
Qed.

Lemma header_mode (rev : Revision) (now : Z) (r : Request) (rpcAPI : API) :
  EqualFold (URLPath r) urlPath = true →
  HeaderGet r ≠ EmptyString →
  handler rev now newResponseWriter r rpcAPI =
    let '(err, calls) :=
      processHeaders unicode checkBlockNumber notEnoughPeers rev now rpcAPI (HeaderValues r) in
    ((true,
      {| status := Some (match err with
                         | Some _ => StatusInternalServerError
                         | None => StatusOK
                         end);
         written := [Bytes (errorStringOrOK unicode err)] |}), calls).
Proof.
  intros Hpath Hne.
  unfold handler, ProcessHealthcheckIfNeeded, ProcessHealthcheck2.
  rewrite Hpath. cbn [negb].
  rewrite bool_decide_eq_false_2 by done. cbn [negb].
  destruct (processHeaders _ _ _ _ _ _ _) as [[e | ] calls]; unfold bind, ret; cbn;
    rewrite app_nil_r; reflexivity.
Qed.

(** The loop over the headers composes: a header's checks run after
    those of the headers before it, unless one of these failed. *)
Lemma orReturn_assoc (m k1 k2 : M error) :
  orReturn (orReturn m k1) k2 = orReturn m (orReturn k1 k2).
Proof.
  unfold orReturn, bind, ret.
  destruct m as [[e | ] t]; [by rewrite !app_nil_r | ].
  destruct k1 as [[e1 | ] t1]; [by rewrite !app_nil_r | ].
  destruct k2 as [e2 t2]. by rewrite app_assoc.
Qed.

Lemma orReturn_ret (k : M error) : orReturn (ret None) k = k.
Proof. unfold orReturn, bind, ret. by destruct k. Qed.

Lemma whenCheck_orReturn (c : bool) (m k1 k2 : M error) :
  orReturn (whenCheck c m k1) k2 = whenCheck c m (orReturn k1 k2).
Proof. unfold whenCheck. destruct c; [apply orReturn_assoc | reflexivity]. Qed.

Lemma processHeader_cont (rev : Revision) (now : Z) (rpcAPI : API) (h : string)
    (k : M error) :
  processHeader unicode checkBlockNumber notEnoughPeers rev now rpcAPI h k =
  orReturn (processHeader unicode checkBlockNumber notEnoughPeers rev now rpcAPI h (ret None)) k.
Proof.
  unfold processHeader. rewrite !whenCheck_orReturn.
  destruct rev; [ | rewrite !whenCheck_orReturn]; by rewrite orReturn_ret.
Qed.

Lemma processHeaders_app (rev : Revision) (now : Z) (rpcAPI : API)
    (pre rest : list string) :
  processHeaders unicode checkBlockNumber notEnoughPeers rev now rpcAPI (pre ++ rest) =
  orReturn (processHeaders unicode checkBlockNumber notEnoughPeers rev now rpcAPI pre)
           (processHeaders unicode checkBlockNumber notEnoughPeers rev now rpcAPI rest).
Proof.
  induction pre as [ | h pre IH]; cbn [app processHeaders].
  - by rewrite orReturn_ret.
  - rewrite processHeader_cont, IH, <- orReturn_assoc, <- processHeader_cont.
    reflexivity.
Qed.

(** A failing check among the headers: the handler answers 500 with the
    text of an error, which is the check's own when the headers before
    it pass. *)
Lemma failing_header (rev : Revision) (now : Z) (r : Request) (rpcAPI : API)
    (pre post : list string) (h : string) (e : errorValue) (calls : list Call) :
  EqualFold (URLPath r) urlPath = true →
  HeaderValues r = pre ++ h :: post →
  HeaderGet r ≠ EmptyString →
  (∀ k, processHeader unicode checkBlockNumber notEnoughPeers rev now rpcAPI h k
        = (Some e, calls)) →
  ∃ (text : string) (calls' : list Call),
    handler rev now newResponseWriter r rpcAPI =
      ((true, {| status := Some StatusInternalServerError;
                 written := [Bytes text] |}), calls') ∧
    ((processHeaders unicode checkBlockNumber notEnoughPeers rev now rpcAPI pre).1 = None →
     text = errorStringOrOK unicode (Some e)).
Proof.
  intros Hpath Hhv Hne Hfail.
  rewrite header_mode by done. rewrite Hhv, processHeaders_app.
  cbn [processHeaders]. rewrite Hfail.
  destruct (processHeaders _ _ _ _ _ _ pre) as [[e' | ] t]; unfold orReturn, bind, ret.
  - eexists _, _. split; [reflexivity | ]. intros H. discriminate H.
  - eexists _, _. split; [reflexivity | ]. intros _. reflexivity.
Qed.

Lemma step_min_peer_count5 (rev : Revision) (now : Z) (rpcAPI : API) (h : string)
    (k : M error) :
  ToLower unicode h = "min_peer_count5" →
  processHeader unicode checkBlockNumber notEnoughPeers rev now rpcAPI h k =
  orReturn (calling (CallCheckMinPeers 5)
              (checkMinPeers notEnoughPeers 5 (netAPI rpcAPI))) k.
Proof.
  intros Hlow. unfold processHeader. rewrite Hlow. destruct rev; reflexivity.
Qed.

Lemma step_max_seconds_behind (now : Z) (rpcAPI : API) (h d : string) (k : M error) :
  ToLower unicode h = "max_seconds_behind" +:+ d →
  processHeader unicode checkBlockNumber notEnoughPeers WithTimeCheck now rpcAPI h k =
  orReturn (maxSecondsBehindHeader now ("max_seconds_behind" +:+ d) rpcAPI) k.
Proof. intros Hlow. unfold processHeader. rewrite Hlow. reflexivity. Qed.

(** C1, as the code has it.  A request that carries the health-check
    header [min_peer_count5] (in any letter case, possibly among other
    values of the header, the first of which is not empty), sent while
    the node has fewer than five peers, is answered with status 500 and
    a body that is one plain text, not a JSON object: the text of the
    error of the first failing check, which is [ERROR: ] followed by
    the message of the peer check when the header values before it
    pass, as they do when there are none. *)
Theorem min_peer_count_header_fails (rev : Revision) (now : Z) (r : Request)
    (rpcAPI : API) (pre post : list string) (h : string) (n : Z) :
  EqualFold (URLPath r) urlPath = true →
  HeaderValues r = pre ++ h :: post →
  HeaderGet r ≠ EmptyString →
  ToLower unicode h = "min_peer_count5" →
  PeerCount (netAPI rpcAPI) = inr n →
  n < 5 →
  ∃ (text : string) (calls : list Call),
    handler rev now newResponseWriter r rpcAPI =
      ((true, {| status := Some StatusInternalServerError;
                 written := [Bytes text] |}), calls) ∧
    ((processHeaders unicode checkBlockNumber notEnoughPeers rev now rpcAPI pre).1 = None →
     text = "ERROR: " +:+ notEnoughPeers n 5).
Proof.
  intros Hpath Hhv Hne Hlow Hpeers Hn.
  apply (failing_header rev now r rpcAPI pre post h
           (errorString (notEnoughPeers n 5)) [CallCheckMinPeers 5]); try done.
  intros k. rewrite step_min_peer_count5 by done.
  unfold checkMinPeers. rewrite Hpeers.
  destruct (n <? 5) eqn:Hlt; [reflexivity | ].
  apply Z.ltb_ge in Hlt. lia.
Qed.

(** C9, as the code has it.  A request that carries the health-check
    header [max_seconds_behind<N>], answered by a node whose latest block has a
    [uint64] timestamp [ts] that fits an [int]: a negative [N] counts as
    600, and the time check succeeds exactly when [ts] is at most the
    current Unix time minus [N].  When [ts] exceeds that bound the
    answer is 500 with the text of an error, which is the one of the
    time check when the header values before it pass; when the header
    is the only one and [ts] is within the bound the answer is 200
    [HEALTHY]. *)
Theorem max_seconds_behind_check (now : Z) (r : Request) (rpcAPI : API)
    (pre post : list string) (h d : string) (N : Z) (blk : gmap string any)
    (ts : Z) :
  EqualFold (URLPath r) urlPath = true →
  HeaderValues r = pre ++ h :: post →
  HeaderGet r ≠ EmptyString →
  ToLower unicode h = "max_seconds_behind" +:+ d →
  Atoi d = inr N →
  0 ≤ now < 2 ^ 63 →
  GetBlockByNumber (ethAPI rpcAPI) = inr blk →
  blk !! "timestamp" = Some (anyUint64 ts) →
  0 ≤ ts < 2 ^ 63 →
  let secs := if N <? 0 then 600 else N in
  maxSecondsBehindHeader now ("max_seconds_behind" +:+ d) rpcAPI =
    processTimeCheck (now - secs) rpcAPI ∧
  ((processTimeCheck (now - secs) rpcAPI).1 = None ↔ ts ≤ now - secs) ∧
  (now - secs < ts →
   ∃ (text : string) (calls : list Call),
     handler WithTimeCheck now newResponseWriter r rpcAPI =
       ((true, {| status := Some StatusInternalServerError;
                  written := [Bytes text] |}), calls) ∧
     ((processHeaders unicode checkBlockNumber notEnoughPeers WithTimeCheck now rpcAPI pre).1
        = None →
      text = "ERROR: got ts: " +:+ fmtInt ts +:+ ", need: " +:+ fmtInt (now - secs))) ∧
  (ts ≤ now - secs → pre = [] → post = [] →
   handler WithTimeCheck now newResponseWriter r rpcAPI =
     ((true, {| status := Some StatusOK; written := [Bytes "HEALTHY"] |}),
      [CallGetBlockByNumber])).
Proof.
  intros Hpath Hhv Hne Hlow Hatoi Hnow Hblk Hts Hrange secs.
  pose proof (Atoi_range _ _ Hatoi) as HN. unfold minInt, maxInt in HN.
  assert (0 ≤ secs ≤ 2 ^ 63 - 1) as Hsecs.
  { subst secs. destruct (N <? 0) eqn:Hneg; [lia | ]. apply Z.ltb_ge in Hneg. lia. }
  assert (wrap64 (now - secs) = now - secs) as Hw
    by (apply wrap64_small; unfold minInt, maxInt; lia).
  assert (wrap64 ts = ts) as Hwts
    by (apply wrap64_small; unfold minInt, maxInt; lia).
  assert (maxSecondsBehindHeader now ("max_seconds_behind" +:+ d) rpcAPI =
          processTimeCheck (now - secs) rpcAPI) as Hstep.
  { unfold maxSecondsBehindHeader. rewrite TrimPrefix_app, Hatoi.
    fold secs. rewrite Hw. reflexivity. }
  assert (processTimeCheck (now - secs) rpcAPI =
          (if now - secs <? ts
           then Some (errorString ("got ts: " +:+ fmtInt ts +:+
                                   ", need: " +:+ fmtInt (now - secs)))
           else None, [CallGetBlockByNumber])) as Htime.
  { unfold processTimeCheck, calling. rewrite Hblk, Hts, Hwts. reflexivity. }
  split; [exact Hstep | ]. split; [ | split].
  - rewrite Htime. cbn [fst].
    destruct (now - secs <? ts) eqn:Hlt.
    + apply Z.ltb_lt in Hlt. split; [done | lia].
    + apply Z.ltb_ge in Hlt. done.
  - intros Hgt.
    apply (failing_header WithTimeCheck now r rpcAPI pre post h
             (errorString ("got ts: " +:+ fmtInt ts +:+
                           ", need: " +:+ fmtInt (now - secs)))
             [CallGetBlockByNumber]); try done.
    intros k. rewrite (step_max_seconds_behind now rpcAPI h d) by done.
    rewrite Hstep, Htime.
    destruct (now - secs <? ts) eqn:Hlt; [reflexivity | apply Z.ltb_ge in Hlt; lia].
  - intros Hle -> ->. rewrite header_mode by done. rewrite Hhv.
    cbn [app processHeaders].
    rewrite (step_max_seconds_behind now rpcAPI h d) by done.
    rewrite Hstep, Htime.
    destruct (now - secs <? ts) eqn:Hlt; [apply Z.ltb_lt in Hlt; lia | reflexivity].
Qed.

End Handler.

(** *** The properties at concrete requests *)

Example atoi_values :
  Atoi "5" = inr 5 ∧ Atoi "-12" = inr (-12) ∧ Atoi "+7" = inr 7 ∧
  Atoi EmptyString = inl ErrSyntax ∧ Atoi "5x" = inl ErrSyntax ∧
  Atoi "9223372036854775808" = inl ErrRange.
Proof. repeat split. Qed.

(** The JSON-body mode does report a failed peer check as a member of
    the JSON object. *)
Example json_mode_reports_member :
  ∃ m,
    ProcessHealthcheckIfNeeded Examples.plain Examples.blockKnown Examples.notEnoughPeers
      Examples.wantFivePeers WithoutTimeCheck 0 newResponseWriter
      (Examples.healthRequest []) Examples.node3 =
      ((true, {| status := Some StatusInternalServerError;
                 written := [JSONObject m] |}), [CallCheckMinPeers 5]) ∧
    m !! "min_peer_count" = Some "ERROR: not enough peers: 3 (minimum 5)" ∧
    Examples.reportsError "min_peer_count" (JSONObject m) = true.
Proof. eexists. split; [reflexivity | ]. split; reflexivity. Qed.

(** A header that is not understood passes: the first revision does not
    know [max_seconds_behind]. *)
Example unknown_header_is_healthy :
  ProcessHealthcheckIfNeeded Examples.plain Examples.blockKnown Examples.notEnoughPeers
    Examples.rejectAll WithoutTimeCheck 2000 newResponseWriter
    (Examples.healthRequest ["max_seconds_behind1"]) Examples.node3 =
    ((true, {| status := Some StatusOK; written := [Bytes "HEALTHY"] |}), []).
Proof. reflexivity. Qed.

Example time_check_fails :
  ProcessHealthcheckIfNeeded Examples.plain Examples.blockKnown Examples.notEnoughPeers
    Examples.rejectAll WithTimeCheck 1030 newResponseWriter
    (Examples.healthRequest ["max_seconds_behind60"]) Examples.node3 =
    ((true, {| status := Some StatusInternalServerError;
               written := [Bytes "ERROR: got ts: 1000, need: 970"] |}),
     [CallGetBlockByNumber]).
Proof. reflexivity. Qed.

(** The mode is chosen by the first value of the header: when that is
    empty the body is read, whatever the values after it. *)
Example empty_first_value_reads_body :
  ∃ m,
    ProcessHealthcheckIfNeeded Examples.plain Examples.blockKnown Examples.notEnoughPeers
      Examples.rejectAll WithoutTimeCheck 0 newResponseWriter
      (Examples.healthRequest [EmptyString; "min_peer_count5"]) Examples.node3 =
      ((true, {| status := Some StatusInternalServerError;
                 written := [JSONObject m] |}), []).
Proof. eexists. reflexivity. Qed.

Lemma json_mode_report_witness :
  EqualFold (URLPath (Examples.healthRequest [])) urlPath = true ∧
  HeaderGet (Examples.healthRequest []) = EmptyString ∧
  ∃ errParse errMinPeerCount errCheckBlock calls,
    ProcessHealthcheckIfNeeded Examples.plain Examples.blockKnown Examples.notEnoughPeers
      Examples.wantFivePeers WithoutTimeCheck 0 newResponseWriter
      (Examples.healthRequest []) Examples.node3 =
    ((true,
      (reportHealth Examples.plain errParse errMinPeerCount errCheckBlock
         newResponseWriter).2),
     calls).
Proof.
  split; [reflexivity | ]. split; [reflexivity | ].
  exact (proj1 (json_mode_report Examples.plain Examples.blockKnown Examples.notEnoughPeers
                  Examples.wantFivePeers WithoutTimeCheck 0
                  (Examples.healthRequest []) Examples.node3
                  eq_refl eq_refl)).
Defined.

Lemma invalid_body_report_witness :
  EqualFold (URLPath (Examples.healthRequest [])) urlPath = true ∧
  HeaderGet (Examples.healthRequest []) = EmptyString ∧
  Body (Examples.healthRequest []) = inr EmptyString ∧
  Examples.rejectAll EmptyString = inl "unexpected end of JSON input" ∧
  ∃ m : gmap string string,
    ProcessHealthcheckIfNeeded Examples.plain Examples.blockKnown Examples.notEnoughPeers
      Examples.rejectAll WithoutTimeCheck 0 newResponseWriter
      (Examples.healthRequest []) Examples.node3 =
      ((true, {| status := Some StatusInternalServerError;
                 written := [JSONObject m] |}), []) ∧
    dom m = checkNames ∧
    m !! "healthcheck_query" = Some ("ERROR: " +:+ "unexpected end of JSON input") ∧
    HasPrefix ("ERROR: " +:+ "unexpected end of JSON input") "ERROR: " = true ∧
    m !! "min_peer_count" = Some "DISABLED" ∧
    m !! "check_block" = Some "DISABLED".
Proof.
  split; [reflexivity | ]. split; [reflexivity | ].
  split; [reflexivity | ]. split; [reflexivity | ].
  exact (invalid_body_report Examples.plain Examples.blockKnown Examples.notEnoughPeers
           Examples.rejectAll WithoutTimeCheck 0 (Examples.healthRequest [])
           Examples.node3 EmptyString "unexpected end of JSON input"
           eq_refl eq_refl eq_refl eq_refl).
Defined.

Lemma min_peer_count_header_fails_witness :
  EqualFold (URLPath (Examples.healthRequest ["min_peer_count5"])) urlPath = true ∧
  HeaderValues (Examples.healthRequest ["min_peer_count5"])
    = [] ++ "min_peer_count5" :: [] ∧
  HeaderGet (Examples.healthRequest ["min_peer_count5"]) ≠ EmptyString ∧
  ToLower Examples.plain "min_peer_count5" = "min_peer_count5" ∧
  PeerCount (netAPI Examples.node3) = inr 3 ∧
  3 < 5 ∧
  ∃ (text : string) (calls : list Call),
    ProcessHealthcheckIfNeeded Examples.plain Examples.blockKnown Examples.notEnoughPeers
      Examples.rejectAll WithoutTimeCheck 0 newResponseWriter
      (Examples.healthRequest ["min_peer_count5"]) Examples.node3 =
      ((true, {| status := Some StatusInternalServerError;
                 written := [Bytes text] |}), calls) ∧
    ((processHeaders Examples.plain Examples.blockKnown Examples.notEnoughPeers WithoutTimeCheck 0
        Examples.node3 []).1 = None →
     text = "ERROR: " +:+ Examples.notEnoughPeers 3 5).
Proof.
  split; [reflexivity | ]. split; [reflexivity | ]. split; [discriminate | ].
  split; [reflexivity | ]. split; [reflexivity | ]. split; [lia | ].
  apply (min_peer_count_header_fails Examples.plain Examples.blockKnown Examples.notEnoughPeers
           Examples.rejectAll WithoutTimeCheck 0
           (Examples.healthRequest ["min_peer_count5"]) Examples.node3
           [] [] "min_peer_count5" 3);
    [reflexivity | reflexivity | discriminate | reflexivity | reflexivity | lia].
Defined.

(** C1, as the design document states it, fails: with the header
    [min_peer_count5] and three peers the answer is status 500, but no
    part of the body has the shape of a JSON member [min_peer_count]
    with an [ERROR: ] value; the body is the bare text of the error. *)
Lemma min_peer_count_header_body_not_json :
  ¬ ∃ (w : ResponseWriter) (calls : list Call),
      ProcessHealthcheckIfNeeded Examples.plain Examples.blockKnown Examples.notEnoughPeers
        Examples.rejectAll WithoutTimeCheck 0 newResponseWriter
        (Examples.healthRequest ["min_peer_count5"]) Examples.node3 =
        ((true, w), calls) ∧
      status w = Some StatusInternalServerError ∧
      Exists (λ p, Examples.reportsError "min_peer_count" p = true) (written w).
Proof.
  intros (w & calls & Heq & _ & Hex).
  vm_compute in Heq. injection Heq as <- _.
  apply Exists_cons in Hex as [H | H].
  - vm_compute in H. discriminate H.
  - apply Exists_nil in H. exact H.
Qed.

(** C9, as the design document states it, fails: the timestamp
    [2 ^ 63] of the latest block exceeds the bound [2000 - 60], and yet
    the time check returns no error and the answer is not 500 but 200
    [HEALTHY].  [processTimeCheck] compares [int(cs)], which for this
    [uint64] is negative. *)
Lemma max_seconds_behind_timestamp_beyond_int :
  GetBlockByNumber (ethAPI Examples.nodeBeyondInt)
    = inr (<["timestamp" := anyUint64 (2 ^ 63)]> ∅) ∧
  2000 - 60 < 2 ^ 63 ∧
  (processTimeCheck (2000 - 60) Examples.nodeBeyondInt).1 = None ∧
  ProcessHealthcheckIfNeeded Examples.plain Examples.blockKnown Examples.notEnoughPeers
    Examples.rejectAll WithTimeCheck 2000 newResponseWriter
    (Examples.healthRequest ["max_seconds_behind60"]) Examples.nodeBeyondInt =
    ((true, {| status := Some StatusOK; written := [Bytes "HEALTHY"] |}),
     [CallGetBlockByNumber]) ∧
  ¬ ∃ (text : string) (calls : list Call),
      ProcessHealthcheckIfNeeded Examples.plain Examples.blockKnown Examples.notEnoughPeers
        Examples.rejectAll WithTimeCheck 2000 newResponseWriter
        (Examples.healthRequest ["max_seconds_behind60"]) Examples.nodeBeyondInt =
        ((true, {| status := Some StatusInternalServerError;
                   written := [Bytes text] |}), calls).
Proof.
  assert (ProcessHealthcheckIfNeeded Examples.plain Examples.blockKnown
            Examples.notEnoughPeers Examples.rejectAll WithTimeCheck 2000
            newResponseWriter (Examples.healthRequest ["max_seconds_behind60"])
            Examples.nodeBeyondInt =
          ((true, {| status := Some StatusOK; written := [Bytes "HEALTHY"] |}),
           [CallGetBlockByNumber])) as Hanswer by (vm_compute; reflexivity).
  split; [reflexivity | ]. split; [lia | ]. split; [vm_compute; reflexivity | ].
  split; [exact Hanswer | ].
  intros (text & calls & H). rewrite Hanswer in H. discriminate H.
Qed.

Lemma max_seconds_behind_check_witness :
  EqualFold (URLPath (Examples.healthRequest ["max_seconds_behind60"])) urlPath = true ∧
  HeaderValues (Examples.healthRequest ["max_seconds_behind60"])
    = [] ++ "max_seconds_behind60" :: [] ∧
  HeaderGet (Examples.healthRequest ["max_seconds_behind60"]) ≠ EmptyString ∧
  ToLower Examples.plain "max_seconds_behind60" = "max_seconds_behind" +:+ "60" ∧
  Atoi "60" = inr 60 ∧
  0 ≤ 2000 < 2 ^ 63 ∧
  GetBlockByNumber (ethAPI Examples.node3)
    = inr (<["timestamp" := anyUint64 1000]> ∅) ∧
  (<["timestamp" := anyUint64 1000]> (∅ : gmap string any)) !! "timestamp"
    = Some (anyUint64 1000) ∧
  0 ≤ 1000 < 2 ^ 63 ∧
  ProcessHealthcheckIfNeeded Examples.plain Examples.blockKnown Examples.notEnoughPeers
    Examples.rejectAll WithTimeCheck 2000 newResponseWriter
    (Examples.healthRequest ["max_seconds_behind60"]) Examples.node3 =
    ((true, {| status := Some StatusOK; written := [Bytes "HEALTHY"] |}),
     [CallGetBlockByNumber]).
Proof.
  split; [reflexivity | ]. split; [reflexivity | ]. split; [discriminate | ].
  split; [reflexivity | ]. split; [reflexivity | ]. split; [lia | ].
  split; [reflexivity | ]. split; [reflexivity | ]. split; [lia | ].
  apply (max_seconds_behind_check Examples.plain Examples.blockKnown Examples.notEnoughPeers
           Examples.rejectAll 2000
           (Examples.healthRequest ["max_seconds_behind60"]) Examples.node3
           [] [] "max_seconds_behind60" "60" 60
           (<["timestamp" := anyUint64 1000]> ∅) 1000);
    [reflexivity | reflexivity | discriminate | reflexivity | reflexivity | lia
    | reflexivity | reflexivity | lia | vm_compute; discriminate
    | reflexivity | reflexivity].
Defined.

End HealthProps.

(** ** Properties of the wire codec *)

Module CodecProps.
Import Codec.

Local Open Scope N_scope.

Lemma putLE_length (w : nat) : ∀ v, length (putLE w v) = w.
Proof. induction w as [ | w IH]; intros v; cbn; [done | by rewrite IH]. Qed.

Lemma getLE_putLE (w : nat) : ∀ v, v < 2 ^ (8 * N.of_nat w) → getLE (putLE w v) = v.
Proof.
  induction w as [ | w IH]; intros v Hv.
  - cbn in *. lia.
  - cbn [putLE getLE].
    rewrite N_ascii_embedding by (apply N.mod_lt; done).
    rewrite IH.
    + rewrite (N.div_mod v 256) at 3 by done. lia.
    + replace (8 * N.of_nat (S w)) with (8 + 8 * N.of_nat w) in Hv by lia.
      rewrite N.pow_add_r in Hv. change (2 ^ 8) with 256 in Hv.
      apply N.Div0.div_lt_upper_bound. exact Hv.
Qed.

Lemma deserialize_serialize (sch : Schema) :
  ∀ m, validFor sch m → deserialize sch (serialize sch m) = Some m.
Proof.
  induction sch as [ | w sch IH]; intros [ | v m] Hm; cbn in Hm; try done.
  destruct Hm as [Hv Hm]. cbn [serialize deserialize].
  assert ((length (putLE w v ++ serialize sch m) <? w)%nat = false) as ->.
  { apply Nat.ltb_ge. rewrite length_app, putLE_length. lia. }
  rewrite drop_app_length' by (symmetry; apply putLE_length).
  rewrite take_app_length' by (symmetry; apply putLE_length).
  rewrite (IH m Hm), getLE_putLE by done. reflexivity.
Qed.

Lemma readUvarint_putUvarint (f : nat) :
  ∀ n rest, n < 2 ^ (7 * N.of_nat (S f)) →
    readUvarint (S f) (putUvarint (S f) n ++ rest) = Some (n, rest).
Proof.
  induction f as [ | f IH]; intros n rest Hn.
  - change (2 ^ (7 * N.of_nat 1)) with 128 in Hn.
    cbn [putUvarint readUvarint]. apply N.ltb_lt in Hn as Hlt. rewrite Hlt.
    cbn [app]. rewrite N_ascii_embedding by lia. rewrite Hlt. reflexivity.
  - remember (S f) as g eqn:Hg.
    cbn [putUvarint]. destruct (n <? 128) eqn:Hlt.
    + cbn [app readUvarint]. apply N.ltb_lt in Hlt as Hlt'.
      rewrite N_ascii_embedding by lia. rewrite Hlt. reflexivity.
    + apply N.ltb_ge in Hlt.
      assert (n `mod` 128 < 128) as Hmod by (apply N.mod_lt; done).
      cbn [app readUvarint]. rewrite N_ascii_embedding by lia.
      assert ((n `mod` 128 + 128 <? 128) = false) as ->
        by (apply N.ltb_ge, N.le_add_l).
      rewrite IH.
      * f_equal. f_equal. pose proof (N.div_mod n 128 ltac:(done)) as Hdm.
        rewrite N.add_sub. lia.
      * replace (7 * N.of_nat (S g)) with (7 + 7 * N.of_nat g) in Hn by lia.
        rewrite N.pow_add_r in Hn. change (2 ^ 7) with 128 in Hn.
        apply N.Div0.div_lt_upper_bound. exact Hn.
Qed.

Section Frames.

Variable compress : list byte → list byte.
Variable decompress : list byte → option (list byte).
Variable maxMessageSize : N.

(** The registered message kinds: protocol identifier to schema. *)
Variable registry : gmap string Schema.

Lemma decode_encode_app (sch : Schema) (m : Message) (rest : list byte) :
  (∀ block, decompress (compress block) = Some block) →
  maxMessageSize < 2 ^ 64 →
  validFor sch m →
  N.of_nat (length (compress (serialize sch m))) ≤ maxMessageSize →
  decode decompress maxMessageSize sch (encode compress sch m ++ rest)
  = Some (m, serialize sch m).
Proof.
  intros Hinv Hmax Hvalid Hsize. unfold decode, encode.
  set (block := compress (serialize sch m)) in *.
  rewrite <- app_assoc. unfold MaxVarintLen64.
  rewrite readUvarint_putUvarint.
  - assert ((maxMessageSize <? N.of_nat (length block)) = false) as ->
      by (apply N.ltb_ge; exact Hsize).
    rewrite Nat2N.id.
    assert ((length (block ++ rest) <? length block)%nat = false) as ->
      by (apply Nat.ltb_ge; rewrite length_app; lia).
    rewrite take_app_length. unfold block.
    rewrite Hinv, deserialize_serialize by done. reflexivity.
  - eapply N.le_lt_trans; [exact Hsize | ].
    eapply N.lt_trans; [exact Hmax | ]. reflexivity.
Qed.

(** C4.  For every registered kind and every message that is valid for
    its schema and whose compressed block is within the maximum message
    size, decoding the encoded frame gives the message back (with its
    serialized bytes as the raw bytes), whatever follows the frame in
    the stream; the same holds for a response frame after its status
    byte. *)
Theorem decode_encode (kind : string) (sch : Schema) (m : Message) (code : byte)
    (rest : list byte) :
  (∀ block, decompress (compress block) = Some block) →
  maxMessageSize < 2 ^ 64 →
  registry !! kind = Some sch →
  validFor sch m →
  N.of_nat (length (compress (serialize sch m))) ≤ maxMessageSize →
  fst <$> decode decompress maxMessageSize sch (encode compress sch m) = Some m ∧
  decode decompress maxMessageSize sch (encode compress sch m ++ rest)
    = Some (m, serialize sch m) ∧
  (∃ frame, encodeResponse compress code sch m = code :: frame ∧
            fst <$> decode decompress maxMessageSize sch frame = Some m).
Proof.
  intros Hinv Hmax _ Hvalid Hsize.
  pose proof (decode_encode_app sch m [] Hinv Hmax Hvalid Hsize) as H.
  rewrite app_nil_r in H. split; [by rewrite H | ].
  split; [by apply decode_encode_app | ].
  exists (encode compress sch m). split; [reflexivity | by rewrite H].
Qed.

End Frames.

Lemma decode_encode_witness :
  (∀ block, Examples.stored (Examples.store block) = Some block) ∧
  1048576 < 2 ^ 64 ∧
  Examples.protocols !! "ping" = Some pingSchema ∧
  validFor pingSchema [1] ∧
  N.of_nat (length (Examples.store (serialize pingSchema [1]))) ≤ 1048576 ∧
  fst <$> decode Examples.stored 1048576 pingSchema
            (encode Examples.store pingSchema [1]) = Some [1].
Proof.
  split; [reflexivity | ]. split; [reflexivity | ]. split; [reflexivity | ].
  split; [vm_compute; done | ]. split; [vm_compute; discriminate | ].
  apply (decode_encode Examples.store Examples.stored 1048576 Examples.protocols
           "ping" pingSchema [1] Sentinel.zeroByte []);
    [reflexivity | reflexivity | reflexivity | vm_compute; done
    | vm_compute; discriminate].
Defined.

(** The frame of a ping; a byte after the frame is left unread; a
    declared length above the maximum and a block with a trailing byte
    are rejected. *)
Example ping_frame :
  encode Examples.store pingSchema [1] =
    map ascii_of_nat [8; 1; 0; 0; 0; 0; 0; 0; 0]%nat ∧
  fst <$> decode Examples.stored 1048576 pingSchema
            (map ascii_of_nat [8; 1; 0; 0; 0; 0; 0; 0; 0; 7]%nat) = Some [1] ∧
  decode Examples.stored 4 pingSchema
    (map ascii_of_nat [8; 1; 0; 0; 0; 0; 0; 0; 0]%nat) = None ∧
  decode Examples.stored 1048576 pingSchema
    (map ascii_of_nat [9; 1; 0; 0; 0; 0; 0; 0; 0; 0]%nat) = None.
Proof. repeat split. Qed.

End CodecProps.

(** ** Properties of the Sentinel *)

Module SentinelProps.
Import Go Sentinel.

(** *** The outbound ping exchange *)

Ltac in_trace :=
  repeat first [ apply list_elem_of_here | apply list_elem_of_further ].

Ltac not_in_trace :=
  let H := fresh in
  intros H;
  repeat (apply elem_of_cons in H as [H | H]; [discriminate H | ]);
  apply elem_of_nil in H; exact H.

Ltac exchange_cases net :=
  destruct (WritePacket net {| Id := 1 |}) as [n [ew | ]];
  [ | destruct (n =? 8) eqn:Hsize;
      [ destruct (CloseWrite net) as [ec | ];
        destruct (ReadByte net) as [code [er | ]];
        destruct (bool_decide (byteZ code = 1)) eqn:Hcode;
        destruct (Decode net) as [decoded [ed | ]] | ] ].

Section PingRequest.

Variable ProtocolPrefix : string.
Variable net : Network.
Variable peer : string.

Hypothesis Hpeer : connectToRandomPeer net = inr peer.
Hypothesis Hstream : NewStream net = None.

Lemma pingRequest_opened :
  pingRequest ProtocolPrefix net =
  ((exchange net peer).1,
   OpNewStream peer (ProtocolPrefix +:+ "/ping/1/ssz_snappy")
     :: (exchange net peer).2 ++ [OpClose]).
Proof.
  unfold pingRequest, deferring. rewrite Hpeer, Hstream.
  destruct (exchange net peer) as [exit t]. reflexivity.
Qed.

Lemma exchange_never_closes : OpClose ∉ (exchange net peer).2.
Proof. unfold exchange. exchange_cases net; cbn; not_in_trace. Qed.

Lemma exchange_exit :
  (exchange net peer).1 ∈ [ExitWriteFailed; ExitWrongSize; ExitDecodeFailed; ExitDone].
Proof. unfold exchange. exchange_cases net; cbn; in_trace. Qed.

(** C8.  Once the stream to the selected peer is open, the exchange
    ends by one of its four returns (failed write, wrong packet size,
    failed decode, or the end of the function, which is also reached
    after a failed read of the status), and in each case the stream is
    closed exactly once, as the last thing done. *)
Theorem stream_closed_on_every_exit :
  ∃ pre : list Op,
    (pingRequest ProtocolPrefix net).2 = pre ++ [OpClose] ∧
    OpNewStream peer (ProtocolPrefix +:+ "/ping/1/ssz_snappy") ∈ pre ∧
    (OpClose ∉ pre) ∧
    (pingRequest ProtocolPrefix net).1
      ∈ [ExitWriteFailed; ExitWrongSize; ExitDecodeFailed; ExitDone].
Proof.
  rewrite pingRequest_opened. cbn [fst snd].
  exists (OpNewStream peer (ProtocolPrefix +:+ "/ping/1/ssz_snappy")
            :: (exchange net peer).2).
  split; [reflexivity | ]. split; [apply list_elem_of_here | ].
  split; [ | apply exchange_exit].
  intros H. apply elem_of_cons in H as [H | H]; [discriminate H | ].
  exact (exchange_never_closes H).
Qed.

(** C7.  The serialized ping is eight bytes, whatever its sequence
    number.  When the write of the ping reports a size other than 8 the
    exchange returns at once: no status byte is read and nothing is
    decoded.  In every exchange the status byte is read at most once,
    a write of 8 bytes is followed by exactly one such read, and a
    decode is preceded by exactly one. *)
Theorem ping_request_framing :
  (∀ id : N, length (Codec.serialize Codec.pingSchema [id]) = 8%nat) ∧
  (∀ n : Z,
     WritePacket net {| Id := 1 |} = (n, None) → n ≠ 8 →
     (pingRequest ProtocolPrefix net).1 = ExitWrongSize ∧
     (OpReadByte ∉ (pingRequest ProtocolPrefix net).2) ∧
     (OpDecode ∉ (pingRequest ProtocolPrefix net).2)) ∧
  (countOp OpReadByte (pingRequest ProtocolPrefix net).2 ≤ 1)%nat ∧
  (WritePacket net {| Id := 1 |} = (8, None) →
   countOp OpReadByte (pingRequest ProtocolPrefix net).2 = 1%nat) ∧
  (OpDecode ∈ (pingRequest ProtocolPrefix net).2 →
   countOp OpReadByte (beforeFirst OpDecode (pingRequest ProtocolPrefix net).2)
   = 1%nat).
Proof.
  split; [intros id; reflexivity | ].
  rewrite pingRequest_opened. cbn [fst snd]. unfold exchange.
  split; [ | split; [ | split]].
  - intros n Hw Hn. rewrite Hw.
    assert ((n =? 8) = false) as -> by (apply Z.eqb_neq; exact Hn).
    cbn. split; [reflexivity | ]. split; not_in_trace.
  - exchange_cases net; vm_compute; lia.
  - intros Hw. rewrite Hw. cbn [Z.eqb Pos.eqb negb].
    destruct (CloseWrite net) as [ec | ];
      destruct (ReadByte net) as [code [er | ]];
      destruct (bool_decide (byteZ code = 1));
      destruct (Decode net) as [decoded [ed | ]]; reflexivity.
  - exchange_cases net; cbn; intros Hin; try reflexivity;
      exfalso; revert Hin; not_in_trace.
Qed.

(** C2, as the code has it.  After a write of 8 bytes the status byte
    is read, and the response frame is decoded exactly when that byte
    is 1.  On status 0 nothing is decoded: the exchange ends by
    reporting the pong 0 of the empty ping, whatever the peer sent after
    the status. *)
Theorem ping_decodes_on_status_one :
  WritePacket net {| Id := 1 |} = (8, None) →
  (OpDecode ∈ (pingRequest ProtocolPrefix net).2 ↔ byteZ (ReadByte net).1 = 1) ∧
  ((ReadByte net).1 = zeroByte →
   (pingRequest ProtocolPrefix net).1 = ExitDone ∧
   (OpDecode ∉ (pingRequest ProtocolPrefix net).2) ∧
   OpInfoReceived peer zeroByte 0 ∈ (pingRequest ProtocolPrefix net).2 ∧
   ∀ pong : N, pong ≠ 0%N →
     OpInfoReceived peer zeroByte pong ∉ (pingRequest ProtocolPrefix net).2).
Proof.
  intros Hw. rewrite pingRequest_opened. cbn [fst snd]. unfold exchange.
  rewrite Hw. cbn [Z.eqb Pos.eqb negb].
  destruct (ReadByte net) as [code er]. cbn [fst]. split.
  - destruct (bool_decide (byteZ code = 1)) eqn:Hcode.
    + apply bool_decide_eq_true_1 in Hcode. split; [done | intros _].
      destruct (CloseWrite net), er, (Decode net) as [decoded [ed | ]];
        cbn; in_trace.
    + apply bool_decide_eq_false_1 in Hcode. split; [ | done].
      destruct (CloseWrite net), er; cbn; intros Hin; exfalso; revert Hin;
        not_in_trace.
  - intros ->. change (bool_decide (byteZ zeroByte = 1)) with false.
    split; [reflexivity | ]. split; [ | split].
    + destruct (CloseWrite net), er; cbn; not_in_trace.
    + destruct (CloseWrite net), er; cbn; in_trace.
    + intros pong Hpong.
      destruct (CloseWrite net), er; cbn; intros Hin;
        repeat (apply elem_of_cons in Hin as [Hin | Hin];
                [try discriminate Hin; injection Hin as Hin; congruence | ]);
        apply elem_of_nil in Hin; exact Hin.
Qed.

End PingRequest.

Lemma stream_closed_on_every_exit_witness :
  connectToRandomPeer Examples.echoingPeer = inr "B" ∧
  NewStream Examples.echoingPeer = None ∧
  ∃ pre : list Op,
    (pingRequest "/eth2/beacon_chain/req" Examples.echoingPeer).2
      = pre ++ [OpClose] ∧
    OpNewStream "B" ("/eth2/beacon_chain/req" +:+ "/ping/1/ssz_snappy") ∈ pre ∧
    (OpClose ∉ pre) ∧
    (pingRequest "/eth2/beacon_chain/req" Examples.echoingPeer).1
      ∈ [ExitWriteFailed; ExitWrongSize; ExitDecodeFailed; ExitDone].
Proof.
  split; [reflexivity | ]. split; [reflexivity | ].
  exact (stream_closed_on_every_exit "/eth2/beacon_chain/req" Examples.echoingPeer
           "B" eq_refl eq_refl).
Defined.

Lemma ping_request_framing_witness :
  connectToRandomPeer Examples.shortWrite = inr "B" ∧
  NewStream Examples.shortWrite = None ∧
  WritePacket Examples.shortWrite {| Id := 1 |} = (7, None) ∧
  7 ≠ 8 ∧
  (pingRequest "/eth2/beacon_chain/req" Examples.shortWrite).1 = ExitWrongSize ∧
  (OpReadByte ∉ (pingRequest "/eth2/beacon_chain/req" Examples.shortWrite).2) ∧
  OpDecode ∉ (pingRequest "/eth2/beacon_chain/req" Examples.shortWrite).2.
Proof.
  split; [reflexivity | ]. split; [reflexivity | ]. split; [reflexivity | ].
  split; [lia | ].
  apply (proj1 (proj2 (ping_request_framing "/eth2/beacon_chain/req"
                         Examples.shortWrite "B" eq_refl eq_refl)) 7);
    [reflexivity | lia].
Defined.

Lemma ping_decodes_on_status_one_witness :
  connectToRandomPeer Examples.echoingPeer = inr "B" ∧
  NewStream Examples.echoingPeer = None ∧
  WritePacket Examples.echoingPeer {| Id := 1 |} = (8, None) ∧
  (ReadByte Examples.echoingPeer).1 = zeroByte ∧
  Decode Examples.echoingPeer = ({| Id := 1 |}, None) ∧
  (pingRequest "/eth2/beacon_chain/req" Examples.echoingPeer).1 = ExitDone ∧
  (OpDecode ∉ (pingRequest "/eth2/beacon_chain/req" Examples.echoingPeer).2) ∧
  OpInfoReceived "B" zeroByte 0
    ∈ (pingRequest "/eth2/beacon_chain/req" Examples.echoingPeer).2 ∧
  (OpInfoReceived "B" zeroByte 1
    ∉ (pingRequest "/eth2/beacon_chain/req" Examples.echoingPeer).2).
Proof.
  split; [reflexivity | ]. split; [reflexivity | ]. split; [reflexivity | ].
  split; [reflexivity | ]. split; [reflexivity | ].
  destruct (proj2 (ping_decodes_on_status_one "/eth2/beacon_chain/req"
                     Examples.echoingPeer "B" eq_refl eq_refl eq_refl) eq_refl)
    as (Hexit & Hdec & Hzero & Hpong).
  split; [exact Hexit | ]. split; [exact Hdec | ]. split; [exact Hzero | ].
  apply Hpong. discriminate.
Defined.

(** *** Startup *)

Section Startup.

Variable ParseIP : string → IP.
Variable sys : System.

Lemma To4_nil_rejected (s : Sentinel) :
  To4 (ParseIP (IpAddr (cfg s))) = [] →
  createListener ParseIP sys s =
    (inl ("IPV4 address not provided instead " +:+ IpAddr (cfg s) +:+ " was provided"),
     s, []).
Proof. intros H. unfold createListener. rewrite H. reflexivity. Qed.

(** An address that is no address at all is refused before any bind. *)
Lemma unparsable_rejected (s : Sentinel) :
  ParseIP (IpAddr (cfg s)) = [] →
  createListener ParseIP sys s =
    (inl ("IPV4 address not provided instead " +:+ IpAddr (cfg s) +:+ " was provided"),
     s, []).
Proof. intros H. apply To4_nil_rejected. rewrite H. reflexivity. Qed.

(** An address with an IPv4 form passes the validation: the first thing
    done is the bind of a [udp4] socket on [0.0.0.0]. *)
Lemma ipv4_bound (s : Sentinel) :
  To4 (ParseIP (IpAddr (cfg s))) ≠ [] →
  ∃ res s' t,
    createListener ParseIP sys s =
      (res, s', EvListenUDP "udp4" IPv4zero (Port (cfg s)) :: t).
Proof.
  intros H. unfold createListener.
  destruct (To4 (ParseIP (IpAddr (cfg s)))) as [ | b ip4] eqn:H4; [done | ].
  cbn [isNil negb andb]. rewrite andb_false_r.
  destruct (ListenUDP sys "udp4" IPv4zero (Port (cfg s))); [by eexists _, _, _ | ].
  unfold createLocalNode.
  destruct (OpenDB sys); [by eexists _, _, _ | ].
  destruct (ListenV5 sys); by eexists _, _, _.
Qed.

(** [Start] hands on the error of [createListener] and does nothing
    after it. *)
Lemma Start_propagates (s s' : Sentinel) (err : string) (t : list Event) :
  createListener ParseIP sys s = (inl err, s', t) →
  Start ParseIP sys s =
    (Some ("failed creating sentinel listener err=" +:+ err), setListener None s',
     (if started s then [EvLogWarn "Sentinel already running"] else []) ++ t).
Proof. intros H. unfold Start. rewrite H. reflexivity. Qed.

(** C3, as the code has it.  A 16-byte address that is not an
    IPv4-mapped one, that is an IPv6 address, satisfies the condition of
    the [udp6] case of [createListener], and yet the call returns the
    error of the guard before that case: nothing is bound, and [Start]
    returns that error and does nothing further. *)
Theorem ipv6_rejected_before_bind (s : Sentinel) :
  length (ParseIP (IpAddr (cfg s))) = 16%nat →
  take 12 (ParseIP (IpAddr (cfg s))) ≠ v4InV6Prefix →
  negb (isNil (To16 (ParseIP (IpAddr (cfg s)))))
    && isNil (To4 (ParseIP (IpAddr (cfg s)))) = true ∧
  createListener ParseIP sys s =
    (inl ("IPV4 address not provided instead " +:+ IpAddr (cfg s) +:+ " was provided"),
     s, []) ∧
  Start ParseIP sys s =
    (Some ("failed creating sentinel listener err=" +:+
           "IPV4 address not provided instead " +:+ IpAddr (cfg s) +:+ " was provided"),
     setListener None s,
     if started s then [EvLogWarn "Sentinel already running"] else []).
Proof.
  intros Hlen Hmapped.
  assert (To4 (ParseIP (IpAddr (cfg s))) = []) as H4.
  { unfold To4, IPv4len, IPv6len. rewrite Hlen.
    rewrite (bool_decide_eq_false_2 (16%nat = 4%nat)) by done.
    rewrite (bool_decide_eq_false_2 _ Hmapped), andb_false_r. reflexivity. }
  assert (To16 (ParseIP (IpAddr (cfg s))) = ParseIP (IpAddr (cfg s))) as H16.
  { unfold To16, IPv6len. rewrite Hlen.
    destruct (ParseIP (IpAddr (cfg s))) as [ | a [ | b [ | c [ | d [ | e ip]]]]];
      try discriminate Hlen. reflexivity. }
  split; [ | split].
  - rewrite H4, H16.
    destruct (ParseIP (IpAddr (cfg s))); [discriminate Hlen | reflexivity].
  - apply To4_nil_rejected, H4.
  - rewrite (Start_propagates s s _ [] (To4_nil_rejected s H4)).
    rewrite app_nil_r. reflexivity.
Qed.

End Startup.

Lemma ipv6_rejected_before_bind_witness :
  length (Examples.parseKnown (IpAddr (cfg (Examples.configured "::1")))) = 16%nat ∧
  take 12 (Examples.parseKnown (IpAddr (cfg (Examples.configured "::1"))))
    ≠ v4InV6Prefix ∧
  createListener Examples.parseKnown Examples.quietSystem (Examples.configured "::1") =
    (inl "IPV4 address not provided instead ::1 was provided",
     Examples.configured "::1", []).
Proof.
  split; [reflexivity | ]. split; [vm_compute; discriminate | ].
  apply (ipv6_rejected_before_bind Examples.parseKnown Examples.quietSystem
           (Examples.configured "::1")); [reflexivity | vm_compute; discriminate].
Defined.

(** *** Peer count *)

Section PeerCount.

Variable LightClientFinalityUpdateTopic : string.

Lemma lastFinalitySub_spec (entries : list (string * GossipSubscription)) :
  ∀ acc,
    (lastFinalitySub LightClientFinalityUpdateTopic entries acc = acc ∧
     ∀ name sub, (name, sub) ∈ entries →
       Contains name LightClientFinalityUpdateTopic = false) ∨
    (∃ name sub,
       (name, sub) ∈ entries ∧
       Contains name LightClientFinalityUpdateTopic = true ∧
       lastFinalitySub LightClientFinalityUpdateTopic entries acc = Some sub).
Proof.
  induction entries as [ | [name sub] entries IH]; intros acc.
  - left. split; [reflexivity | ]. intros name sub H. by apply elem_of_nil in H.
  - cbn [lastFinalitySub].
    destruct (Contains name LightClientFinalityUpdateTopic) eqn:Hc.
    + right. destruct (IH (Some sub)) as [[Heq _] | (name' & sub' & Hin & Hc' & Heq)].
      * exists name, sub. split; [apply list_elem_of_here | ]. split; done.
      * exists name', sub'. split; [by apply list_elem_of_further | ]. split; done.
    + destruct (IH acc) as [[Heq Hall] | (name' & sub' & Hin & Hc' & Heq)].
      * left. split; [exact Heq | ].
        intros name' sub' Hin. apply elem_of_cons in Hin as [[= -> ->] | Hin];
          [exact Hc | by eapply Hall].
      * right. exists name', sub'. split; [by apply list_elem_of_further | ].
        split; done.
Qed.

(** C6, as the code has it.  On a Sentinel with a gossip manager
    [GetPeersCount] returns a number.  It is the number of connected
    peers of the host when no subscribed topic contains the name of the
    finality-update topic; otherwise it is the number of peers of such a
    subscribed topic. *)
Theorem peers_count_of_finality_topic (s : Sentinel) (g : GossipManager) :
  subManager s = Some g →
  (∃ n, GetPeersCount LightClientFinalityUpdateTopic s n) ∧
  ∀ n, GetPeersCount LightClientFinalityUpdateTopic s n →
    ((∀ name sub, subscriptions g !! name = Some sub →
        Contains name LightClientFinalityUpdateTopic = false) ∧
     n = length (hostPeers s)) ∨
    (∃ name sub,
       subscriptions g !! name = Some sub ∧
       Contains name LightClientFinalityUpdateTopic = true ∧
       n = length (ListPeers (topic sub))).
Proof.
  intros Hg. split.
  - unfold GetPeersCount, GetPeersCountIn. rewrite Hg.
    destruct (lastFinalitySub LightClientFinalityUpdateTopic
                (map_to_list (subscriptions g)) None) as [sub | ] eqn:Hsub.
    + exists (length (ListPeers (topic sub))), g, (map_to_list (subscriptions g)).
      rewrite Hsub. done.
    + exists (length (hostPeers s)), g, (map_to_list (subscriptions g)).
      rewrite Hsub. done.
  - intros n (g' & entries & Hg' & Hperm & Hn).
    rewrite Hg in Hg'. injection Hg' as <-.
    unfold GetPeersCountIn in Hn. rewrite Hg in Hn.
    destruct (lastFinalitySub_spec entries None)
      as [[Heq Hall] | (name & sub & Hin & Hc & Heq)]; rewrite Heq in Hn.
    + left. injection Hn as <-. split; [ | reflexivity].
      intros name sub Hlook. apply (Hall name sub).
      rewrite Hperm. by apply elem_of_map_to_list.
    + right. injection Hn as <-. exists name, sub.
      rewrite Hperm in Hin. apply elem_of_map_to_list in Hin. done.
Qed.

End PeerCount.

Lemma peers_count_of_finality_topic_witness :
  subManager Examples.fivePeers
    = Some {| subscriptions :=
                {[ "/eth2/4a26c58b/light_client_finality_update/ssz_snappy" :=
                     {| topic := {| ListPeers := ["p1"; "p2"] |} |} ]} |} ∧
  ∃ n, GetPeersCount Examples.finalityTopic Examples.fivePeers n.
Proof.
  split; [reflexivity | ].
  exact (proj1 (peers_count_of_finality_topic Examples.finalityTopic
                  Examples.fivePeers _ eq_refl)).
Defined.

(** C6, as the design document states it, fails: a Sentinel with five
    connected peers, two of them in the mesh of the finality-update
    topic, does not report five. *)
Lemma peers_count_is_not_connected_peers :
  length (hostPeers Examples.fivePeers) = 5%nat ∧
  ¬ GetPeersCount Examples.finalityTopic Examples.fivePeers
      (length (hostPeers Examples.fivePeers)).
Proof.
  split; [reflexivity | ].
  intros (g & entries & Hg & Hperm & Hn).
  injection Hg as <-. cbn [subscriptions] in Hperm.
  rewrite map_to_list_singleton in Hperm.
  apply Permutation_singleton_r in Hperm as ->.
  vm_compute in Hn. discriminate Hn.
Qed.

Example ipv4_loopback_listens :
  Start Examples.parseKnown Examples.quietSystem (Examples.configured "127.0.0.1") =
    (None,
     {| started := false;
        listener := Some {| network := "udp4"; bindIP := IPv4zero; bindPort := 7777 |};
        cfg := cfg (Examples.configured "127.0.0.1");
        hostPeers := [];
        metadataV1 := Some {| SeqNumber := 1; Attnets := 0; Syncnets := 0 |};
        subManager := Some {| subscriptions := ∅ |} |},
     [EvListenUDP "udp4" IPv4zero 7777; EvOpenDB; EvStartHandlers; EvListenV5;
      EvConnectToBootnodes; EvGoListenForPeers; EvNewGossipManager]).
Proof. reflexivity. Qed.

Example not_an_address_is_refused :
  Start Examples.parseKnown Examples.quietSystem (Examples.configured "localhost") =
    (Some ("failed creating sentinel listener err=" +:+
           "IPV4 address not provided instead localhost was provided"),
     Examples.configured "localhost", []).
Proof. reflexivity. Qed.

Example echoed_ping_trace :
  pingRequest "/eth2/beacon_chain/req" Examples.echoingPeer =
    (ExitDone,
     [OpNewStream "B" "/eth2/beacon_chain/req/ping/1/ssz_snappy";
      OpWritePacket {| Id := 1 |}; OpCloseWrite; OpInfoSent "B"; OpReadByte;
      OpInfoReceived "B" zeroByte 0; OpClose]).
Proof. reflexivity. Qed.

End SentinelProps.

(** ** More on the health check *)

Module HealthMore.
Import Go Health.

Lemma healthy_iff_nil (unicode : Unicode) (err : error) :
  errorStringOrOK unicode err = "HEALTHY" ↔ err = None.
Proof.
  destruct err as [[ | msg | fn num k] | ]; cbn; split; intros H; try done;
    discriminate H.
Qed.

Lemma disabled_iff_sentinel (unicode : Unicode) (err : error) :
  errorStringOrOK unicode err = "DISABLED" ↔ err = Some errCheckDisabled.
Proof.
  destruct err as [[ | msg | fn num k] | ]; cbn; split; intros H; try done;
    discriminate H.
Qed.

(** X1.  The two functions that turn a result into the response agree:
    a result is reported [HEALTHY] only when it is no error, [DISABLED]
    only when it is the sentinel, and it turns the status to 500 exactly
    when it is reported as [ERROR: ...]; no text of an error makes the
    report read [HEALTHY] or [DISABLED]. *)
Theorem report_text_and_status_agree (unicode : Unicode) (err : error) :
  (errorStringOrOK unicode err = "HEALTHY" ↔ err = None) ∧
  (errorStringOrOK unicode err = "DISABLED" ↔ err = Some errCheckDisabled) ∧
  (shouldChangeStatusCode err = true ↔
   HasPrefix (errorStringOrOK unicode err) "ERROR: " = true) ∧
  (shouldChangeStatusCode err = true →
   ∃ e, err = Some e ∧ errorStringOrOK unicode err = "ERROR: " +:+ Error unicode e).
Proof.
  split; [apply healthy_iff_nil | ]. split; [apply disabled_iff_sentinel | ].
  destruct err as [[ | msg | fn num k] | ]; cbn; split; try done;
    try (split; [intros _; apply HealthProps.HasPrefix_app | done]);
    try (intros _; eexists; split; reflexivity);
    try (split; intros H; discriminate H).
Qed.

Section Handler.

Variable unicode : Unicode.
Variable checkBlockNumber : Z -> EthAPI -> error.
Variable notEnoughPeers : Z -> Z -> string.
Variable Unmarshal : string -> string + requestBody.

Let handler := ProcessHealthcheckIfNeeded unicode checkBlockNumber notEnoughPeers Unmarshal.
Let headersLoop := processHeaders unicode checkBlockNumber notEnoughPeers.

Lemma json_mode_shape (rev : Revision) (now : Z) (r : Request) (rpcAPI : API) :
  EqualFold (URLPath r) urlPath = true →
  HeaderGet r = EmptyString →
  ∃ m code calls,
    handler rev now newResponseWriter r rpcAPI =
      ((true, {| status := Some code; written := [JSONObject m] |}), calls) ∧
    (code = StatusOK ∨ code = StatusInternalServerError).
Proof.
  intros Hpath Hhdr. unfold handler, ProcessHealthcheckIfNeeded.
  rewrite Hpath, Hhdr. cbn [negb].
  rewrite bool_decide_eq_true_2 by done. cbn [negb].
  destruct (parseHealthCheckBody Unmarshal (Body r)) as [body [e | ]].
  - unfold bind, ret. cbn -[reportHealth]. rewrite HealthProps.reportHealth_eq.
    eexists _, _, _. split; [reflexivity | ].
    destruct (_ || _); [right | left]; reflexivity.
  - destruct (MinPeerCount body) as [n | ], (BlockNumber body) as [b | ];
      unfold bind, ret, calling; cbn -[reportHealth];
      rewrite HealthProps.reportHealth_eq;
      (eexists _, _, _; split; [reflexivity | ]);
      destruct (_ || _); (right; reflexivity) || (left; reflexivity).
Qed.

(** X2.  The handler takes a request exactly when its path is [/health]
    up to letter case.  A request it does not take leaves the response
    writer as it was and the node unqueried; a request it takes gets
    exactly one write and the status 200 or 500, whatever its headers
    and body. *)
Theorem handled_exactly_on_health_path (rev : Revision) (now : Z)
    (w0 : ResponseWriter) (r : Request) (rpcAPI : API) :
  (handler rev now w0 r rpcAPI).1.1 = EqualFold (URLPath r) urlPath ∧
  (EqualFold (URLPath r) urlPath = false →
   handler rev now w0 r rpcAPI = ((false, w0), [])) ∧
  (EqualFold (URLPath r) urlPath = true →
   ∃ payload code calls,
     handler rev now newResponseWriter r rpcAPI =
       ((true, {| status := Some code; written := [payload] |}), calls) ∧
     (code = StatusOK ∨ code = StatusInternalServerError)).
Proof.
  split; [ | split].
  - unfold handler, ProcessHealthcheckIfNeeded.
    destruct (EqualFold (URLPath r) urlPath); cbn [negb]; [ | reflexivity].
    destruct (negb (bool_decide (HeaderGet r = EmptyString))).
    + destruct (ProcessHealthcheck2 _ _ _ _ _ _ _) as [err t]. reflexivity.
    + destruct (parseHealthCheckBody Unmarshal (Body r)) as [body [e | ]].
      * unfold bind, ret. cbn -[reportHealth].
        destruct (reportHealth unicode _ _ _ w0). reflexivity.
      * destruct (MinPeerCount body), (BlockNumber body);
          unfold bind, ret, calling; cbn -[reportHealth];
          destruct (reportHealth unicode _ _ _ w0); reflexivity.
  - intros Hpath. unfold handler, ProcessHealthcheckIfNeeded.
    rewrite Hpath. reflexivity.
  - intros Hpath.
    destruct (decide (HeaderGet r = EmptyString)) as [Hhdr | Hhdr].
    + destruct (json_mode_shape rev now r rpcAPI Hpath Hhdr)
        as (m & code & calls & Heq & Hcode).
      eexists _, _, _. split; [exact Heq | exact Hcode].
    + fold handler. unfold handler.
      rewrite HealthProps.header_mode by done.
      destruct (processHeaders _ _ _ _ _ _ _) as [[e | ] calls];
        eexists _, _, _; (split; [reflexivity | ]); [right | left]; reflexivity.
Qed.

(** X3.  With a health-check header whose first value is not empty the
    answer is one plain text: [HEALTHY] with status 200 exactly when the
    loop over the header values ends without error, and otherwise
    status 500 with the report of the error the loop returned; the
    queries made are those of the loop. *)
Theorem header_mode_answer (rev : Revision) (now : Z) (r : Request) (rpcAPI : API) :
  EqualFold (URLPath r) urlPath = true →
  HeaderGet r ≠ EmptyString →
  ∃ (code : Z) (text : string),
    handler rev now newResponseWriter r rpcAPI =
      ((true, {| status := Some code; written := [Bytes text] |}),
       (ProcessHealthcheck2 unicode checkBlockNumber notEnoughPeers rev now r rpcAPI).2) ∧
    text = errorStringOrOK unicode
             (ProcessHealthcheck2 unicode checkBlockNumber notEnoughPeers rev now r rpcAPI).1 ∧
    (code = StatusOK ↔
     (ProcessHealthcheck2 unicode checkBlockNumber notEnoughPeers rev now r rpcAPI).1 = None) ∧
    (code = StatusOK ↔ text = "HEALTHY") ∧
    (code ≠ StatusOK → code = StatusInternalServerError).
Proof.
  intros Hpath Hne. unfold handler. rewrite HealthProps.header_mode by done.
  unfold ProcessHealthcheck2.
  destruct (processHeaders _ _ _ _ _ _ _) as [[e | ] calls] eqn:Hloop; cbn [fst snd].
  - eexists _, _. split; [reflexivity | ]. split; [reflexivity | ].
    split; [split; intros H; discriminate H | ].
    split; [ | done]. split; [intros H; discriminate H | ].
    intros H. apply healthy_iff_nil in H. discriminate H.
  - eexists _, _. split; [reflexivity | ]. split; [reflexivity | ].
    repeat split; done.
Qed.

(** X4.  The loop over the header values stops at the first value whose
    check fails: the values after it are not looked at and the node is
    not queried for them.  When a first part of the values passes, the
    result is that of the rest, after the queries of the first part. *)
Theorem first_failure_ends_the_loop (rev : Revision) (now : Z) (r : Request)
    (rpcAPI : API) (pre rest : list string) :
  HeaderValues r = pre ++ rest →
  ((headersLoop rev now rpcAPI pre).1 ≠ None →
   ProcessHealthcheck2 unicode checkBlockNumber notEnoughPeers rev now r rpcAPI
   = headersLoop rev now rpcAPI pre) ∧
  ((headersLoop rev now rpcAPI pre).1 = None →
   ProcessHealthcheck2 unicode checkBlockNumber notEnoughPeers rev now r rpcAPI
   = ((headersLoop rev now rpcAPI rest).1,
      (headersLoop rev now rpcAPI pre).2 ++ (headersLoop rev now rpcAPI rest).2)).
Proof.
  intros Hhv. unfold ProcessHealthcheck2, headersLoop.
  rewrite Hhv, HealthProps.processHeaders_app.
  destruct (processHeaders _ _ _ _ _ _ pre) as [[e | ] t]; cbn [fst snd];
    unfold orReturn, bind, ret.
  - split; [intros _; by rewrite app_nil_r | intros H; discriminate H].
  - split; [done | intros _].
    destruct (processHeaders _ _ _ _ _ _ rest) as [e' t']. reflexivity.
Qed.



Lemma alone_in_header_mode (rev : Revision) (now : Z) (r : Request) (rpcAPI : API)
    (h : string) (check : M error) :
  EqualFold (URLPath r) urlPath = true →
  HeaderValues r = [h] →
  h ≠ EmptyString →
  (∀ k, processHeader unicode checkBlockNumber notEnoughPeers rev now rpcAPI h k
        = orReturn check k) →
  handler rev now newResponseWriter r rpcAPI =
    ((true,
      {| status := Some (match check.1 with
                         | Some _ => StatusInternalServerError
                         | None => StatusOK
                         end);
         written := [Bytes (errorStringOrOK unicode check.1)] |}), check.2).
Proof.
  intros Hpath Hhv Hne Hstep. unfold handler.
  rewrite HealthProps.header_mode;
    [ | exact Hpath | unfold HeaderGet; rewrite Hhv; exact Hne].
  rewrite Hhv. cbn [processHeaders]. rewrite Hstep.
  destruct check as [[e | ] t]; unfold orReturn, bind, ret; cbn [fst snd];
    rewrite app_nil_r; reflexivity.
Qed.

Lemma lower_nonempty (h : string) (c : ascii) (t : string) :
  ToLower unicode h = String c t → h ≠ EmptyString.
Proof. intros H ->. discriminate H. Qed.

Lemma wrapU64_negative (n : Z) : - 2 ^ 63 ≤ n < 0 → wrapU64 n = 2 ^ 64 + n.
Proof.
  intros H. unfold wrapU64.
  replace n with (2 ^ 64 + n + (-1) * 2 ^ 64) at 1 by lia.
  rewrite Z.mod_add by lia. apply Z.mod_small. lia.
Qed.

Lemma wrapU64_small (n : Z) : 0 ≤ n < 2 ^ 64 → wrapU64 n = n.
Proof. intros H. unfold wrapU64. apply Z.mod_small. lia. Qed.

(** X6.  The number after [min_peer_count] is converted to [uint]: a
    negative one is not refused but wraps around, so that [-1] asks for
    2^64 - 1 peers.  The check is made with the wrapped minimum, and for
    a negative number it fails for every peer count below 2^63. *)
Theorem min_peer_count_wraps (rev : Revision) (now : Z) (r : Request) (rpcAPI : API)
    (h d : string) (N p : Z) :
  EqualFold (URLPath r) urlPath = true →
  HeaderValues r = [h] →
  ToLower unicode h = "min_peer_count" +:+ d →
  Atoi d = inr N →
  PeerCount (netAPI rpcAPI) = inr p →
  p < 2 ^ 63 →
  let minimum := if N <? 0 then 2 ^ 64 + N else N in
  (handler rev now newResponseWriter r rpcAPI).2 = [CallCheckMinPeers minimum] ∧
  (N < 0 →
   handler rev now newResponseWriter r rpcAPI =
     ((true, {| status := Some StatusInternalServerError;
                written := [Bytes ("ERROR: " +:+ notEnoughPeers p (2 ^ 64 + N))] |}),
      [CallCheckMinPeers (2 ^ 64 + N)])).
Proof.
  intros Hpath Hhv Hlow Hatoi Hpeers Hp minimum.
  pose proof (HealthProps.Atoi_range _ _ Hatoi) as HN. unfold minInt, maxInt in HN.
  assert (wrapU64 N = minimum) as Hwrap.
  { subst minimum. destruct (N <? 0) eqn:Hneg.
    - apply Z.ltb_lt in Hneg. apply wrapU64_negative. lia.
    - apply Z.ltb_ge in Hneg. apply wrapU64_small. lia. }
  assert (∀ k, processHeader unicode checkBlockNumber notEnoughPeers rev now rpcAPI h k
               = orReturn (calling (CallCheckMinPeers minimum)
                             (checkMinPeers notEnoughPeers minimum (netAPI rpcAPI))) k)
    as Hstep.
  { intros k. unfold processHeader. rewrite Hlow.
    transitivity (orReturn (minPeerCountHeader notEnoughPeers
                              ("min_peer_count" +:+ d) rpcAPI) k).
    - destruct rev; reflexivity.
    - unfold minPeerCountHeader.
      rewrite HealthProps.TrimPrefix_app, Hatoi, Hwrap. reflexivity. }
  rewrite (alone_in_header_mode rev now r rpcAPI h _ Hpath Hhv
             (lower_nonempty _ _ _ Hlow) Hstep).
  split; [reflexivity | ].
  intros Hneg. subst minimum.
  assert ((N <? 0) = true) as -> by (apply Z.ltb_lt; exact Hneg).
  unfold calling, checkMinPeers. cbn [fst snd]. rewrite Hpeers.
  assert ((p <? 2 ^ 64 + N) = true) as -> by (apply Z.ltb_lt; lia).
  reflexivity.
Qed.



(** X8.  The header [synced] alone: the node is asked once whether it
    is syncing.  The answer is 200 [HEALTHY] exactly when the node
    answers [nil] or [false]; an error of the call is reported with its
    text, and any other answer (a progress report, [true]) as
    [not synced], both with status 500. *)
Theorem synced_header (rev : Revision) (now : Z) (r : Request) (rpcAPI : API)
    (h : string) :
  EqualFold (URLPath r) urlPath = true →
  HeaderValues r = [h] →
  ToLower unicode h = "synced" →
  ∃ (code : Z) (text : string),
    handler rev now newResponseWriter r rpcAPI =
      ((true, {| status := Some code; written := [Bytes text] |}), [CallSyncing]) ∧
    (code = StatusOK ↔
     Syncing (ethAPI rpcAPI) = inr anyNil ∨
     Syncing (ethAPI rpcAPI) = inr (anyBool false)) ∧
    (code ≠ StatusOK → code = StatusInternalServerError) ∧
    (∀ msg, Syncing (ethAPI rpcAPI) = inl msg → text = "ERROR: " +:+ msg) ∧
    (∀ v, Syncing (ethAPI rpcAPI) = inr v → v ≠ anyNil → v ≠ anyBool false →
          text = "ERROR: not synced").
Proof.
  intros Hpath Hhv Hlow.
  assert (∀ k, processHeader unicode checkBlockNumber notEnoughPeers rev now rpcAPI h k
               = orReturn (processSyncedCheck rpcAPI) k) as Hstep.
  { intros k. unfold processHeader. rewrite Hlow. destruct rev; reflexivity. }
  rewrite (alone_in_header_mode rev now r rpcAPI h _ Hpath Hhv
             (lower_nonempty _ _ _ Hlow) Hstep).
  unfold processSyncedCheck, calling. cbn [fst snd].
  destruct (Syncing (ethAPI rpcAPI)) as [msg | [ | [ | ] | n | descr]];
    eexists _, _; (split; [reflexivity | ]);
    (split; [split; [try (intros H; discriminate H); auto
                    | intros [H | H]; try discriminate H; reflexivity] | ]);
    (split; [try done | ]);
    (split; [intros msg' H; try discriminate H; try (injection H as <-); reflexivity
            | intros v H Hnil Hfalse; try discriminate H;
              injection H as <-; try done]).
Qed.

Lemma time_header_alone (now : Z) (r : Request) (rpcAPI : API) (h d : string)
    (N : Z) :
  EqualFold (URLPath r) urlPath = true →
  HeaderValues r = [h] →
  ToLower unicode h = "max_seconds_behind" +:+ d →
  Atoi d = inr N →
  0 ≤ now < 2 ^ 63 →
  let secs := if N <? 0 then 600 else N in
  handler WithTimeCheck now newResponseWriter r rpcAPI =
    ((true,
      {| status := Some (match (processTimeCheck (now - secs) rpcAPI).1 with
                         | Some _ => StatusInternalServerError
                         | None => StatusOK
                         end);
         written := [Bytes (errorStringOrOK unicode
                              (processTimeCheck (now - secs) rpcAPI).1)] |}),
     (processTimeCheck (now - secs) rpcAPI).2).
Proof.
  intros Hpath Hhv Hlow Hatoi Hnow secs.
  pose proof (HealthProps.Atoi_range _ _ Hatoi) as HN. unfold minInt, maxInt in HN.
  assert (0 ≤ secs ≤ 2 ^ 63 - 1) as Hsecs.
  { subst secs. destruct (N <? 0) eqn:Hneg; [lia | ]. apply Z.ltb_ge in Hneg. lia. }
  assert (wrap64 (now - secs) = now - secs) as Hw
    by (apply HealthProps.wrap64_small; unfold minInt, maxInt; lia).
  apply (alone_in_header_mode WithTimeCheck now r rpcAPI h
           (processTimeCheck (now - secs) rpcAPI) Hpath Hhv
           (lower_nonempty _ _ _ Hlow)).
  intros k.
  rewrite (HealthProps.step_max_seconds_behind unicode checkBlockNumber notEnoughPeers
             now rpcAPI h d) by done.
  unfold maxSecondsBehindHeader. rewrite HealthProps.TrimPrefix_app, Hatoi.
  fold secs. rewrite Hw. reflexivity.
Qed.

(** X9.  A latest block without a [timestamp] entry, or with one that
    is not a [uint64], is taken to have the timestamp 0: the header
    [max_seconds_behind<N>] alone is then answered 200 [HEALTHY]
    whenever [N] (600 for a negative one) is at most the current Unix
    time, and 500 only when it is larger. *)
Theorem missing_timestamp_counts_as_zero (now : Z) (r : Request) (rpcAPI : API)
    (h d : string) (N : Z) (blk : gmap string any) :
  EqualFold (URLPath r) urlPath = true →
  HeaderValues r = [h] →
  ToLower unicode h = "max_seconds_behind" +:+ d →
  Atoi d = inr N →
  0 ≤ now < 2 ^ 63 →
  GetBlockByNumber (ethAPI rpcAPI) = inr blk →
  (∀ cs, blk !! "timestamp" ≠ Some (anyUint64 cs)) →
  let secs := if N <? 0 then 600 else N in
  (secs ≤ now →
   handler WithTimeCheck now newResponseWriter r rpcAPI =
     ((true, {| status := Some StatusOK; written := [Bytes "HEALTHY"] |}),
      [CallGetBlockByNumber])) ∧
  (now < secs →
   handler WithTimeCheck now newResponseWriter r rpcAPI =
     ((true, {| status := Some StatusInternalServerError;
                written := [Bytes ("ERROR: got ts: 0, need: " +:+
                                   fmtInt (now - secs))] |}),
      [CallGetBlockByNumber])).
Proof.
  intros Hpath Hhv Hlow Hatoi Hnow Hblk Hts secs.
  rewrite (time_header_alone now r rpcAPI h d N) by done. fold secs.
  assert (processTimeCheck (now - secs) rpcAPI =
          (if now - secs <? 0
           then Some (errorString ("got ts: " +:+ fmtInt 0 +:+
                                   ", need: " +:+ fmtInt (now - secs)))
           else None, [CallGetBlockByNumber])) as ->.
  { unfold processTimeCheck, calling. rewrite Hblk.
    destruct (blk !! "timestamp") as [[ | b | cs | descr] | ] eqn:Hlook;
      try reflexivity.
    exfalso. exact (Hts cs eq_refl). }
  cbn [fst snd]. split; intros H.
  - destruct (now - secs <? 0) eqn:Hlt; [apply Z.ltb_lt in Hlt; lia | reflexivity].
  - destruct (now - secs <? 0) eqn:Hlt; [reflexivity | apply Z.ltb_ge in Hlt; lia].
Qed.

(** X10.  The [uint64] timestamp is converted to [int]: one of 2^63 or
    more wraps to a negative number.  A latest block with such a
    timestamp, far in the future, passes the header
    [max_seconds_behind<N>] whenever [N] is at most the current Unix
    time, although the timestamp exceeds the bound. *)
Theorem huge_timestamp_wraps (now : Z) (r : Request) (rpcAPI : API)
    (h d : string) (N : Z) (blk : gmap string any) (ts : Z) :
  EqualFold (URLPath r) urlPath = true →
  HeaderValues r = [h] →
  ToLower unicode h = "max_seconds_behind" +:+ d →
  Atoi d = inr N →
  0 ≤ now < 2 ^ 63 →
  GetBlockByNumber (ethAPI rpcAPI) = inr blk →
  blk !! "timestamp" = Some (anyUint64 ts) →
  2 ^ 63 ≤ ts < 2 ^ 64 →
  let secs := if N <? 0 then 600 else N in
  ((processTimeCheck (now - secs) rpcAPI).1 = None ↔ ts - 2 ^ 64 ≤ now - secs) ∧
  (secs ≤ now →
   now - secs < ts ∧
   handler WithTimeCheck now newResponseWriter r rpcAPI =
     ((true, {| status := Some StatusOK; written := [Bytes "HEALTHY"] |}),
      [CallGetBlockByNumber])).
Proof.
  intros Hpath Hhv Hlow Hatoi Hnow Hblk Hts Hrange secs.
  assert (wrap64 ts = ts - 2 ^ 64) as Hwrap.
  { unfold wrap64.
    replace (ts + 2 ^ 63) with (ts - 2 ^ 63 + 1 * 2 ^ 64) by lia.
    rewrite Z.mod_add by lia. rewrite Z.mod_small by lia. lia. }
  assert (processTimeCheck (now - secs) rpcAPI =
          (if now - secs <? ts - 2 ^ 64
           then Some (errorString ("got ts: " +:+ fmtInt (ts - 2 ^ 64) +:+
                                   ", need: " +:+ fmtInt (now - secs)))
           else None, [CallGetBlockByNumber])) as Htime.
  { unfold processTimeCheck, calling. rewrite Hblk, Hts, Hwrap. reflexivity. }
  split.
  - rewrite Htime. cbn [fst].
    destruct (now - secs <? ts - 2 ^ 64) eqn:Hlt.
    + apply Z.ltb_lt in Hlt. split; [done | lia].
    + apply Z.ltb_ge in Hlt. done.
  - intros Hle.
    assert (0 ≤ secs) as Hsecs.
    { subst secs. destruct (N <? 0) eqn:Hneg; [lia | ]. apply Z.ltb_ge in Hneg. lia. }
    split; [lia | ].
    rewrite (time_header_alone now r rpcAPI h d N) by done. fold secs.
    rewrite Htime. cbn [fst snd].
    destruct (now - secs <? ts - 2 ^ 64) eqn:Hlt;
      [apply Z.ltb_lt in Hlt; lia | reflexivity].
Qed.

(** X11.  When the latest block cannot be fetched the time check fails
    with the error of the call: the header [max_seconds_behind<N>]
    alone is answered 500 with [ERROR: ] and the text of that error,
    whatever [N]. *)
Theorem block_fetch_error_fails_time_check (now : Z) (r : Request) (rpcAPI : API)
    (h d : string) (N : Z) (msg : string) :
  EqualFold (URLPath r) urlPath = true →
  HeaderValues r = [h] →
  ToLower unicode h = "max_seconds_behind" +:+ d →
  Atoi d = inr N →
  0 ≤ now < 2 ^ 63 →
  GetBlockByNumber (ethAPI rpcAPI) = inl msg →
  handler WithTimeCheck now newResponseWriter r rpcAPI =
    ((true, {| status := Some StatusInternalServerError;
               written := [Bytes ("ERROR: " +:+ msg)] |}),
     [CallGetBlockByNumber]).
Proof.
  intros Hpath Hhv Hlow Hatoi Hnow Hblk.
  rewrite (time_header_alone now r rpcAPI h d N) by done.
  unfold processTimeCheck, calling. rewrite Hblk. reflexivity.
Qed.

(** X12.  A request without the health-check header whose body is
    decoded: the checks the body asks for are made, the peer check
    before the block check, and the block check also when the peer
    check failed.  [healthcheck_query] is reported [HEALTHY], a check
    not asked for [DISABLED], a check asked for with its result; the
    status is 200 exactly when no check that was asked for returned an
    error other than the sentinel. *)
Theorem decoded_body_report (rev : Revision) (now : Z) (r : Request) (rpcAPI : API)
    (bodyBytes : string) (body : requestBody) :
  EqualFold (URLPath r) urlPath = true →
  HeaderGet r = EmptyString →
  Body r = inr bodyBytes →
  Unmarshal bodyBytes = inr body →
  let errMinPeerCount :=
    match MinPeerCount body with
    | Some n => checkMinPeers notEnoughPeers n (netAPI rpcAPI)
    | None => Some errCheckDisabled
    end in
  let errCheckBlock :=
    match BlockNumber body with
    | Some n => checkBlockNumber n (ethAPI rpcAPI)
    | None => Some errCheckDisabled
    end in
  ∃ (m : gmap string string) (code : Z),
    handler rev now newResponseWriter r rpcAPI =
      ((true, {| status := Some code; written := [JSONObject m] |}),
       match MinPeerCount body with Some n => [CallCheckMinPeers n] | None => [] end
       ++ match BlockNumber body with
          | Some n => [CallCheckBlockNumber n]
          | None => []
          end) ∧
    m !! "healthcheck_query" = Some "HEALTHY" ∧
    m !! "min_peer_count" = Some (errorStringOrOK unicode errMinPeerCount) ∧
    m !! "check_block" = Some (errorStringOrOK unicode errCheckBlock) ∧
    (code = StatusOK ↔
     passedUnlessDisabled errMinPeerCount ∧ passedUnlessDisabled errCheckBlock) ∧
    (code ≠ StatusOK → code = StatusInternalServerError).
Proof.
  intros Hpath Hhdr Hbody Hjson errMinPeerCount errCheckBlock.
  assert (handler rev now newResponseWriter r rpcAPI =
          ((true, (reportHealth unicode None errMinPeerCount errCheckBlock
                     newResponseWriter).2),
           match MinPeerCount body with Some n => [CallCheckMinPeers n] | None => [] end
           ++ match BlockNumber body with
              | Some n => [CallCheckBlockNumber n]
              | None => []
              end)) as ->.
  { unfold handler, ProcessHealthcheckIfNeeded.
    rewrite Hpath, Hhdr. cbn [negb].
    rewrite bool_decide_eq_true_2 by done. cbn [negb].
    unfold parseHealthCheckBody. rewrite Hbody, Hjson.
    subst errMinPeerCount errCheckBlock.
    destruct (MinPeerCount body) as [n | ], (BlockNumber body) as [b | ];
      unfold bind, ret, calling; cbn -[reportHealth];
      rewrite !HealthProps.reportHealth_eq; reflexivity. }
  rewrite HealthProps.reportHealth_eq. cbn [snd].
  eexists _, _. split; [reflexivity | ].
  split; [ | split; [ | split; [ | split]]].
  - rewrite lookup_insert_ne by done. rewrite lookup_insert_ne by done.
    apply lookup_insert_eq.
  - rewrite lookup_insert_ne by done. apply lookup_insert_eq.
  - apply lookup_insert_eq.
  - unfold passedUnlessDisabled.
    rewrite <- !HealthProps.shouldChangeStatusCode_spec. cbn [shouldChangeStatusCode orb].
    destruct (shouldChangeStatusCode errMinPeerCount),
      (shouldChangeStatusCode errCheckBlock); cbn;
      unfold StatusOK, StatusInternalServerError; split; try done;
      intros [? ?]; done.
  - cbn [shouldChangeStatusCode orb].
    destruct (shouldChangeStatusCode errMinPeerCount || shouldChangeStatusCode errCheckBlock);
      done.
Qed.

(** X13.  A request without the health-check header whose body cannot
    be read to its end is answered like one with an undecodable body:
    status 500, [healthcheck_query] reported with the error of the
    read, both checks [DISABLED], and no query to the node. *)
Theorem unreadable_body_report (rev : Revision) (now : Z) (r : Request) (rpcAPI : API)
    (msg : string) :
  EqualFold (URLPath r) urlPath = true →
  HeaderGet r = EmptyString →
  Body r = inl msg →
  ∃ m : gmap string string,
    handler rev now newResponseWriter r rpcAPI =
      ((true, {| status := Some StatusInternalServerError;
                 written := [JSONObject m] |}), []) ∧
    m !! "healthcheck_query" = Some ("ERROR: " +:+ msg) ∧
    m !! "min_peer_count" = Some "DISABLED" ∧
    m !! "check_block" = Some "DISABLED".
Proof.
  intros Hpath Hhdr Hbody.
  exists (<["check_block" := "DISABLED"]>
         (<["min_peer_count" := "DISABLED"]>
         (<["healthcheck_query" := "ERROR: " +:+ msg]> ∅))).
  split; [ | split; [ | split]].
  - unfold handler, ProcessHealthcheckIfNeeded.
    rewrite Hpath, Hhdr. cbn [negb].
    rewrite bool_decide_eq_true_2 by done. cbn [negb].
    unfold parseHealthCheckBody. rewrite Hbody.
    unfold bind, ret. cbn -[reportHealth].
    rewrite HealthProps.reportHealth_eq. reflexivity.
  - rewrite lookup_insert_ne by done. rewrite lookup_insert_ne by done.
    apply lookup_insert_eq.
  - rewrite lookup_insert_ne by done. apply lookup_insert_eq.
  - apply lookup_insert_eq.
Qed.

End Handler.

(** *** The properties at concrete requests *)

Lemma header_mode_answer_witness :
  EqualFold (URLPath (Examples.healthRequest ["synced"])) urlPath = true ∧
  HeaderGet (Examples.healthRequest ["synced"]) ≠ EmptyString ∧
  ∃ (code : Z) (text : string),
    ProcessHealthcheckIfNeeded Examples.plain Examples.blockKnown Examples.notEnoughPeers
      Examples.rejectAll WithoutTimeCheck 0 newResponseWriter
      (Examples.healthRequest ["synced"]) Examples.node3 =
      ((true, {| status := Some code; written := [Bytes text] |}), [CallSyncing]) ∧
    (code = StatusOK ↔ text = "HEALTHY").
Proof.
  split; [reflexivity | ]. split; [discriminate | ].
  destruct (header_mode_answer Examples.plain Examples.blockKnown Examples.notEnoughPeers
              Examples.rejectAll WithoutTimeCheck 0
              (Examples.healthRequest ["synced"]) Examples.node3 eq_refl)
    as (code & text & Heq & _ & _ & Hiff & _); [discriminate | ].
  exists code, text. split; [exact Heq | exact Hiff].
Defined.

Lemma first_failure_ends_the_loop_witness :
  HeaderValues (Examples.healthRequest ["min_peer_count5"; "synced"])
    = ["min_peer_count5"] ++ ["synced"] ∧
  (processHeaders Examples.plain Examples.blockKnown Examples.notEnoughPeers WithoutTimeCheck 0
     Examples.node3 ["min_peer_count5"]).1 ≠ None ∧
  ProcessHealthcheck2 Examples.plain Examples.blockKnown Examples.notEnoughPeers WithoutTimeCheck 0
    (Examples.healthRequest ["min_peer_count5"; "synced"]) Examples.node3
  = processHeaders Examples.plain Examples.blockKnown Examples.notEnoughPeers WithoutTimeCheck 0
      Examples.node3 ["min_peer_count5"].
Proof.
  split; [reflexivity | ]. split; [discriminate | ].
  apply (proj1 (first_failure_ends_the_loop Examples.plain Examples.blockKnown
                  Examples.notEnoughPeers WithoutTimeCheck 0
                  (Examples.healthRequest ["min_peer_count5"; "synced"])
                  Examples.node3 ["min_peer_count5"] ["synced"] eq_refl)).
  discriminate.
Defined.


Lemma min_peer_count_wraps_witness :
  EqualFold (URLPath (Examples.healthRequest ["min_peer_count-1"])) urlPath = true ∧
  HeaderValues (Examples.healthRequest ["min_peer_count-1"]) = ["min_peer_count-1"] ∧
  ToLower Examples.plain "min_peer_count-1" = "min_peer_count" +:+ "-1" ∧
  Atoi "-1" = inr (-1) ∧
  PeerCount (netAPI Examples.node3) = inr 3 ∧
  3 < 2 ^ 63 ∧
  -1 < 0 ∧
  ProcessHealthcheckIfNeeded Examples.plain Examples.blockKnown Examples.notEnoughPeers
    Examples.rejectAll WithoutTimeCheck 0 newResponseWriter
    (Examples.healthRequest ["min_peer_count-1"]) Examples.node3 =
    ((true, {| status := Some StatusInternalServerError;
               written := [Bytes ("ERROR: " +:+
                                  Examples.notEnoughPeers 3 (2 ^ 64 + -1))] |}),
     [CallCheckMinPeers (2 ^ 64 + -1)]).
Proof.
  split; [reflexivity | ]. split; [reflexivity | ]. split; [reflexivity | ].
  split; [reflexivity | ]. split; [reflexivity | ]. split; [lia | ].
  split; [lia | ].
  apply (proj2 (min_peer_count_wraps Examples.plain Examples.blockKnown Examples.notEnoughPeers
                  Examples.rejectAll WithoutTimeCheck 0
                  (Examples.healthRequest ["min_peer_count-1"]) Examples.node3
                  "min_peer_count-1" "-1" (-1) 3
                  eq_refl eq_refl eq_refl eq_refl eq_refl ltac:(lia))).
  lia.
Defined.


Lemma synced_header_witness :
  EqualFold (URLPath (Examples.healthRequest ["SYNCED"])) urlPath = true ∧
  HeaderValues (Examples.healthRequest ["SYNCED"]) = ["SYNCED"] ∧
  ToLower Examples.plain "SYNCED" = "synced" ∧
  ∃ (code : Z) (text : string),
    ProcessHealthcheckIfNeeded Examples.plain Examples.blockKnown Examples.notEnoughPeers
      Examples.rejectAll WithoutTimeCheck 0 newResponseWriter
      (Examples.healthRequest ["SYNCED"]) Examples.node3 =
      ((true, {| status := Some code; written := [Bytes text] |}), [CallSyncing]) ∧
    (code = StatusOK ↔
     Syncing (ethAPI Examples.node3) = inr anyNil ∨
     Syncing (ethAPI Examples.node3) = inr (anyBool false)).
Proof.
  split; [reflexivity | ]. split; [reflexivity | ]. split; [reflexivity | ].
  destruct (synced_header Examples.plain Examples.blockKnown Examples.notEnoughPeers
              Examples.rejectAll WithoutTimeCheck 0
              (Examples.healthRequest ["SYNCED"]) Examples.node3 "SYNCED"
              eq_refl eq_refl eq_refl)
    as (code & text & Heq & Hiff & _).
  exists code, text. split; [exact Heq | exact Hiff].
Defined.

Lemma missing_timestamp_counts_as_zero_witness :
  EqualFold (URLPath (Examples.healthRequest ["max_seconds_behind60"])) urlPath = true ∧
  HeaderValues (Examples.healthRequest ["max_seconds_behind60"])
    = ["max_seconds_behind60"] ∧
  ToLower Examples.plain "max_seconds_behind60" = "max_seconds_behind" +:+ "60" ∧
  Atoi "60" = inr 60 ∧
  0 ≤ 2000 < 2 ^ 63 ∧
  GetBlockByNumber (ethAPI (Examples.nodeAnswering (inr ∅))) = inr ∅ ∧
  (∀ cs, (∅ : gmap string any) !! "timestamp" ≠ Some (anyUint64 cs)) ∧
  60 ≤ 2000 ∧
  ProcessHealthcheckIfNeeded Examples.plain Examples.blockKnown Examples.notEnoughPeers
    Examples.rejectAll WithTimeCheck 2000 newResponseWriter
    (Examples.healthRequest ["max_seconds_behind60"])
    (Examples.nodeAnswering (inr ∅)) =
    ((true, {| status := Some StatusOK; written := [Bytes "HEALTHY"] |}),
     [CallGetBlockByNumber]).
Proof.
  split; [reflexivity | ]. split; [reflexivity | ]. split; [reflexivity | ].
  split; [reflexivity | ]. split; [lia | ]. split; [reflexivity | ].
  split; [intros cs H; rewrite lookup_empty in H; discriminate H | ]. split; [lia | ].
  apply (proj1 (missing_timestamp_counts_as_zero Examples.plain Examples.blockKnown
                  Examples.notEnoughPeers Examples.rejectAll 2000
                  (Examples.healthRequest ["max_seconds_behind60"])
                  (Examples.nodeAnswering (inr ∅))
                  "max_seconds_behind60" "60" 60 ∅
                  eq_refl eq_refl eq_refl eq_refl ltac:(lia) eq_refl
                  ltac:(intros cs H; rewrite lookup_empty in H; discriminate H))).
  vm_compute. discriminate.
Defined.

Lemma huge_timestamp_wraps_witness :
  EqualFold (URLPath (Examples.healthRequest ["max_seconds_behind60"])) urlPath = true ∧
  HeaderValues (Examples.healthRequest ["max_seconds_behind60"])
    = ["max_seconds_behind60"] ∧
  ToLower Examples.plain "max_seconds_behind60" = "max_seconds_behind" +:+ "60" ∧
  Atoi "60" = inr 60 ∧
  0 ≤ 2000 < 2 ^ 63 ∧
  GetBlockByNumber
    (ethAPI (Examples.nodeAnswering (inr (<["timestamp" := anyUint64 (2 ^ 63)]> ∅))))
    = inr (<["timestamp" := anyUint64 (2 ^ 63)]> ∅) ∧
  (<["timestamp" := anyUint64 (2 ^ 63)]> (∅ : gmap string any)) !! "timestamp"
    = Some (anyUint64 (2 ^ 63)) ∧
  2 ^ 63 ≤ 2 ^ 63 < 2 ^ 64 ∧
  60 ≤ 2000 ∧
  ProcessHealthcheckIfNeeded Examples.plain Examples.blockKnown Examples.notEnoughPeers
    Examples.rejectAll WithTimeCheck 2000 newResponseWriter
    (Examples.healthRequest ["max_seconds_behind60"])
    (Examples.nodeAnswering (inr (<["timestamp" := anyUint64 (2 ^ 63)]> ∅))) =
    ((true, {| status := Some StatusOK; written := [Bytes "HEALTHY"] |}),
     [CallGetBlockByNumber]).
Proof.
  assert ((<["timestamp" := anyUint64 (2 ^ 63)]> (∅ : gmap string any)) !! "timestamp"
          = Some (anyUint64 (2 ^ 63))) as Hlook by apply lookup_insert_eq.
  split; [reflexivity | ]. split; [reflexivity | ]. split; [reflexivity | ].
  split; [reflexivity | ]. split; [lia | ]. split; [reflexivity | ].
  split; [exact Hlook | ]. split; [lia | ]. split; [lia | ].
  apply (proj2 (huge_timestamp_wraps Examples.plain Examples.blockKnown
                  Examples.notEnoughPeers Examples.rejectAll 2000
                  (Examples.healthRequest ["max_seconds_behind60"])
                  (Examples.nodeAnswering
                     (inr (<["timestamp" := anyUint64 (2 ^ 63)]> ∅)))
                  "max_seconds_behind60" "60" 60
                  (<["timestamp" := anyUint64 (2 ^ 63)]> ∅) (2 ^ 63)
                  eq_refl eq_refl eq_refl eq_refl ltac:(lia) eq_refl Hlook
                  ltac:(lia))).
  vm_compute. discriminate.
Defined.

Lemma block_fetch_error_fails_time_check_witness :
  EqualFold (URLPath (Examples.healthRequest ["max_seconds_behind60"])) urlPath = true ∧
  HeaderValues (Examples.healthRequest ["max_seconds_behind60"])
    = ["max_seconds_behind60"] ∧
  ToLower Examples.plain "max_seconds_behind60" = "max_seconds_behind" +:+ "60" ∧
  Atoi "60" = inr 60 ∧
  0 ≤ 2000 < 2 ^ 63 ∧
  GetBlockByNumber (ethAPI (Examples.nodeAnswering (inl "header not found")))
    = inl "header not found" ∧
  ProcessHealthcheckIfNeeded Examples.plain Examples.blockKnown Examples.notEnoughPeers
    Examples.rejectAll WithTimeCheck 2000 newResponseWriter
    (Examples.healthRequest ["max_seconds_behind60"])
    (Examples.nodeAnswering (inl "header not found")) =
    ((true, {| status := Some StatusInternalServerError;
               written := [Bytes ("ERROR: " +:+ "header not found")] |}),
     [CallGetBlockByNumber]).
Proof.
  split; [reflexivity | ]. split; [reflexivity | ]. split; [reflexivity | ].
  split; [reflexivity | ]. split; [lia | ]. split; [reflexivity | ].
  apply (block_fetch_error_fails_time_check Examples.plain Examples.blockKnown
           Examples.notEnoughPeers Examples.rejectAll 2000
           (Examples.healthRequest ["max_seconds_behind60"])
           (Examples.nodeAnswering (inl "header not found"))
           "max_seconds_behind60" "60" 60 "header not found");
    [reflexivity | reflexivity | reflexivity | reflexivity | lia | reflexivity].
Defined.

Lemma decoded_body_report_witness :
  EqualFold (URLPath (Examples.healthRequest [])) urlPath = true ∧
  HeaderGet (Examples.healthRequest []) = EmptyString ∧
  Body (Examples.healthRequest []) = inr EmptyString ∧
  Examples.wantFivePeers EmptyString
    = inr {| MinPeerCount := Some 5; BlockNumber := None |} ∧
  ∃ (m : gmap string string) (code : Z),
    ProcessHealthcheckIfNeeded Examples.plain Examples.blockKnown Examples.notEnoughPeers
      Examples.wantFivePeers WithoutTimeCheck 0 newResponseWriter
      (Examples.healthRequest []) Examples.node3 =
      ((true, {| status := Some code; written := [JSONObject m] |}),
       [CallCheckMinPeers 5]) ∧
    m !! "healthcheck_query" = Some "HEALTHY" ∧
    m !! "check_block" = Some "DISABLED".
Proof.
  split; [reflexivity | ]. split; [reflexivity | ]. split; [reflexivity | ].
  split; [reflexivity | ].
  destruct (decoded_body_report Examples.plain Examples.blockKnown Examples.notEnoughPeers
              Examples.wantFivePeers WithoutTimeCheck 0
              (Examples.healthRequest []) Examples.node3 EmptyString
              {| MinPeerCount := Some 5; BlockNumber := None |}
              eq_refl eq_refl eq_refl eq_refl)
    as (m & code & Heq & Hq & _ & Hb & _).
  exists m, code. split; [exact Heq | ]. split; [exact Hq | exact Hb].
Defined.

Lemma unreadable_body_report_witness :
  EqualFold (URLPath Examples.brokenBodyRequest) urlPath = true ∧
  HeaderGet Examples.brokenBodyRequest = EmptyString ∧
  Body Examples.brokenBodyRequest = inl "unexpected EOF" ∧
  ∃ m : gmap string string,
    ProcessHealthcheckIfNeeded Examples.plain Examples.blockKnown Examples.notEnoughPeers
      Examples.wantFivePeers WithoutTimeCheck 0 newResponseWriter
      Examples.brokenBodyRequest Examples.node3 =
      ((true, {| status := Some StatusInternalServerError;
                 written := [JSONObject m] |}), []) ∧
    m !! "healthcheck_query" = Some ("ERROR: " +:+ "unexpected EOF") ∧
    m !! "min_peer_count" = Some "DISABLED" ∧
    m !! "check_block" = Some "DISABLED".
Proof.
  split; [reflexivity | ]. split; [reflexivity | ]. split; [reflexivity | ].
  exact (unreadable_body_report Examples.plain Examples.blockKnown Examples.notEnoughPeers
           Examples.wantFivePeers WithoutTimeCheck 0 Examples.brokenBodyRequest
           Examples.node3 "unexpected EOF" eq_refl eq_refl eq_refl).
Defined.

(** A header value that is no ASCII text is lower-cased through the
    case tables: [mİn_peer_count5], written with U+0130, is the peer
    check, not an unknown header. *)
Example lower_casing_beyond_ascii :
  isASCII "mİn_peer_count5" = false ∧
  unrecognised Examples.dottedCapitalI WithoutTimeCheck "mİn_peer_count5" = false ∧
  ProcessHealthcheckIfNeeded Examples.dottedCapitalI Examples.blockKnown
    Examples.notEnoughPeers Examples.rejectAll WithoutTimeCheck 0 newResponseWriter
    (Examples.healthRequest ["mİn_peer_count5"]) Examples.node3 =
    ((true, {| status := Some StatusInternalServerError;
               written := [Bytes ("ERROR: " +:+ Examples.notEnoughPeers 3 5)] |}),
     [CallCheckMinPeers 5]).
Proof. split; [reflexivity | ]. split; reflexivity. Qed.

End HealthMore.

(** ** More on the Sentinel *)

Module SentinelMore.
Import Go Sentinel.

(** *** Startup *)

Section Startup.

Variable ParseIP : string → IP.
Variable sys : System.

Lemma createListener_ipv4 (s : Sentinel) (b : ascii) (ip4 : list ascii) :
  To4 (ParseIP (IpAddr (cfg s))) = b :: ip4 →
  createListener ParseIP sys s =
    match ListenUDP sys "udp4" IPv4zero (Port (cfg s)) with
    | Some err => (inl err, s, take 1 (startupSteps (Port (cfg s))))
    | None =>
        match OpenDB sys with
        | Some err =>
            (inl ("could not open node's peer database: " +:+ err), s,
             take 2 (startupSteps (Port (cfg s))))
        | None =>
            (match ListenV5 sys with
             | Some err => inl err
             | None => inr {| network := "udp4"; bindIP := IPv4zero;
                              bindPort := Port (cfg s) |}
             end,
             withMetadata (localNodeSeq sys) s, startupSteps (Port (cfg s)))
        end
    end.
Proof.
  intros H4. unfold createListener. rewrite H4.
  cbn [isNil negb andb]. rewrite andb_false_r.
  destruct (ListenUDP sys "udp4" IPv4zero (Port (cfg s))); [reflexivity | ].
  unfold createLocalNode. destruct (OpenDB sys); [reflexivity | ].
  destruct (ListenV5 sys); reflexivity.
Qed.

(** X14.  [createListener] returns a listener exactly when the
    configured address has an IPv4 form and the bind, the opening of the
    node database and the start of discovery all succeed.  The listener
    is then on [udp4], bound to [0.0.0.0] (not to the configured
    address) at the configured port, and the metadata of the Sentinel
    carries the sequence number of the local node with no attestation
    and sync subnets. *)
Theorem listener_created_iff (s : Sentinel) :
  ((∃ l, (createListener ParseIP sys s).1.1 = inr l) ↔
   listenerConditions ParseIP sys s) ∧
  (listenerConditions ParseIP sys s →
   createListener ParseIP sys s =
     (inr {| network := "udp4"; bindIP := IPv4zero; bindPort := Port (cfg s) |},
      withMetadata (localNodeSeq sys) s, startupSteps (Port (cfg s)))).
Proof.
  unfold listenerConditions.
  destruct (To4 (ParseIP (IpAddr (cfg s)))) as [ | b ip4] eqn:H4.
  - rewrite (SentinelProps.To4_nil_rejected ParseIP sys s H4). cbn [fst].
    split; [split | ].
    + intros [l H]. discriminate H.
    + intros [H _]. done.
    + intros [H _]. done.
  - rewrite (createListener_ipv4 s b ip4 H4).
    destruct (ListenUDP sys "udp4" IPv4zero (Port (cfg s))) as [e1 | ];
      [ | destruct (OpenDB sys) as [e2 | ];
          [ | destruct (ListenV5 sys) as [e3 | ]]]; cbn [fst];
      (split; [split | ]);
      try (intros [l H]; discriminate H);
      try (intros (_ & H1 & H2 & H3); discriminate);
      try reflexivity.
    + intros _. repeat split; done.
    + intros _. eexists. reflexivity.
Qed.

(** X15.  What [createListener] does is always a first part of the
    same four steps in the same order: bind, open the database, start
    the stream handlers, start discovery.  A call that stops before the
    third step leaves the Sentinel as it was and returns an error; the
    handlers are started and the metadata set only after bind and
    database succeeded, and they stay so when the start of discovery
    then fails and the call returns its error. *)
Theorem listener_steps (s : Sentinel) :
  ∃ k : nat,
    (createListener ParseIP sys s).2 = take k (startupSteps (Port (cfg s))) ∧
    (k = 0 ∨ k = 1 ∨ k = 2 ∨ k = 4)%nat ∧
    ((k < 4)%nat →
     (createListener ParseIP sys s).1.2 = s ∧
     ∃ err, (createListener ParseIP sys s).1.1 = inl err) ∧
    (k = 4%nat →
     (createListener ParseIP sys s).1.2 = withMetadata (localNodeSeq sys) s ∧
     ∀ err, ListenV5 sys = Some err →
            (createListener ParseIP sys s).1.1 = inl err).
Proof.
  destruct (To4 (ParseIP (IpAddr (cfg s)))) as [ | b ip4] eqn:H4.
  - rewrite (SentinelProps.To4_nil_rejected ParseIP sys s H4). exists 0%nat.
    cbn [fst snd]. split; [reflexivity | ]. split; [by left | ].
    split; [intros _; split; [reflexivity | by eexists] | intros H; discriminate H].
  - rewrite (createListener_ipv4 s b ip4 H4).
    destruct (ListenUDP sys "udp4" IPv4zero (Port (cfg s))) as [e1 | ];
      [ | destruct (OpenDB sys) as [e2 | ]].
    + exists 1%nat. cbn [fst snd]. split; [reflexivity | ].
      split; [by right; left | ].
      split; [intros _; split; [reflexivity | by eexists]
             | intros H; discriminate H].
    + exists 2%nat. cbn [fst snd]. split; [reflexivity | ].
      split; [by right; right; left | ].
      split; [intros _; split; [reflexivity | by eexists]
             | intros H; discriminate H].
    + exists 4%nat. cbn [fst snd]. split; [reflexivity | ].
      split; [by right; right; right | ].
      split; [intros H; lia | intros _].
      split; [reflexivity | ]. intros err ->. reflexivity.
Qed.

Lemma Start_unfold (s : Sentinel) :
  Start ParseIP sys s =
    let ev0 := if started s then [EvLogWarn "Sentinel already running"] else [] in
    match (createListener ParseIP sys s).1.1 with
    | inl err =>
        (Some ("failed creating sentinel listener err=" +:+ err),
         setListener None (createListener ParseIP sys s).1.2,
         ev0 ++ (createListener ParseIP sys s).2)
    | inr l =>
        match connectToBootnodes sys with
        | Some err =>
            (Some ("failed to connect to bootnodes err=" +:+ err),
             setListener (Some l) (createListener ParseIP sys s).1.2,
             ev0 ++ (createListener ParseIP sys s).2 ++ [EvConnectToBootnodes])
        | None =>
            (None,
             setSubManager {| subscriptions := ∅ |}
               (setListener (Some l) (createListener ParseIP sys s).1.2),
             ev0 ++ (createListener ParseIP sys s).2
               ++ [EvConnectToBootnodes; EvGoListenForPeers; EvNewGossipManager])
        end
    end.
Proof.
  unfold Start. destruct (createListener ParseIP sys s) as [[[err | l] s'] t];
    cbn [fst snd]; [reflexivity | ].
  destruct (connectToBootnodes sys); reflexivity.
Qed.

Lemma createListener_result (s : Sentinel) :
  (∃ err, (createListener ParseIP sys s).1.1 = inl err ∧
          ¬ listenerConditions ParseIP sys s) ∨
  (listenerConditions ParseIP sys s ∧
   createListener ParseIP sys s =
     (inr {| network := "udp4"; bindIP := IPv4zero; bindPort := Port (cfg s) |},
      withMetadata (localNodeSeq sys) s, startupSteps (Port (cfg s)))).
Proof.
  unfold listenerConditions.
  destruct (To4 (ParseIP (IpAddr (cfg s)))) as [ | b ip4] eqn:H4.
  - left. rewrite (SentinelProps.To4_nil_rejected ParseIP sys s H4).
    eexists. split; [reflexivity | ]. intros [H _]. done.
  - rewrite (createListener_ipv4 s b ip4 H4).
    destruct (ListenUDP sys "udp4" IPv4zero (Port (cfg s))) as [e1 | ];
      [ | destruct (OpenDB sys) as [e2 | ];
          [ | destruct (ListenV5 sys) as [e3 | ]]];
      try (left; eexists; split; [reflexivity | ];
           intros (_ & H1 & H2 & H3); discriminate).
    right. split; [repeat split; done | reflexivity].
Qed.

Lemma listener_steps_state (s : Sentinel) :
  (createListener ParseIP sys s).1.2 = s ∨
  (createListener ParseIP sys s).1.2 = withMetadata (localNodeSeq sys) s.
Proof.
  destruct (To4 (ParseIP (IpAddr (cfg s)))) as [ | b ip4] eqn:H4.
  - left. rewrite (SentinelProps.To4_nil_rejected ParseIP sys s H4). reflexivity.
  - rewrite (createListener_ipv4 s b ip4 H4).
    destruct (ListenUDP sys "udp4" IPv4zero (Port (cfg s))); [by left | ].
    destruct (OpenDB sys); [by left | by right].
Qed.

(** X16.  [Start] returns no error exactly when [createListener]
    succeeds (see its conditions) and the boot nodes are connected to.
    The Sentinel then has its listener, the metadata, and a gossip
    manager without subscriptions; the search for peers is launched
    after the connection to the boot nodes and before the gossip manager
    is made. *)
Theorem started_iff (s : Sentinel) :
  ((Start ParseIP sys s).1.1 = None ↔
   listenerConditions ParseIP sys s ∧ connectToBootnodes sys = None) ∧
  (listenerConditions ParseIP sys s → connectToBootnodes sys = None →
   Start ParseIP sys s =
     (None,
      {| started := started s;
         listener := Some {| network := "udp4"; bindIP := IPv4zero;
                             bindPort := Port (cfg s) |};
         cfg := cfg s;
         hostPeers := hostPeers s;
         metadataV1 := Some {| SeqNumber := localNodeSeq sys; Attnets := 0;
                               Syncnets := 0 |};
         subManager := Some {| subscriptions := ∅ |} |},
      (if started s then [EvLogWarn "Sentinel already running"] else [])
      ++ startupSteps (Port (cfg s))
      ++ [EvConnectToBootnodes; EvGoListenForPeers; EvNewGossipManager])).
Proof.
  rewrite Start_unfold.
  destruct (createListener_result s) as [(err & Herr & Hnot) | [Hcond Heq]].
  - rewrite Herr. cbn [fst]. split; [split | ].
    + intros H. discriminate H.
    + intros [H _]. done.
    + intros H. done.
  - rewrite Heq. cbn [fst snd].
    destruct (connectToBootnodes sys) as [e | ]; cbn [fst]; split;
      try (split; [intros H; discriminate H | intros [_ H]; discriminate H]);
      try (intros _ H; discriminate H).
    + split; [done | intros _; done].
    + intros _ _. reflexivity.
Qed.

(** X17.  [Start] reads the flag [started] and never sets it: the
    Sentinel has after [Start] the flag it had before, also after a
    successful one.  On a Sentinel whose flag is set [Start] is not
    refused: it logs one warning and then does, returns and leaves
    behind what it does on one whose flag is not set. *)
Theorem started_flag_only_read (s : Sentinel) :
  started (Start ParseIP sys s).1.2 = started s ∧
  Start ParseIP sys (withStarted true s) =
    ((Start ParseIP sys (withStarted false s)).1.1,
     withStarted true (Start ParseIP sys (withStarted false s)).1.2,
     EvLogWarn "Sentinel already running"
       :: (Start ParseIP sys (withStarted false s)).2).
Proof.
  split.
  - rewrite Start_unfold.
    destruct (createListener_result s) as [(err & Herr & Hnot) | [Hcond Heq]].
    + rewrite Herr.
      destruct (listener_steps_state s) as [Hs | Hs]; rewrite Hs;
        reflexivity.
    + rewrite Heq. cbn [fst snd].
      destruct (connectToBootnodes sys); reflexivity.
  - rewrite !Start_unfold.
    assert (∀ b, createListener ParseIP sys (withStarted b s) =
                 ((createListener ParseIP sys s).1.1,
                  withStarted b (createListener ParseIP sys s).1.2,
                  (createListener ParseIP sys s).2)) as Hb.
    { intros b.
      destruct (To4 (ParseIP (IpAddr (cfg s)))) as [ | b0 ip4] eqn:H4.
      - rewrite (SentinelProps.To4_nil_rejected ParseIP sys (withStarted b s) H4),
          (SentinelProps.To4_nil_rejected ParseIP sys s H4). reflexivity.
      - rewrite (createListener_ipv4 (withStarted b s) b0 ip4 H4),
          (createListener_ipv4 s b0 ip4 H4). cbn [cfg withStarted].
        destruct (ListenUDP sys "udp4" IPv4zero (Port (cfg s))); [reflexivity | ].
        destruct (OpenDB sys); [reflexivity | ].
        destruct (ListenV5 sys); reflexivity. }
    rewrite !Hb. cbn [fst snd started withStarted].
    destruct ((createListener ParseIP sys s).1.1) as [err | l]; [reflexivity | ].
    destruct (connectToBootnodes sys); reflexivity.
Qed.

Lemma createListener_failure (s : Sentinel) (err : string) :
  (createListener ParseIP sys s).1.1 = inl err →
  ∀ ev, ev ∈ (createListener ParseIP sys s).2 → ev ∈ startupSteps (Port (cfg s)).
Proof.
  intros _ ev.
  destruct (To4 (ParseIP (IpAddr (cfg s)))) as [ | b ip4] eqn:H4.
  - rewrite (SentinelProps.To4_nil_rejected ParseIP sys s H4). cbn [snd].
    intros H. by apply elem_of_nil in H.
  - rewrite (createListener_ipv4 s b ip4 H4).
    destruct (ListenUDP sys "udp4" IPv4zero (Port (cfg s)));
      [ | destruct (OpenDB sys)]; cbn [snd]; try done; apply subseteq_take.
Qed.

(** X18.  When [Start] returns an error the search for peers is not
    launched and no gossip manager is made or replaced.  After an error
    of [createListener] the Sentinel has no listener; after a failed
    connection to the boot nodes it keeps the listener that was bound
    and the metadata, the error notwithstanding. *)
Theorem failed_start (s : Sentinel) (err : string) :
  (Start ParseIP sys s).1.1 = Some err →
  (EvGoListenForPeers ∉ (Start ParseIP sys s).2) ∧
  (EvNewGossipManager ∉ (Start ParseIP sys s).2) ∧
  subManager (Start ParseIP sys s).1.2 = subManager s ∧
  (¬ listenerConditions ParseIP sys s →
   listener (Start ParseIP sys s).1.2 = None ∧
   (EvConnectToBootnodes ∉ (Start ParseIP sys s).2) ∧
   ∃ e, err = "failed creating sentinel listener err=" +:+ e) ∧
  (listenerConditions ParseIP sys s →
   listener (Start ParseIP sys s).1.2
     = Some {| network := "udp4"; bindIP := IPv4zero; bindPort := Port (cfg s) |} ∧
   metadataV1 (Start ParseIP sys s).1.2
     = Some {| SeqNumber := localNodeSeq sys; Attnets := 0; Syncnets := 0 |} ∧
   ∃ e, connectToBootnodes sys = Some e ∧
        err = "failed to connect to bootnodes err=" +:+ e).
Proof.
  rewrite Start_unfold.
  destruct (createListener_result s) as [(e & Herr & Hnot) | [Hcond Heq]].
  - pose proof (createListener_failure s e Herr) as Hsteps.
    rewrite Herr. cbn [fst snd]. intros [= <-].
    assert (∀ ev, ev ∉ startupSteps (Port (cfg s)) →
                  ev ≠ EvLogWarn "Sentinel already running" →
                  ev ∉ (if started s then [EvLogWarn "Sentinel already running"]
                        else []) ++ (createListener ParseIP sys s).2) as Hout.
    { intros ev Hev Hwarn Hin. apply elem_of_app in Hin as [Hin | Hin].
      - destruct (started s); [ | by apply elem_of_nil in Hin].
        apply list_elem_of_singleton in Hin. done.
      - exact (Hev (Hsteps ev Hin)). }
    assert (∀ ev, (∀ n ip port, ev ≠ EvListenUDP n ip port) → ev ≠ EvOpenDB →
                  ev ≠ EvStartHandlers → ev ≠ EvListenV5 →
                  ev ∉ startupSteps (Port (cfg s))) as Hnone.
    { intros ev H1 H2 H3 H4 Hin. unfold startupSteps in Hin.
      repeat (apply elem_of_cons in Hin as [Hin | Hin];
              [subst ev; first [done | exact (H1 _ _ _ eq_refl)] | ]).
      by apply elem_of_nil in Hin. }
    split; [apply Hout; [apply Hnone | ]; done | ].
    split; [apply Hout; [apply Hnone | ]; done | ].
    split; [destruct (listener_steps_state s) as [-> | ->]; reflexivity | ].
    split; [ | intros H; done].
    intros _. split; [reflexivity | ].
    split; [apply Hout; [apply Hnone | ]; done | by eexists].
  - rewrite Heq. cbn [fst snd].
    destruct (connectToBootnodes sys) as [e | ]; cbn [fst snd];
      [ | intros H; discriminate H].
    intros [= <-].
    assert (∀ ev, ev ≠ EvLogWarn "Sentinel already running" →
                  (∀ n ip port, ev ≠ EvListenUDP n ip port) → ev ≠ EvOpenDB →
                  ev ≠ EvStartHandlers → ev ≠ EvListenV5 →
                  ev ≠ EvConnectToBootnodes →
                  ev ∉ (if started s then [EvLogWarn "Sentinel already running"]
                        else []) ++ startupSteps (Port (cfg s))
                       ++ [EvConnectToBootnodes]) as Hout.
    { intros ev H0 H1 H2 H3 H4 H5 Hin. apply elem_of_app in Hin as [Hin | Hin].
      - destruct (started s); [ | by apply elem_of_nil in Hin].
        apply list_elem_of_singleton in Hin. done.
      - unfold startupSteps in Hin. cbn [app] in Hin.
        repeat (apply elem_of_cons in Hin as [Hin | Hin];
                [subst ev; first [done | exact (H1 _ _ _ eq_refl)] | ]).
        by apply elem_of_nil in Hin. }
    split; [apply Hout; done | ]. split; [apply Hout; done | ].
    split; [reflexivity | ]. split; [intros H; done | ].
    intros _. split; [reflexivity | ]. split; [reflexivity | by eexists].
Qed.

End Startup.

(** *** Construction *)

Section Construction.

Variable libs : Libraries.

Lemma parseBootNodes_ok (bootNodes : list string) :
  Forall (λ b, ∃ n, Parse libs b = inr n) bootNodes →
  ∃ enodes,
    parseBootNodes libs bootNodes = (inr enodes, map BuiltParse bootNodes) ∧
    Forall2 (λ b n, Parse libs b = inr n) bootNodes enodes.
Proof.
  induction 1 as [ | b rest [n Hn] _ (enodes & IH & Hall)].
  - exists []. split; [reflexivity | constructor].
  - exists (n :: enodes). cbn [parseBootNodes map]. rewrite Hn, IH.
    split; [reflexivity | by constructor].
Qed.

Lemma parseBootNodes_inr (bootNodes : list string) :
  ∀ enodes, (parseBootNodes libs bootNodes).1 = inr enodes →
    Forall2 (λ b n, Parse libs b = inr n) bootNodes enodes ∧
    (parseBootNodes libs bootNodes).2 = map BuiltParse bootNodes.
Proof.
  induction bootNodes as [ | b rest IH]; intros enodes H; cbn in *.
  - injection H as <-. split; [constructor | reflexivity].
  - destruct (Parse libs b) as [err | n] eqn:Hb; [discriminate H | ].
    destruct (parseBootNodes libs rest) as [[err | ns] t]; cbn in *;
      [discriminate H | ].
    injection H as <-. destruct (IH ns eq_refl) as [Hall Ht].
    split; [by constructor | by rewrite Ht].
Qed.

Lemma parseBootNodes_stops (pre post : list string) (b err : string) :
  Forall (λ x, ∃ n, Parse libs x = inr n) pre →
  Parse libs b = inl err →
  parseBootNodes libs (pre ++ b :: post) = (inl err, map BuiltParse (pre ++ [b])).
Proof.
  intros Hpre Hb. induction Hpre as [ | x pre [n Hx] _ IH]; cbn [app parseBootNodes map].
  - rewrite Hb. reflexivity.
  - rewrite Hx, IH. reflexivity.
Qed.

(** X19.  [New] gives up at the first boot node whose text does not
    parse: it returns the error of that parse, the boot nodes after it
    are not parsed, and neither a key nor a host nor the gossip service
    is made. *)
Theorem first_bad_boot_node_aborts (cfg : SentinelConfig) (pre post : list string)
    (b err : string) :
  Forall (λ x, ∃ n, Parse libs x = inr n) pre →
  Parse libs b = inl err →
  New libs cfg (pre ++ b :: post) = (inl err, map BuiltParse (pre ++ [b])).
Proof.
  intros Hpre Hb. unfold New. rewrite (parseBootNodes_stops pre post b err Hpre Hb).
  reflexivity.
Qed.

(** X20.  A Sentinel that [New] returns is not started and has neither
    listener nor metadata nor gossip manager; its boot nodes are the
    parsed texts of the configured ones, one for one and in their
    order; and every step of the construction was taken, in the order
    of the source. *)
Theorem new_sentinel (cfg : SentinelConfig) (bootNodes enodes : list string)
    (s : Sentinel) :
  (New libs cfg bootNodes).1 = inr (s, enodes) →
  ∃ peers,
    libp2pNew libs = inr peers ∧
    s = {| started := false; listener := None; cfg := cfg; hostPeers := peers;
           metadataV1 := None; subManager := None |} ∧
    Forall2 (λ b n, Parse libs b = inr n) bootNodes enodes ∧
    (New libs cfg bootNodes).2 =
      map BuiltParse bootNodes
      ++ [BuiltGenerateKey; BuiltOptions; BuiltHost; BuiltRemoveStreamHandler;
          BuiltGossipSub].
Proof.
  unfold New. intros H.
  destruct (parseBootNodes libs bootNodes) as [[err | ns] t] eqn:Hparse;
    [discriminate H | ].
  destruct (parseBootNodes_inr bootNodes ns) as [Hall Ht];
    [by rewrite Hparse | ].
  rewrite Hparse in Ht. cbn [snd] in Ht. subst t.
  destruct (GenerateKey libs); [discriminate H | ].
  destruct (buildOptions libs); [discriminate H | ].
  destruct (libp2pNew libs) as [err | peers]; [discriminate H | ].
  destruct (NewGossipSub libs); [discriminate H | ].
  cbn [fst snd] in *. injection H as <- <-.
  exists peers. split; [reflexivity | ]. split; [reflexivity | ].
  split; [exact Hall | ]. rewrite <- !app_assoc. reflexivity.
Qed.

End Construction.

(** *** Peer count *)

Section PeerCount.

Variable LightClientFinalityUpdateTopic : string.

Lemma lastFinalitySub_app (a b : list (string * GossipSubscription)) :
  ∀ acc,
    lastFinalitySub LightClientFinalityUpdateTopic (a ++ b) acc =
    lastFinalitySub LightClientFinalityUpdateTopic b
      (lastFinalitySub LightClientFinalityUpdateTopic a acc).
Proof.
  induction a as [ | [name sub] a IH]; intros acc; cbn [app lastFinalitySub];
    [reflexivity | apply IH].
Qed.

(** X21.  Every subscription whose topic contains the name of the
    finality-update topic can be the one [GetPeersCount] counts: with
    two such subscriptions the result depends on the order in which the
    map is ranged over.  With a single one the result is the number of
    its peers, in every order. *)
Theorem any_finality_subscription_may_be_counted (s : Sentinel) (g : GossipManager)
    (name : string) (sub : GossipSubscription) :
  subManager s = Some g →
  subscriptions g !! name = Some sub →
  Contains name LightClientFinalityUpdateTopic = true →
  GetPeersCount LightClientFinalityUpdateTopic s (length (ListPeers (topic sub))) ∧
  ((∀ name' sub', subscriptions g !! name' = Some sub' →
      Contains name' LightClientFinalityUpdateTopic = true → name' = name) →
   ∀ n, GetPeersCount LightClientFinalityUpdateTopic s n →
        n = length (ListPeers (topic sub))).
Proof.
  intros Hg Hsub Hc. split.
  - apply elem_of_map_to_list in Hsub.
    apply list_elem_of_split in Hsub as (l1 & l2 & Hsplit).
    exists g, (l1 ++ l2 ++ [(name, sub)]).
    split; [exact Hg | ]. split.
    + rewrite Hsplit. apply Permutation_app_head.
      symmetry. apply Permutation_cons_append.
    + unfold GetPeersCountIn. rewrite Hg.
      rewrite app_assoc, lastFinalitySub_app. cbn [lastFinalitySub].
      rewrite Hc. reflexivity.
  - intros Huniq n (g' & entries & Hg' & Hperm & Hn).
    rewrite Hg in Hg'. injection Hg' as <-.
    unfold GetPeersCountIn in Hn. rewrite Hg in Hn.
    destruct (SentinelProps.lastFinalitySub_spec LightClientFinalityUpdateTopic
                entries None)
      as [[Heq Hall] | (name' & sub' & Hin & Hc' & Heq)].
    + exfalso. apply elem_of_map_to_list in Hsub. rewrite <- Hperm in Hsub.
      specialize (Hall name sub Hsub). congruence.
    + rewrite Heq in Hn. injection Hn as <-.
      rewrite Hperm in Hin. apply elem_of_map_to_list in Hin.
      pose proof (Huniq name' sub' Hin Hc') as ->.
      congruence.
Qed.

End PeerCount.

Section AfterStart.

Variable ParseIP : string → IP.
Variable sys : System.
Variable libs : Libraries.
Variable LightClientFinalityUpdateTopic : string.

(** X22.  A Sentinel as [New] returns it has no gossip manager, and
    [GetPeersCount] has no result on it (it dereferences the missing
    manager).  After a [Start] without error there is a manager without
    subscriptions, and [GetPeersCount] returns the number of peers of
    the host, nothing else. *)
Theorem peer_count_needs_start (cfg : SentinelConfig) (bootNodes enodes : list string)
    (s : Sentinel) :
  (New libs cfg bootNodes).1 = inr (s, enodes) →
  (∀ n, ¬ GetPeersCount LightClientFinalityUpdateTopic s n) ∧
  (∀ s', (Start ParseIP sys s).1 = (None, s') →
         ∀ n, GetPeersCount LightClientFinalityUpdateTopic s' n
              ↔ n = length (hostPeers s)).
Proof.
  intros Hnew.
  assert (subManager s = None) as Hnone.
  { unfold New in Hnew.
    destruct (parseBootNodes libs bootNodes) as [[err | ns] t]; [discriminate Hnew | ].
    destruct (GenerateKey libs); [discriminate Hnew | ].
    destruct (buildOptions libs); [discriminate Hnew | ].
    destruct (libp2pNew libs) as [err | peers]; [discriminate Hnew | ].
    destruct (NewGossipSub libs); [discriminate Hnew | ].
    cbn [fst] in Hnew. injection Hnew as <- _. reflexivity. }
  split.
  - intros n (g & entries & Hg & _). congruence.
  - intros s' Hstart.
    assert (subManager s' = Some {| subscriptions := ∅ |} ∧
            hostPeers s' = hostPeers s) as [Hsub Hpeers].
    { rewrite Start_unfold in Hstart.
      destruct (createListener_result ParseIP sys s)
        as [(err & Herr & _) | [_ Heq]].
      - rewrite Herr in Hstart. discriminate Hstart.
      - rewrite Heq in Hstart. cbn [fst snd] in Hstart.
        destruct (connectToBootnodes sys); [discriminate Hstart | ].
        cbn [fst] in Hstart. injection Hstart as <-. split; reflexivity. }
    intros n. split.
    + intros (g & entries & Hg & Hperm & Hn).
      rewrite Hsub in Hg. injection Hg as <-. cbn [subscriptions] in Hperm.
      rewrite map_to_list_empty in Hperm. apply Permutation_nil_r in Hperm as ->.
      unfold GetPeersCountIn in Hn. rewrite Hsub in Hn. cbn in Hn.
      injection Hn as <-. by rewrite Hpeers.
    + intros ->. exists {| subscriptions := ∅ |}, [].
      split; [exact Hsub | ].
      split; [cbn [subscriptions]; by rewrite map_to_list_empty | ].
      unfold GetPeersCountIn. rewrite Hsub. cbn. by rewrite Hpeers.
Qed.

End AfterStart.

(** *** The outbound ping exchange *)

Ltac split_exchange net :=
  destruct (WritePacket net {| Id := 1 |}) as [n [ew | ]];
  [ | destruct (n =? 8) eqn:Hsize;
      [ destruct (CloseWrite net) as [ec | ];
        destruct (ReadByte net) as [code [er | ]];
        destruct (bool_decide (byteZ code = 1)) eqn:Hcode;
        destruct (Decode net) as [decoded [ed | ]] | ] ].

Ltac absent :=
  let H := fresh in
  intros H;
  repeat (apply elem_of_cons in H as [H | H]; [discriminate H | ]);
  apply elem_of_nil in H; destruct H.

Ltac present :=
  repeat first [ apply list_elem_of_here | apply list_elem_of_further ].

Section PingRequest.

Variable ProtocolPrefix : string.

(** X23.  The stream is closed exactly when it was opened: without a
    peer the call only logs a warning, and when the stream cannot be
    opened nothing is written, read or closed. *)
Theorem closed_iff_opened (net : Network) :
  (OpClose ∈ (pingRequest ProtocolPrefix net).2 ↔
   (∃ peer, connectToRandomPeer net = inr peer) ∧ NewStream net = None) ∧
  (∀ err, connectToRandomPeer net = inl err →
          pingRequest ProtocolPrefix net
          = (ExitNoPeer, [OpWarn "Failed to ping request"])) ∧
  (∀ peer err, connectToRandomPeer net = inr peer → NewStream net = Some err →
               (pingRequest ProtocolPrefix net).1 = ExitNoStream ∧
               streamOps (pingRequest ProtocolPrefix net).2
               = [OpNewStream peer (ProtocolPrefix +:+ "/ping/1/ssz_snappy")]).
Proof.
  split; [ | split].
  - destruct (connectToRandomPeer net) as [err | peer] eqn:Hpeer.
    + unfold pingRequest. rewrite Hpeer. cbn [snd]. split.
      * absent.
      * intros [[peer H] _]. discriminate H.
    + destruct (NewStream net) as [err | ] eqn:Hstream.
      * unfold pingRequest. rewrite Hpeer, Hstream. cbn [snd app]. split.
        -- absent.
        -- intros [_ H]. discriminate H.
      * rewrite (SentinelProps.pingRequest_opened ProtocolPrefix net peer Hpeer Hstream).
        cbn [snd]. split; [intros _; split; [by eexists | reflexivity] | intros _].
        apply list_elem_of_further, elem_of_app. right. apply list_elem_of_here.
  - intros err Hpeer. unfold pingRequest. rewrite Hpeer. reflexivity.
  - intros peer err Hpeer Hstream. unfold pingRequest. rewrite Hpeer, Hstream.
    split; reflexivity.
Qed.

(** X24.  A failed half-close of the request and a failed read of the
    status byte are only logged: the exchange goes on with the status
    byte the read returned, and ends by the same return, after the same
    operations on the stream, as when neither had failed. *)
Theorem soft_failures_are_only_logged (net : Network) (closeErr readErr : option string) :
  let net' :=
    {| connectToRandomPeer := connectToRandomPeer net;
       NewStream := NewStream net;
       WritePacket := WritePacket net;
       CloseWrite := closeErr;
       ReadByte := ((ReadByte net).1, readErr);
       Decode := Decode net |} in
  (pingRequest ProtocolPrefix net').1 = (pingRequest ProtocolPrefix net).1 ∧
  streamOps (pingRequest ProtocolPrefix net').2
  = streamOps (pingRequest ProtocolPrefix net).2.
Proof.
  intros net'. unfold pingRequest, deferring, exchange. subst net'.
  cbn [connectToRandomPeer NewStream WritePacket CloseWrite ReadByte Decode].
  destruct (connectToRandomPeer net) as [err | peer]; [split; reflexivity | ].
  destruct (NewStream net) as [err | ]; [split; reflexivity | ].
  destruct (WritePacket net {| Id := 1 |}) as [n [ew | ]]; [split; reflexivity | ].
  destruct (n =? 8); [ | split; reflexivity].
  destruct (ReadByte net) as [code er]. cbn [fst negb].
  destruct (bool_decide (byteZ code = 1));
    destruct (Decode net) as [decoded [ed | ]];
    destruct closeErr, readErr, (CloseWrite net), er; split; reflexivity.
Qed.

(** X25.  The line [received ping response] is logged exactly when the
    call runs to its end.  The pong it reports is the sequence number
    that was decoded when the status byte is 1, and 0, the number of
    the empty ping, for every other status byte. *)
Theorem received_logged_iff_done (net : Network) :
  ((∃ peer code pong,
      OpInfoReceived peer code pong ∈ (pingRequest ProtocolPrefix net).2) ↔
   (pingRequest ProtocolPrefix net).1 = ExitDone) ∧
  (∀ peer code pong,
     OpInfoReceived peer code pong ∈ (pingRequest ProtocolPrefix net).2 →
     connectToRandomPeer net = inr peer ∧
     code = (ReadByte net).1 ∧
     pong = if bool_decide (byteZ code = 1) then Id (Decode net).1 else 0%N).
Proof.
  unfold pingRequest, deferring, exchange.
  destruct (connectToRandomPeer net) as [err | peer].
  { cbn. split; [split | ].
    - intros (p & c & g & H). revert H. absent.
    - intros H. discriminate H.
    - intros p c g H. exfalso. revert H. absent. }
  destruct (NewStream net) as [err | ].
  { cbn. split; [split | ].
    - intros (p & c & g & H). revert H. absent.
    - intros H. discriminate H.
    - intros p c g H. exfalso. revert H. absent. }
  split_exchange net; cbn [fst snd app negb]; (split; [split | ]);
    try (intros (p & c & g & H); exfalso; revert H; absent);
    try (intros H; discriminate H);
    try (intros p c g H; exfalso; revert H; absent);
    try reflexivity;
    try (intros _; eexists _, _, _; present);
    intros p c g H;
    repeat (apply elem_of_cons in H as [H | H];
            [try discriminate H; injection H as -> -> ->;
             rewrite ?Hcode; done | ]);
    apply elem_of_nil in H; done.
Qed.

Variable net : Network.
Variable peer : string.

Hypothesis Hpeer : connectToRandomPeer net = inr peer.
Hypothesis Hstream : NewStream net = None.

(** X26.  On an open stream the operations come in one order: the ping
    with sequence number 1 is written, the request is half-closed, the
    status byte is read, the response is decoded, and whatever of this
    was done is followed by the close.  The call does the first
    operation only (when the write fails or reports a size other than
    8), the first three, or all four (exactly when the write went well
    and the status byte is 1). *)
Theorem stream_operations_in_order :
  ∃ k : nat,
    streamOps (pingRequest ProtocolPrefix net).2 =
      OpNewStream peer (ProtocolPrefix +:+ "/ping/1/ssz_snappy")
        :: take k exchangeOps ++ [OpClose] ∧
    (k = 1 ∨ k = 3 ∨ k = 4)%nat ∧
    (k = 1%nat ↔ WritePacket net {| Id := 1 |} ≠ (8, None)) ∧
    (k = 4%nat ↔
     WritePacket net {| Id := 1 |} = (8, None) ∧ byteZ (ReadByte net).1 = 1).
Proof.
  rewrite (SentinelProps.pingRequest_opened ProtocolPrefix net peer Hpeer Hstream).
  unfold exchange.
  destruct (WritePacket net {| Id := 1 |}) as [n [ew | ]].
  { exists 1%nat. split; [reflexivity | ]. split; [by left | ].
    split; [split; [intros _ H; discriminate H | done] | ].
    split; [intros H; discriminate H | intros [H _]; discriminate H]. }
  destruct (n =? 8) eqn:Hsize.
  - apply Z.eqb_eq in Hsize as ->.
    destruct (ReadByte net) as [code er]. cbn [fst negb].
    destruct (bool_decide (byteZ code = 1)) eqn:Hcode.
    + apply bool_decide_eq_true_1 in Hcode. exists 4%nat.
      split; [destruct (CloseWrite net), er, (Decode net) as [decoded [ed | ]];
              reflexivity | ].
      split; [by right; right | ].
      split; [split; [intros H; discriminate H | intros H; done] | ].
      split; [intros _; done | done].
    + apply bool_decide_eq_false_1 in Hcode. exists 3%nat.
      split; [destruct (CloseWrite net), er; reflexivity | ].
      split; [by right; left | ].
      split; [split; [intros H; discriminate H | intros H; done] | ].
      split; [intros H; discriminate H | intros [_ H]; done].
  - apply Z.eqb_neq in Hsize. exists 1%nat. cbn [negb].
    split; [reflexivity | ]. split; [by left | ].
    split; [split; [intros _ H; injection H as H; done | done] | ].
    split; [intros H; discriminate H | intros [H _]; injection H as H; done].
Qed.

End PingRequest.

(** *** The properties at concrete instances *)

Lemma failed_start_witness :
  (Start Examples.parseKnown Examples.noBootnodes
     (Examples.configured "127.0.0.1")).1.1
    = Some ("failed to connect to bootnodes err=" +:+ "no boot node reachable") ∧
  (EvGoListenForPeers
     ∉ (Start Examples.parseKnown Examples.noBootnodes
          (Examples.configured "127.0.0.1")).2) ∧
  subManager (Start Examples.parseKnown Examples.noBootnodes
                (Examples.configured "127.0.0.1")).1.2 = None.
Proof.
  split; [reflexivity | ].
  destruct (failed_start Examples.parseKnown Examples.noBootnodes
              (Examples.configured "127.0.0.1") _ eq_refl)
    as (Hgo & _ & Hsub & _).
  split; [exact Hgo | exact Hsub].
Defined.

Lemma first_bad_boot_node_aborts_witness :
  Forall (λ x, ∃ n, Sentinel.Parse Examples.goodLibraries x = inr n) ["enr:a"] ∧
  Sentinel.Parse Examples.goodLibraries "enode" = inl "invalid URL scheme" ∧
  New Examples.goodLibraries Examples.loopbackConfig (["enr:a"] ++ "enode" :: ["enr:b"])
  = (inl "invalid URL scheme", map BuiltParse (["enr:a"] ++ ["enode"])).
Proof.
  assert (Forall (λ x, ∃ n, Sentinel.Parse Examples.goodLibraries x = inr n)
            ["enr:a"]) as Hpre
    by (repeat constructor; by eexists).
  split; [exact Hpre | ]. split; [reflexivity | ].
  exact (first_bad_boot_node_aborts Examples.goodLibraries Examples.loopbackConfig
           ["enr:a"] ["enr:b"] "enode" "invalid URL scheme" Hpre eq_refl).
Defined.

Lemma new_sentinel_witness :
  (New Examples.goodLibraries Examples.loopbackConfig ["enr:a"; "enr:b"]).1
    = inr (Examples.configuredWith ["p1"; "p2"], ["enr:a"; "enr:b"]) ∧
  ∃ peers,
    libp2pNew Examples.goodLibraries = inr peers ∧
    Examples.configuredWith ["p1"; "p2"] =
      {| started := false; listener := None; cfg := Examples.loopbackConfig;
         hostPeers := peers; metadataV1 := None; subManager := None |} ∧
    Forall2 (λ b n, Sentinel.Parse Examples.goodLibraries b = inr n)
      ["enr:a"; "enr:b"] ["enr:a"; "enr:b"] ∧
    (New Examples.goodLibraries Examples.loopbackConfig ["enr:a"; "enr:b"]).2 =
      map BuiltParse ["enr:a"; "enr:b"]
      ++ [BuiltGenerateKey; BuiltOptions; BuiltHost; BuiltRemoveStreamHandler;
          BuiltGossipSub].
Proof.
  split; [reflexivity | ].
  exact (new_sentinel Examples.goodLibraries Examples.loopbackConfig
           ["enr:a"; "enr:b"] ["enr:a"; "enr:b"]
           (Examples.configuredWith ["p1"; "p2"]) eq_refl).
Defined.

Lemma any_finality_subscription_may_be_counted_witness :
  subManager Examples.fivePeers
    = Some {| subscriptions :=
                {[ "/eth2/4a26c58b/light_client_finality_update/ssz_snappy" :=
                     {| topic := {| ListPeers := ["p1"; "p2"] |} |} ]} |} ∧
  ({[ "/eth2/4a26c58b/light_client_finality_update/ssz_snappy" :=
        {| topic := {| ListPeers := ["p1"; "p2"] |} |} ]}
     : gmap string GossipSubscription)
    !! "/eth2/4a26c58b/light_client_finality_update/ssz_snappy"
    = Some {| topic := {| ListPeers := ["p1"; "p2"] |} |} ∧
  Contains "/eth2/4a26c58b/light_client_finality_update/ssz_snappy"
    Examples.finalityTopic = true ∧
  GetPeersCount Examples.finalityTopic Examples.fivePeers 2.
Proof.
  assert (({[ "/eth2/4a26c58b/light_client_finality_update/ssz_snappy" :=
                {| topic := {| ListPeers := ["p1"; "p2"] |} |} ]}
             : gmap string GossipSubscription)
            !! "/eth2/4a26c58b/light_client_finality_update/ssz_snappy"
          = Some {| topic := {| ListPeers := ["p1"; "p2"] |} |}) as Hlook
    by apply lookup_singleton_eq.
  split; [reflexivity | ]. split; [exact Hlook | ]. split; [reflexivity | ].
  exact (proj1 (any_finality_subscription_may_be_counted Examples.finalityTopic
                  Examples.fivePeers _ _ _ eq_refl Hlook eq_refl)).
Defined.

Lemma peer_count_needs_start_witness :
  (New Examples.goodLibraries Examples.loopbackConfig ["enr:a"]).1
    = inr (Examples.configuredWith ["p1"; "p2"], ["enr:a"]) ∧
  (Start Examples.parseKnown Examples.quietSystem
     (Examples.configuredWith ["p1"; "p2"])).1.1 = None ∧
  (∀ n, ¬ GetPeersCount Examples.finalityTopic
            (Examples.configuredWith ["p1"; "p2"]) n) ∧
  GetPeersCount Examples.finalityTopic
    (Start Examples.parseKnown Examples.quietSystem
       (Examples.configuredWith ["p1"; "p2"])).1.2 2.
Proof.
  split; [reflexivity | ]. split; [reflexivity | ].
  destruct (peer_count_needs_start Examples.parseKnown Examples.quietSystem
              Examples.goodLibraries Examples.finalityTopic
              Examples.loopbackConfig ["enr:a"] ["enr:a"]
              (Examples.configuredWith ["p1"; "p2"]) eq_refl) as [Hnone Hafter].
  split; [exact Hnone | ].
  apply (Hafter _ eq_refl). reflexivity.
Defined.

Lemma stream_operations_in_order_witness :
  connectToRandomPeer Examples.echoingPeer = inr "B" ∧
  NewStream Examples.echoingPeer = None ∧
  ∃ k : nat,
    streamOps (pingRequest "/eth2/beacon_chain/req" Examples.echoingPeer).2 =
      OpNewStream "B" ("/eth2/beacon_chain/req" +:+ "/ping/1/ssz_snappy")
        :: take k exchangeOps ++ [OpClose] ∧
    (k = 1 ∨ k = 3 ∨ k = 4)%nat.
Proof.
  split; [reflexivity | ]. split; [reflexivity | ].
  destruct (stream_operations_in_order "/eth2/beacon_chain/req"
              Examples.echoingPeer "B" eq_refl eq_refl) as (k & Hops & Hk & _).
  exists k. split; [exact Hops | exact Hk].
Defined.

End SentinelMore.
